(** * A fault-tolerant recommendation service behind circuit breakers

    Shallow embedding of [recommendation-service/src/circuitBreaker.js] and of
    the [/recommendations/:userId] handler of [recommendation-service/src/app.js].

    Conventions of the embedding.
    - Integer-valued JavaScript numbers (counters, thresholds, timestamps in
      milliseconds) are [Z]; they stay far below 2^53, where JavaScript
      integer arithmetic is exact.
    - The two real-valued quantities of the breaker, the failure rate and its
      threshold, are IEEE 754 binary64 values ([spec_float]), with the
      round-to-nearest-even division and multiplication of [SpecFloat].
    - Mutation of [this] is explicit state passing: every method takes the
      breaker and returns the new breaker.
    - The outside world is a record [World] holding the wall clock read by
      [Date.now()] and the log of the HTTP requests sent so far.
    - An [async] call is run to completion before the next method starts
      (calls do not overlap); [console.log] output is not modelled. *)

From Stdlib Require Import ZArith List String Ascii Bool Lia.
From Stdlib Require Import Floats.SpecFloat DecimalString.
Import ListNotations.
Local Open Scope Z_scope.

(** ** JavaScript numbers and their renderings *)

Definition number := spec_float.

Definition prec : Z := 53.
Definition emax : Z := 1024.

Definition of_Z (z : Z) : number := binary_normalize prec emax z 0 false.
Definition num_div : number -> number -> number := SFdiv prec emax.
Definition num_mul : number -> number -> number := SFmul prec emax.
(** [x >= y] on numbers; false as soon as one side is NaN. *)
Definition num_ge (x y : number) : bool := SFleb y x.

(** [String(n)] for an integer [n]. *)
Definition string_of_Z (z : Z) : string := NilZero.string_of_int (Z.to_int z).

(** The integer [n] for which [n / 10] is closest to [m * 2^e], the larger
    one when two are equally close (step 11 of [Number.prototype.toFixed]
    with one fraction digit). *)
Definition tenths (m : positive) (e : Z) : Z :=
  match e with
  | Zneg p => (20 * Zpos m + 2 ^ Zpos p) / (2 * 2 ^ Zpos p)
  | _ => 10 * Zpos m * 2 ^ e
  end.

(** [n] written with its last digit after the decimal point. *)
Definition one_decimal (n : Z) : string :=
  (string_of_Z (n / 10) ++ "." ++ string_of_Z (n mod 10))%string.

Section Rendering.

(** [Number::toString], used by [toFixed] only for non-finite values and
    for magnitudes of at least 10^21, and by [Array.prototype.join] for
    numeric elements. *)
Variable Number_toString : number -> string.

(** [x.toFixed(1)] *)
Definition toFixed1 (x : number) : string :=
  match x with
  | S754_zero _ => "0.0"%string
  | S754_finite s m e =>
      if num_ge (SFabs x) (of_Z (10 ^ 21)) then
        ((if s then "-" else "") ++ Number_toString (SFabs x))%string
      else ((if s then "-" else "") ++ one_decimal (tenths m e))%string
  | _ => Number_toString x
  end.

(** [((num / den) * 100).toFixed(1) + '%'] *)
Definition percentage (num den : Z) : string :=
  (toFixed1 (num_mul (num_div (of_Z num) (of_Z den)) (of_Z 100)) ++ "%")%string.

End Rendering.

(** ** The world outside the process *)

Record World := mkWorld {
  clock : Z;                 (* what [Date.now()] returns *)
  requests : list string     (* URLs requested so far, oldest first *)
}.

Definition Date_now (w : World) : Z := clock w.

(** ** circuitBreaker.js *)

Inductive STATE := CLOSED | OPEN | HALF_OPEN.

(** The string each state is in the source. *)
Definition STATE_label (s : STATE) : string :=
  match s with
  | CLOSED => "CLOSED"
  | OPEN => "OPEN"
  | HALF_OPEN => "HALF_OPEN"
  end.

(** What a promise can be rejected with. *)
Inductive Error :=
| CircuitOpenError (circuitName : string) (circuitState : STATE)
| TimeoutError (message : string)
| OtherError (message : string).

Definition isCircuitOpen (e : Error) : bool :=
  match e with CircuitOpenError _ _ => true | _ => false end.

Definition isTimeout (e : Error) : bool :=
  match e with TimeoutError _ => true | _ => false end.

(** A settled promise. *)
Inductive Settled (A : Type) :=
| Fulfilled (v : A)
| Rejected (e : Error).
Arguments Fulfilled {A} v.
Arguments Rejected {A} e.

(** The function handed to [execute]: it runs in a world and settles in a
    later one. *)
Definition Operation (A : Type) := World -> Settled A * World.

Record Options := mkOptions {
  opt_requestTimeout : option Z;
  opt_windowSize : option Z;
  opt_failureRateThreshold : option number;
  opt_consecutiveFailureThreshold : option Z;
  opt_openStateDuration : option Z;
  opt_halfOpenMaxTrials : option Z
}.

Record CircuitBreaker := mkCircuitBreaker {
  name : string;
  requestTimeout : Z;
  windowSize : Z;
  failureRateThreshold : number;
  consecutiveFailureThreshold : Z;
  openStateDuration : Z;
  halfOpenMaxTrials : Z;
  _state : STATE;
  _window : list bool;
  _consecutiveFailures : Z;
  _openedAt : option Z;
  _halfOpenTrials : Z;
  _halfOpenSuccesses : Z;
  _totalSuccess : Z;
  _totalFailure : Z
}.

(** [a ?? d] *)
Definition nullish {A} (a : option A) (d : A) : A :=
  match a with Some x => x | None => d end.

(** 0.5 as a binary64 value. *)
Definition one_half : number := num_div (of_Z 1) (of_Z 2).

Definition new_CircuitBreaker (nm : string) (options : Options) : CircuitBreaker :=
  {| name := nm;
     requestTimeout := nullish (opt_requestTimeout options) 2000;
     windowSize := nullish (opt_windowSize options) 10;
     failureRateThreshold := nullish (opt_failureRateThreshold options) one_half;
     consecutiveFailureThreshold := nullish (opt_consecutiveFailureThreshold options) 5;
     openStateDuration := nullish (opt_openStateDuration options) 30000;
     halfOpenMaxTrials := nullish (opt_halfOpenMaxTrials options) 3;
     _state := CLOSED;
     _window := [];
     _consecutiveFailures := 0;
     _openedAt := None;
     _halfOpenTrials := 0;
     _halfOpenSuccesses := 0;
     _totalSuccess := 0;
     _totalFailure := 0 |}.

(** Assignments to the mutable fields; the configuration is never written
    after construction. *)
Definition assign (b : CircuitBreaker) (st : STATE) (win : list bool) (cf : Z)
    (oa : option Z) (ht hs ts tf : Z) : CircuitBreaker :=
  {| name := name b;
     requestTimeout := requestTimeout b;
     windowSize := windowSize b;
     failureRateThreshold := failureRateThreshold b;
     consecutiveFailureThreshold := consecutiveFailureThreshold b;
     openStateDuration := openStateDuration b;
     halfOpenMaxTrials := halfOpenMaxTrials b;
     _state := st;
     _window := win;
     _consecutiveFailures := cf;
     _openedAt := oa;
     _halfOpenTrials := ht;
     _halfOpenSuccesses := hs;
     _totalSuccess := ts;
     _totalFailure := tf |}.

Definition set_state (b : CircuitBreaker) (st : STATE) :=
  assign b st (_window b) (_consecutiveFailures b) (_openedAt b)
         (_halfOpenTrials b) (_halfOpenSuccesses b) (_totalSuccess b) (_totalFailure b).
Definition set_window (b : CircuitBreaker) (win : list bool) :=
  assign b (_state b) win (_consecutiveFailures b) (_openedAt b)
         (_halfOpenTrials b) (_halfOpenSuccesses b) (_totalSuccess b) (_totalFailure b).
Definition set_consecutiveFailures (b : CircuitBreaker) (cf : Z) :=
  assign b (_state b) (_window b) cf (_openedAt b)
         (_halfOpenTrials b) (_halfOpenSuccesses b) (_totalSuccess b) (_totalFailure b).
Definition set_openedAt (b : CircuitBreaker) (oa : option Z) :=
  assign b (_state b) (_window b) (_consecutiveFailures b) oa
         (_halfOpenTrials b) (_halfOpenSuccesses b) (_totalSuccess b) (_totalFailure b).
Definition set_halfOpenTrials (b : CircuitBreaker) (ht : Z) :=
  assign b (_state b) (_window b) (_consecutiveFailures b) (_openedAt b)
         ht (_halfOpenSuccesses b) (_totalSuccess b) (_totalFailure b).
Definition set_halfOpenSuccesses (b : CircuitBreaker) (hs : Z) :=
  assign b (_state b) (_window b) (_consecutiveFailures b) (_openedAt b)
         (_halfOpenTrials b) hs (_totalSuccess b) (_totalFailure b).
Definition set_totalSuccess (b : CircuitBreaker) (ts : Z) :=
  assign b (_state b) (_window b) (_consecutiveFailures b) (_openedAt b)
         (_halfOpenTrials b) (_halfOpenSuccesses b) ts (_totalFailure b).
Definition set_totalFailure (b : CircuitBreaker) (tf : Z) :=
  assign b (_state b) (_window b) (_consecutiveFailures b) (_openedAt b)
         (_halfOpenTrials b) (_halfOpenSuccesses b) (_totalSuccess b) tf.

(** [win.length] and [win.filter((r) => !r).length] *)
Definition size (win : list bool) : Z := Z.of_nat (List.length win).
Definition failures (win : list bool) : Z := size (filter negb win).

(** [this._window.length] *)
Definition window_length (b : CircuitBreaker) : Z := size (_window b).

(** [this._window.filter((r) => !r).length] *)
Definition window_failures (b : CircuitBreaker) : Z := failures (_window b).

Definition _transition (b : CircuitBreaker) (newState : STATE) (w : World) : CircuitBreaker :=
  let b := set_state b newState in
  match newState with
  | OPEN =>
      let b := set_openedAt b (Some (Date_now w)) in
      let b := set_halfOpenTrials b 0 in
      set_halfOpenSuccesses b 0
  | HALF_OPEN =>
      let b := set_openedAt b None in
      let b := set_halfOpenTrials b 0 in
      set_halfOpenSuccesses b 0
  | CLOSED =>
      let b := set_openedAt b None in
      let b := set_halfOpenTrials b 0 in
      let b := set_halfOpenSuccesses b 0 in
      let b := set_consecutiveFailures b 0 in
      set_window b []
  end.

Definition _recordResult (b : CircuitBreaker) (success : bool) : CircuitBreaker :=
  let b := set_window b (_window b ++ [success])%list in
  if window_length b >? windowSize b then set_window b (tl (_window b)) else b.

(** The body of [_getFailureRate], as a function of the window. *)
Definition failure_rate (win : list bool) : number :=
  if size win =? 0 then of_Z 0
  else num_div (of_Z (failures win)) (of_Z (size win)).

Definition _getFailureRate (b : CircuitBreaker) : number := failure_rate (_window b).

Definition _maybeTransitionFromOpen (b : CircuitBreaker) (w : World) : CircuitBreaker :=
  match _state b, _openedAt b with
  | OPEN, Some openedAt =>
      let elapsed := Date_now w - openedAt in
      if elapsed >=? openStateDuration b then _transition b HALF_OPEN w else b
  | _, _ => b
  end.

Definition _onSuccess (b : CircuitBreaker) (w : World) : CircuitBreaker :=
  let b := set_totalSuccess b (_totalSuccess b + 1) in
  let b := set_consecutiveFailures b 0 in
  let b := _recordResult b true in
  match _state b with
  | HALF_OPEN =>
      let b := set_halfOpenSuccesses b (_halfOpenSuccesses b + 1) in
      if _halfOpenSuccesses b >=? halfOpenMaxTrials b then _transition b CLOSED w else b
  | _ => b
  end.

Definition _onFailure (b : CircuitBreaker) (err : Error) (w : World) : CircuitBreaker :=
  let b := set_totalFailure b (_totalFailure b + 1) in
  let b := set_consecutiveFailures b (_consecutiveFailures b + 1) in
  let b := _recordResult b false in
  match _state b with
  | HALF_OPEN => _transition b OPEN w
  | CLOSED =>
      if _consecutiveFailures b >=? consecutiveFailureThreshold b then _transition b OPEN w
      else
        let failureRate := _getFailureRate b in
        if (window_length b >=? windowSize b) && num_ge failureRate (failureRateThreshold b)
        then _transition b OPEN w
        else b
  | OPEN => b
  end.

(** The delay a Node.js timer really waits: values below 1 or above
    2^31 - 1 are replaced by 1. *)
Definition timer_delay (ms : Z) : Z :=
  if (ms <? 1) || (ms >? 2147483647) then 1 else ms.

(** The text of the timeout error, for [ms] a whole number of magnitude up
    to 2^53: these the template literal prints digit by digit, larger ones
    rounded or in exponent notation. *)
Definition timeout_message (b : CircuitBreaker) (ms : Z) : string :=
  ("CircuitBreaker[" ++ name b ++ "]: request timed out after "
     ++ string_of_Z ms ++ "ms")%string.

(** The race between [fn] and the timer: [fn] wins when it settles before
    the timer is due; otherwise the promise is rejected with the timeout
    error at the moment the timer fires (the request [fn] sent stays sent). *)
Definition _withTimeout {A} (b : CircuitBreaker) (fn : Operation A) (ms : Z)
    (w : World) : Settled A * World :=
  let '(r, w') := fn w in
  if Date_now w' - Date_now w <? timer_delay ms then (r, w')
  else (Rejected (TimeoutError (timeout_message b ms)),
        {| clock := Date_now w + timer_delay ms; requests := requests w' |}).

(** The decision taken on entry to [execute]: the call goes on with the
    breaker [b], or it is refused with the error [e]. *)
Inductive Admission :=
| Allowed (b : CircuitBreaker)
| Refused (b : CircuitBreaker) (e : Error).

(** The synchronous prefix of [execute], up to the [await]: the time-driven
    check, then the decision by state. *)
Definition admission (b : CircuitBreaker) (w : World) : Admission :=
  let b := _maybeTransitionFromOpen b w in
  match _state b with
  | OPEN => Refused b (CircuitOpenError (name b) (_state b))
  | HALF_OPEN =>
      if _halfOpenTrials b >=? halfOpenMaxTrials b
      then Refused b (CircuitOpenError (name b) (_state b))
      else Allowed (set_halfOpenTrials b (_halfOpenTrials b + 1))
  | CLOSED => Allowed b
  end.

(** The rest of [execute]: the awaited call and the bookkeeping of its
    outcome, at the time it settles. *)
Definition settle {A} (b : CircuitBreaker) (fn : Operation A) (w : World)
    : Settled A * CircuitBreaker * World :=
  let '(r, w') := _withTimeout b fn (requestTimeout b) w in
  match r with
  | Fulfilled result => (Fulfilled result, _onSuccess b w', w')
  | Rejected err => (Rejected err, _onFailure b err w', w')
  end.

Definition execute {A} (b : CircuitBreaker) (fn : Operation A) (w : World)
    : Settled A * CircuitBreaker * World :=
  match admission b w with
  | Refused b e => (Rejected e, b, w)
  | Allowed b => settle b fn w
  end.

(** [get state()] *)
Definition state (b : CircuitBreaker) (w : World) : STATE * CircuitBreaker :=
  let b := _maybeTransitionFromOpen b w in
  (_state b, b).

Definition reset (b : CircuitBreaker) (w : World) : CircuitBreaker :=
  let b := _transition b CLOSED w in
  let b := set_totalSuccess b 0 in
  set_totalFailure b 0.

Record Metrics := mkMetrics {
  m_state : STATE;
  failureRate : string;
  successfulCalls : Z;
  failedCalls : Z;
  windowFailureRate : string;
  consecutiveFailures : Z;
  halfOpenTrials : string
}.

Section Metrics.

Variable Number_toString : number -> string.

Definition getMetrics (b : CircuitBreaker) (w : World) : Metrics * CircuitBreaker :=
  let b := _maybeTransitionFromOpen b w in
  let totalCalls := _totalSuccess b + _totalFailure b in
  let failureRate :=
    if totalCalls >? 0 then percentage Number_toString (_totalFailure b) totalCalls
    else "0.0%"%string in
  ({| m_state := _state b;
      failureRate := failureRate;
      successfulCalls := _totalSuccess b;
      failedCalls := _totalFailure b;
      windowFailureRate :=
        if window_length b >? 0
        then percentage Number_toString (window_failures b) (window_length b)
        else "0.0%"%string;
      consecutiveFailures := _consecutiveFailures b;
      halfOpenTrials :=
        match _state b with
        | HALF_OPEN =>
            (string_of_Z (_halfOpenSuccesses b) ++ "/"
               ++ string_of_Z (halfOpenMaxTrials b))%string
        | _ => "N/A"%string
        end |}, b).

End Metrics.

(** ** JSON data, as [JSON.parse] and [axios] hand it to the handler *)

#[local] Set Warnings "-register-all".

Inductive JValue :=
| JUndefined
| JNull
| JBool (b : bool)
| JNum (x : number)
| JStr (s : string)
| JArr (items : list JValue)
| JObj (fields : list (string * JValue)).

(** Own property [k] of an object, [undefined] when missing (the names of
    an object are distinct). *)
Fixpoint field (k : string) (fields : list (string * JValue)) : JValue :=
  match fields with
  | [] => JUndefined
  | (k', v) :: rest => if String.eqb k k' then v else field k rest
  end.

(** The property read [v.k], for a name [k] that no prototype defines
    ([userId], [preferences], [movies], [trending]): [None] is the
    [TypeError] raised by a read from [null] or [undefined]. *)
Definition get_prop (v : JValue) (k : string) : option JValue :=
  match v with
  | JUndefined | JNull => None
  | JObj fields => Some (field k fields)
  | _ => Some JUndefined
  end.

(** [ToBoolean] *)
Definition truthy (v : JValue) : bool :=
  match v with
  | JUndefined | JNull => false
  | JBool b => b
  | JNum (S754_zero _) | JNum S754_nan => false
  | JNum _ => true
  | JStr s => negb (String.eqb s "")
  | JArr _ | JObj _ => true
  end.

(** [a || b] *)
Definition js_or (a b : JValue) : JValue := if truthy a then a else b.

(** Whether an object literal has a property named [k]. *)
Definition has_field (k : string) (fields : list (string * JValue)) : bool :=
  existsb (fun kv => String.eqb k (fst kv)) fields.

(** [list.join(sep)] on an array of strings. *)
Fixpoint join_strings (sep : string) (l : list string) : string :=
  match l with
  | [] => ""
  | x :: rest =>
      match rest with
      | [] => x
      | _ => (x ++ sep ++ join_strings sep rest)%string
      end
  end.

(** What the handler depends on besides the two breakers. *)
Record Env := mkEnv {
  (** [Number::toString], used by [Array.prototype.join] for numeric elements *)
  Number_toString : number -> string;
  (** [process.env.X || default] *)
  USER_PROFILE_URL : string;
  CONTENT_URL : string;
  TRENDING_URL : string;
  (** [encodeURIComponent]; [None] is its [URIError] *)
  encodeURIComponent : string -> option string;
  (** the network and the upstream services: for a GET of [url] with an axios
      [timeout] issued in world [w], how the axios promise settles (with the
      response data, or rejected) and the time at which it does *)
  network : string -> Z -> World -> Settled JValue * Z
}.

(** [ToString] on JSON data; an array is rendered by its own [join(",")]. *)
Fixpoint ToString (env : Env) (v : JValue) : string :=
  match v with
  | JUndefined => "undefined"
  | JNull => "null"
  | JBool b => if b then "true" else "false"
  | JNum x => Number_toString env x
  | JStr s => s
  | JArr items =>
      join_strings ","
        ((fix each (l : list JValue) : list string :=
            match l with
            | [] => []
            | x :: rest =>
                match x with
                | JUndefined | JNull => ""%string
                | _ => ToString env x
                end :: each rest
            end) items)
  | JObj _ => "[object Object]"
  end.

(** The string an element contributes to [Array.prototype.join]. *)
Definition join_element (env : Env) (x : JValue) : string :=
  match x with
  | JUndefined | JNull => ""%string
  | _ => ToString env x
  end.

(** The method call [v.join(sep)]: only an array has a [join] method, on
    anything else the call raises a [TypeError] ([None]). *)
Definition call_join (env : Env) (v : JValue) (sep : string) : option string :=
  match v with
  | JArr items => Some (join_strings sep (map (join_element env) items))
  | _ => None
  end.

(** [axios.get(url, { timeout }).then((r) => r.data)] *)
Definition axios_get (env : Env) (url : string) (timeout : Z) : Operation JValue :=
  fun w =>
    let '(r, t) := network env url timeout w in
    (r, {| clock := t; requests := (requests w ++ [url])%list |}).

(** The two module-level breakers of app.js. *)
Record App := mkApp {
  userProfileBreaker : CircuitBreaker;
  contentBreaker : CircuitBreaker
}.

Definition app_options : Options :=
  {| opt_requestTimeout := Some 2000;
     opt_windowSize := Some 10;
     opt_failureRateThreshold := Some one_half;
     opt_consecutiveFailureThreshold := Some 5;
     opt_openStateDuration := Some 30000;
     opt_halfOpenMaxTrials := Some 3 |}.

Definition initial_app : App :=
  {| userProfileBreaker := new_CircuitBreaker "user-profile-service" app_options;
     contentBreaker := new_CircuitBreaker "content-service" app_options |}.

Definition DEFAULT_PREFERENCES : JValue := JArr [JStr "Comedy"; JStr "Family"].

Record HttpResponse := mkHttpResponse {
  status : Z;
  body : JValue
}.

(** [res.json(x)] and [res.status(n).json(x)] *)
Definition res_json (x : JValue) : HttpResponse := {| status := 200; body := x |}.
Definition res_status_json (n : Z) (x : JValue) : HttpResponse :=
  {| status := n; body := x |}.

(** The object literal [{ userId, preferences }]. *)
Record UserPreferences := mkUserPreferences {
  userId : JValue;
  preferences : JValue
}.

Definition json_of_preferences (p : UserPreferences) : JValue :=
  JObj [("userId"%string, userId p); ("preferences"%string, preferences p)].

(** The local variables of the handler between its steps. *)
Record Locals := mkLocals {
  fallbacksTriggered : list string;
  userPreferences : UserPreferences;
  recommendations : option JValue    (* [None] is [null] *)
}.

(** The arrow function handed to the user-profile breaker. *)
Definition profile_request (env : Env) (user_id : string) : Operation JValue :=
  axios_get env (USER_PROFILE_URL env ++ "/users/" ++ user_id)%string 3000.

(** Step 1: fetch user preferences through the user-profile breaker. *)
Definition step1 (env : Env) (app : App) (user_id : string) (w : World)
    : Locals * App * World :=
  let '(r, cb, w) := execute (userProfileBreaker app) (profile_request env user_id) w in
  let app := {| userProfileBreaker := cb; contentBreaker := contentBreaker app |} in
  let fallback :=
    {| fallbacksTriggered := ["user-profile-service"%string];
       userPreferences :=
         {| userId := JStr user_id; preferences := DEFAULT_PREFERENCES |};
       recommendations := None |} in
  match r with
  | Fulfilled response =>
      match get_prop response "userId", get_prop response "preferences" with
      | Some uid, Some prefs =>
          ({| fallbacksTriggered := [];
              userPreferences := {| userId := uid; preferences := prefs |};
              recommendations := None |}, app, w)
      | _, _ => (fallback, app, w)
      end
  | Rejected err => (fallback, app, w)
  end.

(** The arrow function handed to the content breaker. *)
Definition content_request (env : Env) (genres : string) : Operation JValue :=
  fun w =>
    match encodeURIComponent env genres with
    | None => (Rejected (OtherError "URI malformed"), w)
    | Some q => axios_get env (CONTENT_URL env ++ "/movies?genres=" ++ q)%string 3000 w
    end.

(** Step 2: fetch the recommendations through the content breaker. *)
Definition step2 (env : Env) (app : App) (l : Locals) (w : World)
    : Locals * App * World :=
  let failed :=
    {| fallbacksTriggered := (fallbacksTriggered l ++ ["content-service"%string])%list;
       userPreferences := userPreferences l;
       recommendations := None |} in
  match call_join env (preferences (userPreferences l)) "," with
  | None => (failed, app, w)
  | Some genres =>
      let '(r, cb, w) := execute (contentBreaker app) (content_request env genres) w in
      let app := {| userProfileBreaker := userProfileBreaker app; contentBreaker := cb |} in
      match r with
      | Fulfilled response =>
          match get_prop response "movies" with
          | Some movies =>
              ({| fallbacksTriggered := fallbacksTriggered l;
                  userPreferences := userPreferences l;
                  recommendations := Some (js_or movies (JArr [])) |}, app, w)
          | None => (failed, app, w)
          end
      | Rejected err => (failed, app, w)
      end
  end.

Definition degraded_message : string :=
  "Our recommendation service is temporarily degraded. Here are some trending movies.".
Definition unavailable_message : string :=
  "All services are currently unavailable. Please try again shortly.".

(** [fallbacksTriggered.join(', ')] *)
Definition fallback_triggered_for (l : Locals) : JValue :=
  JStr (join_strings ", " (fallbacksTriggered l)).

(** Step 3: the trending service, called directly. *)
Definition step3 (env : Env) (l : Locals) (w : World) : HttpResponse * World :=
  let unavailable :=
    res_status_json 503
      (JObj [("error"%string, JStr unavailable_message);
             ("fallback_triggered_for"%string, fallback_triggered_for l)]) in
  let '(r, w) := axios_get env (TRENDING_URL env ++ "/trending")%string 5000 w in
  match r with
  | Fulfilled trendingData =>
      match get_prop trendingData "trending" with
      | Some trending =>
          (res_json
             (JObj [("message"%string, JStr degraded_message);
                    ("trending"%string, trending);
                    ("fallback_triggered_for"%string, fallback_triggered_for l)]), w)
      | None => (unavailable, w)
      end
  | Rejected trendErr => (unavailable, w)
  end.

(** Step 4: the combined response. *)
Definition step4 (l : Locals) (recs : JValue) : HttpResponse :=
  let responseBody :=
    [("userPreferences"%string, json_of_preferences (userPreferences l));
     ("recommendations"%string, recs)] in
  let responseBody :=
    if (Z.of_nat (List.length (fallbacksTriggered l)) >? 0)
    then (responseBody ++
            [("fallback_triggered_for"%string, fallback_triggered_for l)])%list
    else responseBody in
  res_json (JObj responseBody).

(** [GET /recommendations/:userId] *)
Definition recommend (env : Env) (app : App) (user_id : string) (w : World)
    : HttpResponse * App * World :=
  let '(l, app, w) := step1 env app user_id w in
  let '(l, app, w) := step2 env app l w in
  match recommendations l with
  | None => let '(res, w) := step3 env l w in (res, app, w)
  | Some recs => (step4 l recs, app, w)
  end.

(** ** Sequences of breaker operations *)

(** The breakers that a sequence of calls of the public methods can produce
    from a freshly constructed one. *)
Inductive reachable (nm : string) (options : Options) : CircuitBreaker -> Prop :=
| reach_new : reachable nm options (new_CircuitBreaker nm options)
| reach_execute : forall (A : Type) (fn : Operation A) (w : World) (b : CircuitBreaker),
    reachable nm options b -> reachable nm options (snd (fst (execute b fn w)))
| reach_getMetrics : forall (nts : number -> string) (w : World) (b : CircuitBreaker),
    reachable nm options b -> reachable nm options (snd (getMetrics nts b w))
| reach_state : forall (w : World) (b : CircuitBreaker),
    reachable nm options b -> reachable nm options (snd (state b w))
| reach_reset : forall (w : World) (b : CircuitBreaker),
    reachable nm options b -> reachable nm options (reset b w).

(** The invariants I1 to I4 of the data model. *)
Record invariant (b : CircuitBreaker) : Prop := mkInvariant {
  inv_opened : _openedAt b <> None <-> _state b = OPEN;
  inv_successes : _halfOpenSuccesses b <= _halfOpenTrials b;
  inv_trials : _halfOpenTrials b <= halfOpenMaxTrials b;
  inv_window : window_length b <= windowSize b
}.

(** The same with calls that overlap: between the entry of a call and the
    recording of its outcome any other turn may run, so the entry, the
    recording of a success and the recording of a failure are turns of their
    own, in any order. *)
Inductive interleaved (nm : string) (options : Options) : CircuitBreaker -> Prop :=
| turn_new : interleaved nm options (new_CircuitBreaker nm options)
| turn_entry : forall (w : World) (b : CircuitBreaker),
    interleaved nm options b ->
    interleaved nm options
      (match admission b w with Allowed b' => b' | Refused b' _ => b' end)
| turn_success : forall (w : World) (b : CircuitBreaker),
    interleaved nm options b -> interleaved nm options (_onSuccess b w)
| turn_failure : forall (err : Error) (w : World) (b : CircuitBreaker),
    interleaved nm options b -> interleaved nm options (_onFailure b err w)
| turn_getMetrics : forall (nts : number -> string) (w : World) (b : CircuitBreaker),
    interleaved nm options b -> interleaved nm options (snd (getMetrics nts b w))
| turn_state : forall (w : World) (b : CircuitBreaker),
    interleaved nm options b -> interleaved nm options (snd (state b w))
| turn_reset : forall (w : World) (b : CircuitBreaker),
    interleaved nm options b -> interleaved nm options (reset b w).

(** The part of the invariants that no order of turns can break. *)
Record turn_invariant (b : CircuitBreaker) : Prop := mkTurnInvariant {
  turn_opened : _openedAt b <> None <-> _state b = OPEN;
  turn_trials : _halfOpenTrials b <= halfOpenMaxTrials b;
  turn_window : window_length b <= windowSize b
}.

(** The configuration is read-only. *)
Definition same_config (b b' : CircuitBreaker) : Prop :=
  name b' = name b /\
  requestTimeout b' = requestTimeout b /\
  windowSize b' = windowSize b /\
  failureRateThreshold b' = failureRateThreshold b /\
  consecutiveFailureThreshold b' = consecutiveFailureThreshold b /\
  openStateDuration b' = openStateDuration b /\
  halfOpenMaxTrials b' = halfOpenMaxTrials b.

(** ** Sample data for the examples *)

Definition no_options : Options :=
  {| opt_requestTimeout := None;
     opt_windowSize := None;
     opt_failureRateThreshold := None;
     opt_consecutiveFailureThreshold := None;
     opt_openStateDuration := None;
     opt_halfOpenMaxTrials := None |}.

Definition at_time (t : Z) : World := {| clock := t; requests := [] |}.

(** An operation that fails at once, and one that answers [v] at once. *)
Definition failing {A} : Operation A := fun w => (Rejected (OtherError "boom"), w).
Definition answering {A} (v : A) : Operation A := fun w => (Fulfilled v, w).

(** [n] calls of [execute] with the same operation, each in world [w]. *)
Fixpoint repeat_execute {A} (n : nat) (fn : Operation A) (w : World)
    (b : CircuitBreaker) : CircuitBreaker :=
  match n with
  | O => b
  | S n => repeat_execute n fn w (snd (fst (execute b fn w)))
  end.

(** One call per outcome, [true] for an operation that answers and [false]
    for one that fails, each in world [w]. *)
Fixpoint run_outcomes (outcomes : list bool) (w : World) (b : CircuitBreaker)
    : CircuitBreaker :=
  match outcomes with
  | [] => b
  | true :: rest => run_outcomes rest w (snd (fst (execute b (answering tt) w)))
  | false :: rest => run_outcomes rest w (snd (fst (execute b (@failing unit) w)))
  end.

(** A breaker that opened at time [t]. *)
Definition opened_at (t : Z) : CircuitBreaker :=
  repeat_execute 5 (@failing unit) (at_time t) (new_CircuitBreaker "svc" no_options).

(** A breaker that went half-open at time [t]. *)
Definition half_opened_at (t : Z) : CircuitBreaker :=
  snd (state (opened_at (t - 30000)) (at_time t)).

(** A sample deployment: the default URLs of app.js, percent-encoding of
    byte strings, and three behaviours of the network. *)
Definition sample_profile_url : string := "http://user-profile-service:8081".
Definition sample_content_url : string := "http://content-service:8082".
Definition sample_trending_url : string := "http://trending-service:8083".

Definition unreserved (c : ascii) : bool :=
  let n := Z.of_nat (nat_of_ascii c) in
  ((65 <=? n) && (n <=? 90)) || ((97 <=? n) && (n <=? 122)) || ((48 <=? n) && (n <=? 57))
  || existsb (Ascii.eqb c) ["-"; "_"; "."; "!"; "~"; "*"; "'"; "("; ")"]%char.

Definition hex_digit (n : nat) : ascii :=
  nth n ["0"; "1"; "2"; "3"; "4"; "5"; "6"; "7"; "8"; "9";
         "A"; "B"; "C"; "D"; "E"; "F"]%char "0"%char.

Fixpoint percent_encode (s : string) : string :=
  match s with
  | EmptyString => EmptyString
  | String c rest =>
      if unreserved c then String c (percent_encode rest)
      else String "%" (String (hex_digit (nat_of_ascii c / 16))
                         (String (hex_digit (nat_of_ascii c mod 16))
                            (percent_encode rest)))
  end.

Definition sample_encode (s : string) : option string := Some (percent_encode s).

Definition sample_number_string (x : number) : string := "NaN".

Definition sample_movie : JValue :=
  JObj [("movieId"%string, JNum (of_Z 102));
        ("title"%string, JStr "The Dark Knight");
        ("genre"%string, JStr "Action")].

Definition sample_profile : JValue :=
  JObj [("userId"%string, JStr "u1");
        ("preferences"%string, JArr [JStr "Action"; JStr "Sci-Fi"])].

Definition sample_trending : JValue :=
  JObj [("trending"%string, JArr [sample_movie])].

(** Every upstream answers after 5 ms; the content service answers [content]. *)
Definition network_answering (content : JValue) (url : string) (timeout : Z) (w : World)
    : Settled JValue * Z :=
  if String.eqb url (sample_trending_url ++ "/trending") then
    (Fulfilled sample_trending, clock w + 5)
  else if String.prefix sample_content_url url then (Fulfilled content, clock w + 5)
  else (Fulfilled sample_profile, clock w + 5).

(** Only the trending service answers. *)
Definition network_trending_only (url : string) (timeout : Z) (w : World)
    : Settled JValue * Z :=
  if String.eqb url (sample_trending_url ++ "/trending") then
    (Fulfilled sample_trending, clock w + 5)
  else (Rejected (OtherError "Request failed with status code 500"), clock w + 5).

(** Nothing answers. *)
Definition network_down (url : string) (timeout : Z) (w : World) : Settled JValue * Z :=
  (Rejected (OtherError "connect ECONNREFUSED"), clock w + 5).

Definition sample_env (net : string -> Z -> World -> Settled JValue * Z) : Env :=
  {| Number_toString := sample_number_string;
     USER_PROFILE_URL := sample_profile_url;
     CONTENT_URL := sample_content_url;
     TRENDING_URL := sample_trending_url;
     encodeURIComponent := sample_encode;
     network := net |}.

Definition env_healthy : Env :=
  sample_env (network_answering (JObj [("movies"%string, JArr [sample_movie])])).
Definition env_no_movies : Env := sample_env (network_answering (JObj [])).
Definition env_trending_only : Env := sample_env network_trending_only.
Definition env_down : Env := sample_env network_down.

(** Only the user-profile service is down; the content service answers
    [content]. *)
Definition network_without_profile (content : JValue) (url : string) (timeout : Z)
    (w : World) : Settled JValue * Z :=
  if String.prefix sample_profile_url url then
    (Rejected (OtherError "Request failed with status code 500"), clock w + 5)
  else network_answering content url timeout w.

Definition env_without_profile : Env :=
  sample_env (network_without_profile (JObj [("movies"%string, JArr [sample_movie])])).

(** The handler's first two steps for user u1 at time 0 on fresh breakers. *)
Definition first_step (env : Env) : Locals * App * World :=
  step1 env initial_app "u1" (at_time 0).
Definition second_step (env : Env) : Locals * App * World :=
  step2 env (snd (fst (first_step env))) (fst (fst (first_step env))) (snd (first_step env)).

Definition env_null_bodies : Env := sample_env (network_answering JNull).

(** A default breaker after four failed calls in a row. *)
Definition four_failures : CircuitBreaker :=
  repeat_execute 4 (@failing unit) (at_time 0) (new_CircuitBreaker "svc" no_options).

(** Both breakers of the application opened at time [t]. *)
Definition both_open (t : Z) : App :=
  {| userProfileBreaker :=
       repeat_execute 5 (@failing unit) (at_time t) (userProfileBreaker initial_app);
     contentBreaker :=
       repeat_execute 5 (@failing unit) (at_time t) (contentBreaker initial_app) |}.

(** ** Exact arithmetic, to compare the binary64 results with *)






(** ** Runs of outcomes, and what stays consistent along a run *)

(** The outcomes of [outcomes], recorded one after the other. *)
Definition record_all (outcomes : list bool) (b : CircuitBreaker) : CircuitBreaker :=
  fold_left _recordResult outcomes b.

(** The last [n] elements of a list, all of it when it is shorter. *)
Definition most_recent {A : Type} (n : nat) (l : list A) : list A :=
  skipn (List.length l - n) l.

(** What the counters of a breaker say about each other. *)
Record consistent (b : CircuitBreaker) : Prop := mkConsistent {
  con_totals : 0 <= _totalSuccess b /\ 0 <= _totalFailure b;
  con_consecutive : 0 <= _consecutiveFailures b <= _totalFailure b;
  con_window_failures : failures (_window b) <= _totalFailure b;
  con_window_successes : size (_window b) - failures (_window b) <= _totalSuccess b;
  con_idle : _state b <> HALF_OPEN -> _halfOpenTrials b = 0 /\ _halfOpenSuccesses b = 0;
  con_probing : _state b = HALF_OPEN ->
                0 <= _halfOpenSuccesses b < halfOpenMaxTrials b /\ 0 <= _halfOpenTrials b;
  con_closed : _state b = CLOSED ->
               _consecutiveFailures b < consecutiveFailureThreshold b
}.

(** An operation that settles as [r] after [d] milliseconds. *)
Definition taking {A : Type} (d : Z) (r : Settled A) : Operation A :=
  fun w => (r, {| clock := clock w + d; requests := requests w |}).

(** A breaker with the options of app.js. *)
Definition app_breaker : CircuitBreaker := new_CircuitBreaker "svc" app_options.

(** A breaker whose [requestTimeout] does not fit a timer. *)
Definition overlong_timeout : CircuitBreaker :=
  new_CircuitBreaker "svc"
    {| opt_requestTimeout := Some 3000000000;
       opt_windowSize := None;
       opt_failureRateThreshold := None;
       opt_consecutiveFailureThreshold := None;
       opt_openStateDuration := None;
       opt_halfOpenMaxTrials := None |}.

(** Calls of [execute] one after the other, each with its own operation
    and in its own world. *)
Fixpoint execute_all {A : Type} (calls : list (Operation A * World)) (b : CircuitBreaker)
    : CircuitBreaker :=
  match calls with
  | [] => b
  | (fn, w) :: rest => execute_all rest (snd (fst (execute b fn w)))
  end.

(** The operation of a call answers before the timer of [ms] milliseconds. *)
Definition in_time {A : Type} (ms : Z) (call : Operation A * World) : bool :=
  let '(fn, w) := call in
  let '(r, w') := fn w in
  match r with
  | Fulfilled _ => Date_now w' - Date_now w <? timer_delay ms
  | Rejected _ => false
  end.

(** The operation of a call throws, or is still running when the timer of
    [ms] milliseconds has fired. *)
Definition fails {A : Type} (ms : Z) (call : Operation A * World) : bool :=
  let '(fn, w) := call in
  let '(r, w') := fn w in
  match r with
  | Fulfilled _ => timer_delay ms <? Date_now w' - Date_now w
  | Rejected _ => true
  end.

(** A breaker of app.js after nine calls that failed and answered in turn. *)
Definition alternating : CircuitBreaker :=
  run_outcomes [false; true; false; true; false; true; false; true; false] (at_time 0)
    app_breaker.

(** ** The other routes of app.js *)

(** The names every object literal inherits from [Object.prototype]; each
    of them reads as a function, [__proto__] as the prototype object itself. *)
Definition object_prototype_names : list string :=
  ["constructor"; "__defineGetter__"; "__defineSetter__"; "hasOwnProperty";
   "__lookupGetter__"; "__lookupSetter__"; "isPrototypeOf"; "propertyIsEnumerable";
   "toString"; "valueOf"; "__proto__"; "toLocaleString"]%string.

(** The outcome of the read [obj[key]] on an object literal: an own
    property, an inherited member, or [undefined]. *)
Inductive Lookup (A : Type) :=
| Own (a : A)
| Inherited
| Missing.

Arguments Own {A} a.
Arguments Inherited {A}.
Arguments Missing {A}.

Definition lookup {A : Type} (own : list (string * A)) (key : string) : Lookup A :=
  match find (fun kv => String.eqb key (fst kv)) own with
  | Some kv => Own (snd kv)
  | None =>
      if existsb (String.eqb key) object_prototype_names then Inherited else Missing
  end.

(** What [POST /simulate] depends on besides [Env]. *)
Record Outbound := mkOutbound {
  (** [axios.post(url, data, { timeout })] issued in world [w]: the message
      of the error the promise is rejected with, or the response, and the
      time at which it settles *)
  post : string -> JValue -> Z -> World -> (string + JValue) * Z;
  (** [String(Object.prototype[name])], the source text of the member *)
  member_text : string -> string
}.

Definition axios_post (out : Outbound) (url : string) (data : JValue) (timeout : Z)
    (w : World) : (string + JValue) * World :=
  let '(r, t) := post out url data timeout w in
  (r, {| clock := t; requests := (requests w ++ [url])%list |}).

(** The object literal [serviceMap]. *)
Definition serviceMap (env : Env) : list (string * string) :=
  [("user-profile", USER_PROFILE_URL env); ("content", CONTENT_URL env)]%string.

(** [targetUrl], once [!targetUrl] has been found false: the text that
    [`${targetUrl}/set-behavior`] starts with. *)
Definition targetUrl (out : Outbound) (env : Env) (service : string) : option string :=
  match lookup (serviceMap env) service with
  | Own url => if String.eqb url "" then None else Some url
  | Inherited => Some (member_text out service)
  | Missing => None
  end.

(** [POST /simulate/:service/:behavior] *)
Definition simulate (out : Outbound) (env : Env) (service behavior : string) (w : World)
    : HttpResponse * World :=
  match targetUrl out env service with
  | None =>
      (res_status_json 400
         (JObj [("error"%string,
                 JStr ("Unknown service: " ++ service ++ ". Must be one of: "
                         ++ join_strings ", " (map fst (serviceMap env)))%string)]), w)
  | Some url =>
      if negb (existsb (String.eqb behavior) ["normal"; "slow"; "fail"]%string) then
        (res_status_json 400
           (JObj [("error"%string,
                   JStr ("Unknown behavior: " ++ behavior
                           ++ ". Must be one of: normal, slow, fail")%string)]), w)
      else
        let '(r, w) :=
          axios_post out (url ++ "/set-behavior")%string
            (JObj [("mode"%string, JStr behavior)]) 5000 w in
        match r with
        | inr _ =>
            (res_json
               (JObj [("service"%string, JStr service);
                      ("behavior"%string, JStr behavior);
                      ("message"%string,
                       JStr (service ++ " behavior set to " ++ behavior)%string)]), w)
        | inl message =>
            (res_status_json 502
               (JObj [("error"%string,
                       JStr ("Could not reach " ++ service ++ " to set behavior")%string);
                      ("details"%string, JStr message)]), w)
        end
  end.

(** The snapshot of [getMetrics] as the object literal it is. *)
Definition json_of_metrics (m : Metrics) : JValue :=
  JObj [("state"%string, JStr (STATE_label (m_state m)));
        ("failureRate"%string, JStr (failureRate m));
        ("successfulCalls"%string, JNum (of_Z (successfulCalls m)));
        ("failedCalls"%string, JNum (of_Z (failedCalls m)));
        ("windowFailureRate"%string, JStr (windowFailureRate m));
        ("consecutiveFailures"%string, JNum (of_Z (consecutiveFailures m)));
        ("halfOpenTrials"%string, JStr (halfOpenTrials m))].

(** [GET /metrics/circuit-breakers] *)
Definition metrics_route (env : Env) (app : App) (w : World) : HttpResponse * App :=
  let '(m1, cb1) := getMetrics (Number_toString env) (userProfileBreaker app) w in
  let '(m2, cb2) := getMetrics (Number_toString env) (contentBreaker app) w in
  (res_json
     (JObj [("userProfileCircuitBreaker"%string, json_of_metrics m1);
            ("contentCircuitBreaker"%string, json_of_metrics m2)]),
   {| userProfileBreaker := cb1; contentBreaker := cb2 |}).

(** [POST /admin/reset-circuit-breakers] *)
Definition admin_reset (app : App) (w : World) : HttpResponse * App :=
  let cb1 := reset (userProfileBreaker app) w in
  let cb2 := reset (contentBreaker app) w in
  (res_json (JObj [("message"%string, JStr "All circuit breakers reset to CLOSED")]),
   {| userProfileBreaker := cb1; contentBreaker := cb2 |}).

(** The requests that reach a route with a handler of its own. *)
Inductive Request :=
| GetRecommendations (user_id : string)
| PostSimulate (service behavior : string)
| GetMetrics
| PostAdminReset.

(** One request served to its end. *)
Definition serve (out : Outbound) (env : Env) (app : App) (req : Request) (w : World)
    : HttpResponse * App * World :=
  match req with
  | GetRecommendations user_id => recommend env app user_id w
  | PostSimulate service behavior =>
      let '(res, w) := simulate out env service behavior w in (res, app, w)
  | GetMetrics => let '(res, app) := metrics_route env app w in (res, app, w)
  | PostAdminReset => let '(res, app) := admin_reset app w in (res, app, w)
  end.

(** The breakers after a sequence of requests, each served to its end in
    the world it arrives in. *)
Inductive served : App -> Prop :=
| served_start : served initial_app
| served_next : forall (out : Outbound) (env : Env) (req : Request) (w : World) (app : App),
    served app -> served (snd (fst (serve out env app req w))).

(** ** The upstream services *)

(** The world [ms] milliseconds later: [await new Promise((resolve) =>
    setTimeout(resolve, ms))]. *)
Definition later (ms : Z) (w : World) : World :=
  {| clock := clock w + ms; requests := requests w |}.

(** [['normal', 'slow', 'fail'].includes(mode)], with the mode when it is
    one of the three. *)
Definition accepted_mode (mode : JValue) : option string :=
  match mode with
  | JStr s => if existsb (String.eqb s) ["normal"; "slow"; "fail"]%string then Some s else None
  | _ => None
  end.

(** [POST /set-behavior] of the user-profile and of the content service,
    which differ in the name [service] they answer with: the response and
    the new value of the module variable [behavior]; [None] is the
    [TypeError] of destructuring a missing body. *)
Definition set_behavior (service behavior : string) (data : JValue)
    : option (HttpResponse * string) :=
  match get_prop data "mode" with
  | None => None
  | Some mode =>
      match accepted_mode mode with
      | None =>
          Some (res_status_json 400
                  (JObj [("error"%string,
                          JStr "Invalid mode. Must be normal, slow, or fail.")]),
                behavior)
      | Some m =>
          Some (res_json (JObj [("service"%string, JStr service);
                                ("behavior"%string, JStr m)]), m)
      end
  end.

(** The variable [behavior] after a sequence of [POST /set-behavior]; a
    request whose handler throws leaves it as it is. *)
Fixpoint behavior_after (service : string) (posts : list JValue) (behavior : string)
    : string :=
  match posts with
  | [] => behavior
  | data :: rest =>
      behavior_after service rest
        match set_behavior service behavior data with
        | Some (_, behavior') => behavior'
        | None => behavior
        end
  end.

Definition simulated_failure : HttpResponse :=
  res_status_json 500 (JObj [("error"%string, JStr "Service error (simulated failure)")]).

(** *** user-profile-service *)

Definition USERS_default : list (string * JValue) :=
  [("preferences"%string, JArr [JStr "Action"; JStr "Sci-Fi"])].

Definition USERS : list (string * list (string * JValue)) :=
  [("default"%string, USERS_default)].

(** [GET /users/:userId]; the body is the object handed to [res.json]. *)
Definition users_route (behavior user_id : string) (w : World) : HttpResponse * World :=
  if String.eqb behavior "fail" then (simulated_failure, w)
  else
    let w := if String.eqb behavior "slow" then later 3000 w else w in
    let user_preferences :=
      match lookup USERS user_id with
      | Own user => field "preferences" user
      | Inherited => JUndefined
      | Missing => field "preferences" USERS_default
      end in
    (res_json (JObj [("userId"%string, JStr user_id);
                     ("preferences"%string, user_preferences)]), w).

(** *** content-service *)

Record Movie := mkMovie {
  movieId : Z;
  title : string;
  genre : string
}.

Definition MOVIES_BY_GENRE : list (string * list Movie) :=
  [("Action", [mkMovie 102 "The Dark Knight" "Action";
               mkMovie 103 "Mad Max: Fury Road" "Action";
               mkMovie 104 "John Wick" "Action"]);
   ("Sci-Fi", [mkMovie 101 "Inception" "Sci-Fi";
               mkMovie 105 "Interstellar" "Sci-Fi";
               mkMovie 106 "The Matrix" "Sci-Fi"]);
   ("Comedy", [mkMovie 201 "The Grand Budapest Hotel" "Comedy";
               mkMovie 202 "Superbad" "Comedy"]);
   ("Family", [mkMovie 301 "The Lion King" "Family";
               mkMovie 302 "Toy Story" "Family"])]%string.

Definition DEFAULT_MOVIES : list Movie :=
  [mkMovie 101 "Inception" "Sci-Fi"; mkMovie 102 "The Dark Knight" "Action"]%string.

(** [req.query.genres]: absent, a string, or the array or object that the
    query parser makes of a repeated or bracketed parameter. *)
Inductive QueryValue :=
| QAbsent
| QText (s : string)
| QStructured.

(** [s.split(sep)] for a separator of one character. *)
Fixpoint split_on (sep : ascii) (s : string) : list string :=
  match s with
  | EmptyString => [EmptyString]
  | String c rest =>
      if Ascii.eqb c sep then EmptyString :: split_on sep rest
      else
        match split_on sep rest with
        | [] => [String c EmptyString]
        | x :: xs => String c x :: xs
        end
  end.

(** [req.query.genres ? req.query.genres.split(',') : []]; [None] is the
    [TypeError] of calling a [split] that is not there. *)
Definition parse_genres (q : QueryValue) : option (list string) :=
  match q with
  | QAbsent => Some []
  | QText s => if String.eqb s "" then Some [] else Some (split_on "," s)
  | QStructured => None
  end.

(** The loop over the genres; [None] is the [TypeError] of spreading an
    inherited member, which is not iterable. *)
Fixpoint collect (genres : list string) (movies : list Movie) : option (list Movie) :=
  match genres with
  | [] => Some movies
  | g :: rest =>
      match lookup MOVIES_BY_GENRE g with
      | Own genreMovies => collect rest (movies ++ genreMovies)
      | Inherited => None
      | Missing => collect rest movies
      end
  end.

(** The filter over [movies] with the set [seen] of the ids met so far. *)
Fixpoint unique_from (seen : list Z) (movies : list Movie) : list Movie :=
  match movies with
  | [] => []
  | m :: rest =>
      if existsb (Z.eqb (movieId m)) seen then unique_from seen rest
      else m :: unique_from (movieId m :: seen) rest
  end.

Definition json_of_movie (m : Movie) : JValue :=
  JObj [("movieId"%string, JNum (of_Z (movieId m)));
        ("title"%string, JStr (title m));
        ("genre"%string, JStr (genre m))].

(** The list [movies] that the handler sends, for genres that parsed. *)
Definition selected_movies (genres : list string) : option (list Movie) :=
  match collect genres [] with
  | None => None
  | Some movies =>
      let movies := if Nat.eqb (List.length movies) 0 then DEFAULT_MOVIES else movies in
      Some (unique_from [] movies)
  end.

(** [GET /movies]; [None] is a handler that threw before it answered. *)
Definition movies_route (behavior : string) (q : QueryValue) (w : World)
    : option HttpResponse * World :=
  match parse_genres q with
  | None => (None, w)
  | Some genres =>
      if String.eqb behavior "fail" then (Some simulated_failure, w)
      else
        let w := if String.eqb behavior "slow" then later 3000 w else w in
        match selected_movies genres with
        | None => (None, w)
        | Some movies =>
            (Some (res_json (JObj [("movies"%string, JArr (map json_of_movie movies))])), w)
        end
  end.

(** A user-profile service in its normal mode behind a network of 5 ms;
    the other services as in [network_answering]. *)
Definition network_with_profiles (url : string) (timeout : Z) (w : World)
    : Settled JValue * Z :=
  if String.prefix (sample_profile_url ++ "/users/") url then
    (Fulfilled
       (body (fst (users_route "normal"
                     (substring (String.length (sample_profile_url ++ "/users/"))
                        (String.length url) url) w))), clock w + 5)
  else network_answering (JObj [("movies"%string, JArr [sample_movie])]) url timeout w.

Definition env_with_profiles : Env := sample_env network_with_profiles.

(** Upstream services that answer a POST after 5 ms, as [set_behavior]
    does in its normal mode; the source text of the inherited members as V8
    prints it. *)
Definition sample_outbound : Outbound :=
  {| post := fun url data timeout w =>
       (match set_behavior "content-service" "normal" data with
        | Some (res, _) =>
            if status res =? 200 then inr (body res)
            else inl "Request failed with status code 400"%string
        | None => inl "Request failed with status code 500"%string
        end, clock w + 5);
     member_text := fun name =>
       if String.eqb name "__proto__" then "[object Object]"%string
       else if String.eqb name "constructor" then "function Object() { [native code] }"%string
       else ("function " ++ name ++ "() { [native code] }")%string |}.

(** No comma in [s]. *)
Definition comma_free (s : string) : bool :=
  forallb (fun c => negb (Ascii.eqb c ",")) (list_ascii_of_string s).

(** The catalogue, all genres together. *)
Definition catalogue : list Movie := List.concat (map snd MOVIES_BY_GENRE).

(** The user-profile and the content service in their normal mode behind a
    network of 5 ms, the content service for the genres of the default
    user. *)
Definition network_of_services (url : string) (timeout : Z) (w : World)
    : Settled JValue * Z :=
  if String.eqb url (sample_content_url ++ "/movies?genres=" ++ percent_encode "Action,Sci-Fi")
  then
    (match fst (movies_route "normal" (QText "Action,Sci-Fi") w) with
     | Some res => Fulfilled (body res)
     | None => Rejected (OtherError "Request failed with status code 500")
     end, clock w + 5)
  else network_with_profiles url timeout w.

Definition env_of_services : Env := sample_env network_of_services.

(** A breaker of app.js after nine calls of which every third failed. *)
Definition mostly_answering : CircuitBreaker :=
  run_outcomes [false; true; true; false; true; true; false; true; true] (at_time 0)
    app_breaker.

(** ** Two probes that overlap *)

(** A breaker that stays OPEN for a tenth of a second. *)
Definition quick_reopen : Options :=
  {| opt_requestTimeout := None;
     opt_windowSize := None;
     opt_failureRateThreshold := None;
     opt_consecutiveFailureThreshold := None;
     opt_openStateDuration := Some 100;
     opt_halfOpenMaxTrials := None |}.

(** The breaker after the entry of a call of [execute], let in or refused. *)
Definition entry (b : CircuitBreaker) (w : World) : CircuitBreaker :=
  match admission b w with
  | Allowed b' => b'
  | Refused b' _ => b'
  end.

(** Five failures open the breaker at time 0. At 100 two probes are let in,
    one after the other, and both are awaited. The first fails at 110, which
    reopens the breaker; the [state] getter, read at 210, finds it due and
    moves it to HALF_OPEN; the second probe answers at 220, after 120 ms and
    so well within its timer of 2000 ms, and its success is recorded. *)
Definition overlapping_probes : CircuitBreaker :=
  let opened :=
    repeat_execute 5 (@failing unit) (at_time 0) (new_CircuitBreaker "svc" quick_reopen) in
  let first_in := entry opened (at_time 100) in
  let second_in := entry first_in (at_time 100) in
  let first_failed := _onFailure second_in (OtherError "boom") (at_time 110) in
  let looked_at := snd (state first_failed (at_time 210)) in
  _onSuccess looked_at (at_time 220).

(** * Properties of the circuit breaker *)

(** Name the fields of a breaker and compute the projections. *)
Ltac open_breaker b :=
  destruct b as [nm rto wsz frt cft osd hmt st win cf oa ht hs ts tf];
  cbn [name requestTimeout windowSize failureRateThreshold
       consecutiveFailureThreshold openStateDuration halfOpenMaxTrials
       _state _window _consecutiveFailures _openedAt _halfOpenTrials
       _halfOpenSuccesses _totalSuccess _totalFailure] in *.

(** ** Field-by-field effect of the private methods *)

Lemma transition_state : forall b s w, _state (_transition b s w) = s.
Proof. intros b [] w; reflexivity. Qed.

Lemma transition_totals : forall b s w,
    _totalSuccess (_transition b s w) = _totalSuccess b /\
    _totalFailure (_transition b s w) = _totalFailure b.
Proof. intros b [] w; split; reflexivity. Qed.

Lemma transition_half_open_counters : forall b s w,
    _halfOpenTrials (_transition b s w) = 0 /\ _halfOpenSuccesses (_transition b s w) = 0.
Proof. intros b [] w; split; reflexivity. Qed.

Lemma transition_openedAt : forall b s w,
    _openedAt (_transition b s w) =
    match s with OPEN => Some (Date_now w) | _ => None end.
Proof. intros b [] w; reflexivity. Qed.

Lemma transition_keeps_window : forall b s w,
    s <> CLOSED ->
    _window (_transition b s w) = _window b /\
    _consecutiveFailures (_transition b s w) = _consecutiveFailures b.
Proof. intros b [] w H; try congruence; split; reflexivity. Qed.

Lemma recordResult_window : forall b r,
    _window (_recordResult b r) =
    if size (_window b ++ [r]) >? windowSize b
    then tl (_window b ++ [r]) else (_window b ++ [r])%list.
Proof.
  intros b r. unfold _recordResult, window_length. cbn.
  destruct (size (_window b ++ [r]) >? windowSize b); reflexivity.
Qed.

Lemma recordResult_frame : forall b r,
    _state (_recordResult b r) = _state b /\
    _consecutiveFailures (_recordResult b r) = _consecutiveFailures b /\
    _openedAt (_recordResult b r) = _openedAt b /\
    _halfOpenTrials (_recordResult b r) = _halfOpenTrials b /\
    _halfOpenSuccesses (_recordResult b r) = _halfOpenSuccesses b /\
    _totalSuccess (_recordResult b r) = _totalSuccess b /\
    _totalFailure (_recordResult b r) = _totalFailure b.
Proof.
  intros b r. unfold _recordResult, window_length. cbn.
  destruct (size (_window b ++ [r]) >? windowSize b); repeat split; reflexivity.
Qed.

Lemma transition_same_config : forall b s w, same_config b (_transition b s w).
Proof. intros b [] w; repeat split. Qed.

Lemma recordResult_same_config : forall b r, same_config b (_recordResult b r).
Proof.
  intros b r. unfold _recordResult, window_length. cbn.
  destruct (size (_window b ++ [r]) >? windowSize b); repeat split.
Qed.

Lemma maybeTransitionFromOpen_cases : forall b w,
    (_state b = OPEN /\
     (exists t, _openedAt b = Some t /\ Date_now w - t >= openStateDuration b) /\
     _maybeTransitionFromOpen b w = _transition b HALF_OPEN w)
    \/ ((_state b <> OPEN \/ _openedAt b = None \/
         exists t, _openedAt b = Some t /\ Date_now w - t < openStateDuration b) /\
        _maybeTransitionFromOpen b w = b).
Proof.
  intros b w. unfold _maybeTransitionFromOpen.
  destruct (_state b) eqn:Hs; try (right; split; [left; congruence | reflexivity]).
  destruct (_openedAt b) as [t|] eqn:Ho.
  - cbv zeta. destruct (Z.geb_spec (Date_now w - t) (openStateDuration b)) as [H|H].
    + left. split; [reflexivity|]. split; [exists t; split; [reflexivity | lia] | reflexivity].
    + right. split; [|reflexivity]. right; right. exists t. split; [reflexivity | lia].
  - right. split; [right; left; reflexivity | reflexivity].
Qed.

Lemma maybeTransitionFromOpen_not_open : forall b w,
    _state b <> OPEN -> _maybeTransitionFromOpen b w = b.
Proof.
  intros b w H. unfold _maybeTransitionFromOpen.
  destruct (_state b); try reflexivity. congruence.
Qed.

(** The check never touches the outcome bookkeeping. *)
Lemma maybeTransitionFromOpen_frame : forall b w,
    _window (_maybeTransitionFromOpen b w) = _window b /\
    _consecutiveFailures (_maybeTransitionFromOpen b w) = _consecutiveFailures b /\
    _totalSuccess (_maybeTransitionFromOpen b w) = _totalSuccess b /\
    _totalFailure (_maybeTransitionFromOpen b w) = _totalFailure b /\
    same_config b (_maybeTransitionFromOpen b w).
Proof.
  intros b w.
  destruct (maybeTransitionFromOpen_cases b w) as [(_ & _ & ->) | (_ & ->)].
  - repeat split.
  - repeat split.
Qed.

(** In CLOSED the prefix of [execute] lets the call in and changes nothing. *)
Lemma admission_closed : forall b w, _state b = CLOSED -> admission b w = Allowed b.
Proof.
  intros b w H. unfold admission.
  rewrite maybeTransitionFromOpen_not_open by congruence. rewrite H. reflexivity.
Qed.

Lemma failure_rate_quotient : forall win,
    win <> [] ->
    failure_rate win = num_div (of_Z (failures win)) (of_Z (size win)).
Proof.
  intros [|x win] H; [congruence|]. unfold failure_rate, size. cbn [List.length].
  destruct (Z.eqb_spec (Z.of_nat (S (List.length win))) 0); [lia | reflexivity].
Qed.

(** What [_onFailure] does to a CLOSED breaker. *)
Lemma onFailure_closed : forall b err w,
    _state b = CLOSED ->
    let b1 := _recordResult
                (set_consecutiveFailures (set_totalFailure b (_totalFailure b + 1))
                   (_consecutiveFailures b + 1)) false in
    _onFailure b err w =
    if _consecutiveFailures b + 1 >=? consecutiveFailureThreshold b
    then _transition b1 OPEN w
    else if (size (_window b1) >=? windowSize b)
            && num_ge (failure_rate (_window b1)) (failureRateThreshold b)
         then _transition b1 OPEN w
         else b1.
Proof.
  intros b err w H b1. subst b1. open_breaker b. subst.
  unfold _onFailure, _recordResult, _getFailureRate, window_length.
  cbn -[num_ge failure_rate size Z.geb Z.gtb].
  destruct (size (win ++ [false]) >? wsz);
    cbn -[num_ge failure_rate size Z.geb Z.gtb]; reflexivity.
Qed.

(** ** Tripping from CLOSED *)

(** The effect of a failure recorded in CLOSED, in the terms of the methods
    that [_onFailure] calls. *)
Lemma onFailure_closed_trip :
  forall (b : CircuitBreaker) (err : Error) (w' : World),
    _state b = CLOSED ->
    let b' := _onFailure b err w' in
    (forall (A : Type) (fn : Operation A) (w : World),
        _withTimeout b fn (requestTimeout b) w = (Rejected err, w') ->
        execute b fn w = (Rejected err, b', w')) /\
    _consecutiveFailures b' = _consecutiveFailures b + 1 /\
    _window b' = _window (_recordResult b false) /\
    (_consecutiveFailures b' >= consecutiveFailureThreshold b -> _state b' = OPEN) /\
    (_consecutiveFailures b' < consecutiveFailureThreshold b ->
     (_state b' = OPEN <->
      size (_window b') >= windowSize b /\
      num_ge (failure_rate (_window b')) (failureRateThreshold b) = true) /\
     (_state b' <> OPEN -> _state b' = CLOSED)) /\
    (_consecutiveFailures b' < consecutiveFailureThreshold b ->
     size (_window b') < windowSize b -> _state b' = CLOSED) /\
    (_window b' <> [] ->
     failure_rate (_window b') =
     num_div (of_Z (failures (_window b'))) (of_Z (size (_window b')))).
Proof.
  intros b err w' Hst. cbv zeta.
  assert (Hex : forall (A : Type) (fn : Operation A) (w : World),
             _withTimeout b fn (requestTimeout b) w = (Rejected err, w') ->
             execute b fn w = (Rejected err, _onFailure b err w', w')).
  { intros A fn w Hfn. unfold execute. rewrite admission_closed by assumption.
    unfold settle. rewrite Hfn. reflexivity. }
  pose proof (onFailure_closed b err w' Hst) as Hof. cbv zeta in Hof.
  set (b0 := set_consecutiveFailures (set_totalFailure b (_totalFailure b + 1))
               (_consecutiveFailures b + 1)) in *.
  assert (Hwin : _window (_recordResult b0 false) = _window (_recordResult b false)).
  { rewrite !recordResult_window. reflexivity. }
  destruct (recordResult_frame b0 false) as (Hs1 & Hc1 & _).
  change (_state b0) with (_state b) in Hs1.
  change (_consecutiveFailures b0) with (_consecutiveFailures b + 1) in Hc1.
  set (b1 := _recordResult b0 false) in *.
  assert (Hopen : _state (_transition b1 OPEN w') = OPEN /\
                  _consecutiveFailures (_transition b1 OPEN w') = _consecutiveFailures b + 1 /\
                  _window (_transition b1 OPEN w') = _window b1).
  { destruct (transition_keeps_window b1 OPEN w') as [Hw Hc]; [discriminate|].
    rewrite transition_state, Hw, Hc, Hc1. auto. }
  destruct Hopen as (Ho1 & Ho2 & Ho3).
  assert (Hcf : _consecutiveFailures (_onFailure b err w') = _consecutiveFailures b + 1).
  { rewrite Hof.
    destruct (_ >=? consecutiveFailureThreshold b); [assumption|].
    destruct (_ && _); assumption. }
  assert (Hw : _window (_onFailure b err w') = _window b1).
  { rewrite Hof.
    destruct (_ >=? consecutiveFailureThreshold b); [assumption|].
    destruct (_ && _); [assumption | reflexivity]. }
  split; [exact Hex|]. split; [exact Hcf|]. split; [rewrite Hw; exact Hwin|].
  rewrite Hcf, Hw.
  split; [|split; [|split]].
  - intros Hge. rewrite Hof.
    destruct (Z.geb_spec (_consecutiveFailures b + 1) (consecutiveFailureThreshold b));
      [assumption | lia].
  - intros Hlt. rewrite Hof.
    destruct (Z.geb_spec (_consecutiveFailures b + 1) (consecutiveFailureThreshold b));
      [lia|].
    destruct (Z.geb_spec (size (_window b1)) (windowSize b)) as [Hfull | Hshort];
      cbn [andb].
    + destruct (num_ge (failure_rate (_window b1)) (failureRateThreshold b)) eqn:Hrate.
      * split; [split; [intros _; split; [lia | reflexivity] | intros _; assumption]|].
        intros Hn. congruence.
      * split; [split; [intros Hc; congruence | intros [_ Hc]; discriminate]|].
        intros _. congruence.
    + split; [split; [intros Hc; congruence | intros [Hc _]; lia]|].
      intros _. congruence.
  - intros Hlt Hshort. rewrite Hof.
    destruct (Z.geb_spec (_consecutiveFailures b + 1) (consecutiveFailureThreshold b));
      [lia|].
    destruct (Z.geb_spec (size (_window b1)) (windowSize b)); [lia|].
    cbn [andb]. congruence.
  - apply failure_rate_quotient.
Qed.
(** [filter((r) => !r).length] counts the entries that are [false]. *)
Lemma failures_count : forall win,
    failures win = Z.of_nat (count_occ Bool.bool_dec win false).
Proof.
  induction win as [|r win IH]; [reflexivity|].
  unfold failures, size in *. destruct r.
  - cbn [filter negb]. rewrite count_occ_cons_neq by discriminate. exact IH.
  - cbn [filter negb List.length]. rewrite count_occ_cons_eq by reflexivity. lia.
Qed.

(** C1. Recording a failure while the breaker is CLOSED, as [execute] does
    for a call it let through in CLOSED, trips the breaker in this order:
    first on the count of consecutive failures reaching its threshold,
    whatever the window holds; otherwise only on a full window whose failure
    rate, the number of [false] entries over the length, reaches the rate
    threshold. A window shorter than [windowSize] never trips by rate, and
    both comparisons are [>=]. The window is the one with the new failure
    at its end, less its oldest entry when that makes it longer than
    [windowSize]; the entries are counted with [count_occ] and [length] of
    the Standard Library. *)
Theorem closed_failure_trip_order :
  forall (b : CircuitBreaker) (err : Error) (w' : World),
    _state b = CLOSED ->
    let b' := _onFailure b err w' in
    let pushed := (_window b ++ [false])%list in
    let recorded :=
      if Z.of_nat (List.length pushed) >? windowSize b then tl pushed else pushed in
    let entries := Z.of_nat (List.length recorded) in
    let false_entries := Z.of_nat (count_occ Bool.bool_dec recorded false) in
    let rate :=
      if entries =? 0 then of_Z 0 else num_div (of_Z false_entries) (of_Z entries) in
    (forall (A : Type) (fn : Operation A) (w : World),
        _withTimeout b fn (requestTimeout b) w = (Rejected err, w') ->
        execute b fn w = (Rejected err, b', w')) /\
    _consecutiveFailures b' = _consecutiveFailures b + 1 /\
    _window b' = recorded /\
    (_consecutiveFailures b' >= consecutiveFailureThreshold b -> _state b' = OPEN) /\
    (_consecutiveFailures b' < consecutiveFailureThreshold b ->
     (_state b' = OPEN <->
      entries >= windowSize b /\ SFleb (failureRateThreshold b) rate = true) /\
     (_state b' <> OPEN -> _state b' = CLOSED)) /\
    (_consecutiveFailures b' < consecutiveFailureThreshold b ->
     entries < windowSize b -> _state b' = CLOSED).
Proof.
  intros b err w' Hst. cbv zeta.
  destruct (onFailure_closed_trip b err w' Hst) as (Hex & Hcf & Hwin & Hge & Hrate & Hshort & _).
  rewrite recordResult_window in Hwin. unfold size in Hwin.
  rewrite Hwin in Hrate, Hshort.
  set (recorded := if Z.of_nat (List.length (_window b ++ [false])) >? windowSize b
                   then tl (_window b ++ [false]) else (_window b ++ [false])%list) in *.
  assert (Hfr : failure_rate recorded =
                if Z.of_nat (List.length recorded) =? 0 then of_Z 0
                else num_div (of_Z (Z.of_nat (count_occ Bool.bool_dec recorded false)))
                       (of_Z (Z.of_nat (List.length recorded)))).
  { unfold failure_rate, size. rewrite failures_count. reflexivity. }
  rewrite Hfr in Hrate. unfold size, num_ge in Hrate. unfold size in Hshort.
  split; [exact Hex|]. split; [exact Hcf|]. split; [exact Hwin|].
  split; [exact Hge|]. split; [exact Hrate | exact Hshort].
Qed.

(** ** The time-driven transition out of OPEN *)

Lemma maybeTransitionFromOpen_idempotent : forall b w,
    _maybeTransitionFromOpen (_maybeTransitionFromOpen b w) w =
    _maybeTransitionFromOpen b w.
Proof.
  intros b w.
  destruct (maybeTransitionFromOpen_cases b w) as [(_ & _ & Hb) | (_ & Hb)];
    rewrite Hb; [|exact Hb].
  apply maybeTransitionFromOpen_not_open. rewrite transition_state. discriminate.
Qed.

Lemma getMetrics_breaker : forall nts b w,
    snd (getMetrics nts b w) = _maybeTransitionFromOpen b w /\
    m_state (fst (getMetrics nts b w)) = _state (_maybeTransitionFromOpen b w).
Proof. intros; split; reflexivity. Qed.

Lemma admission_after_check : forall b w,
    admission b w = admission (_maybeTransitionFromOpen b w) w.
Proof.
  intros b w. unfold admission. rewrite maybeTransitionFromOpen_idempotent. reflexivity.
Qed.

(** C2. A breaker that is OPEN since [t] is moved to HALF_OPEN by the first
    call of [execute], [getMetrics] or the [state] getter made at a time
    [now] with [now - t >= openStateDuration], before anything else the call
    does; made earlier, each of the three leaves it OPEN and unchanged, and
    [execute] rejects. *)
Theorem open_expiry_half_opens :
  forall (nts : number -> string) (b : CircuitBreaker) (t : Z) (w : World),
    _state b = OPEN ->
    _openedAt b = Some t ->
    (Date_now w - t >= openStateDuration b ->
     let b1 := _transition b HALF_OPEN w in
     _state b1 = HALF_OPEN /\
     state b w = (HALF_OPEN, b1) /\
     m_state (fst (getMetrics nts b w)) = HALF_OPEN /\
     snd (getMetrics nts b w) = b1 /\
     (forall (A : Type) (fn : Operation A),
         execute b fn w = execute b1 fn w /\
         (0 < halfOpenMaxTrials b ->
          execute b fn w = settle (set_halfOpenTrials b1 1) fn w)))
    /\
    (Date_now w - t < openStateDuration b ->
     state b w = (OPEN, b) /\
     m_state (fst (getMetrics nts b w)) = OPEN /\
     snd (getMetrics nts b w) = b /\
     (forall (A : Type) (fn : Operation A),
         execute b fn w = (Rejected (CircuitOpenError (name b) OPEN), b, w))).
Proof.
  intros nts b t w Hst Hat.
  assert (Hcheck : _maybeTransitionFromOpen b w =
                   if Date_now w - t >=? openStateDuration b
                   then _transition b HALF_OPEN w else b).
  { unfold _maybeTransitionFromOpen. rewrite Hst, Hat. reflexivity. }
  split.
  - intros Hdue b1.
    destruct (Z.geb_spec (Date_now w - t) (openStateDuration b)) as [_|]; [|lia].
    destruct (getMetrics_breaker nts b w) as [Hm1 Hm2].
    split; [reflexivity|].
    split; [unfold state; rewrite Hcheck; reflexivity|].
    split; [rewrite Hm2, Hcheck; reflexivity|].
    split; [rewrite Hm1; exact Hcheck|].
    intros A fn.
    assert (Hentry : admission b w = admission b1 w).
    { rewrite admission_after_check, Hcheck.
      unfold admission. rewrite maybeTransitionFromOpen_not_open; [reflexivity|].
      subst b1. rewrite transition_state. discriminate. }
    split.
    + unfold execute. rewrite Hentry. reflexivity.
    + intros Hpos. unfold execute. rewrite Hentry. unfold admission.
      rewrite maybeTransitionFromOpen_not_open
        by (subst b1; rewrite transition_state; discriminate).
      subst b1. rewrite transition_state.
      destruct (transition_half_open_counters b HALF_OPEN w) as [-> _].
      destruct (transition_same_config b HALF_OPEN w) as (_ & _ & _ & _ & _ & _ & ->).
      destruct (Z.geb_spec 0 (halfOpenMaxTrials b)); [lia | reflexivity].
  - intros Hearly.
    destruct (Z.geb_spec (Date_now w - t) (openStateDuration b)) as [|_]; [lia|].
    destruct (getMetrics_breaker nts b w) as [Hm1 Hm2].
    split; [unfold state; rewrite Hcheck, Hst; reflexivity|].
    split; [rewrite Hm2, Hcheck; exact Hst|].
    split; [rewrite Hm1; exact Hcheck|].
    intros A fn. unfold execute, admission. rewrite Hcheck, Hst. reflexivity.
Qed.

(** ** Probing in HALF_OPEN *)

Lemma onSuccess_half_open : forall b w,
    _state b = HALF_OPEN ->
    exists counted,
      _state counted = HALF_OPEN /\
      _halfOpenTrials counted = _halfOpenTrials b /\
      _halfOpenSuccesses counted = _halfOpenSuccesses b + 1 /\
      _onSuccess b w =
      if _halfOpenSuccesses counted >=? halfOpenMaxTrials b
      then _transition counted CLOSED w else counted.
Proof.
  intros b w Hst.
  exists (set_halfOpenSuccesses
            (_recordResult
               (set_consecutiveFailures (set_totalSuccess b (_totalSuccess b + 1)) 0) true)
            (_halfOpenSuccesses b + 1)).
  open_breaker b. subst st.
  unfold _onSuccess, _recordResult, window_length.
  cbn -[Z.geb Z.gtb size].
  destruct (size (win ++ [true]) >? wsz); cbn -[Z.geb Z.gtb size];
    repeat split; reflexivity.
Qed.



(** ** Rejected calls *)

Lemma execute_refused : forall (A : Type) (b : CircuitBreaker) (fn : Operation A) (w : World),
    let b1 := _maybeTransitionFromOpen b w in
    (_state b1 = OPEN \/
     (_state b1 = HALF_OPEN /\ _halfOpenTrials b1 >= halfOpenMaxTrials b1)) ->
    execute b fn w = (Rejected (CircuitOpenError (name b) (_state b1)), b1, w).
Proof.
  intros A b fn w b1 Hrej.
  destruct (maybeTransitionFromOpen_frame b w) as (_ & _ & _ & _ & Hn & _).
  fold b1 in Hn.
  unfold execute, admission. fold b1. rewrite Hn.
  destruct Hrej as [Ho | [Hh Hfull]].
  - rewrite Ho. reflexivity.
  - rewrite Hh.
    destruct (Z.geb_spec (_halfOpenTrials b1) (halfOpenMaxTrials b1)); [reflexivity | lia].
Qed.

(** C4. A call that [execute] rejects, because after the time-driven check
    the breaker is OPEN or is HALF_OPEN with every trial allocated, is
    answered with a [CircuitOpenError] carrying the current state; the
    operation is not started (the world, its request log included, is the one
    the call was made in, whatever the operation is), and the window, the
    count of consecutive failures and both totals are as before the call. *)
Theorem rejection_leaves_bookkeeping :
  forall (A : Type) (b : CircuitBreaker) (fn : Operation A) (w : World),
    let b1 := _maybeTransitionFromOpen b w in
    (_state b1 = OPEN \/
     (_state b1 = HALF_OPEN /\ _halfOpenTrials b1 >= halfOpenMaxTrials b1)) ->
    execute b fn w = (Rejected (CircuitOpenError (name b) (_state b1)), b1, w) /\
    _window b1 = _window b /\
    _consecutiveFailures b1 = _consecutiveFailures b /\
    _totalSuccess b1 = _totalSuccess b /\
    _totalFailure b1 = _totalFailure b.
Proof.
  intros A b fn w b1 Hrej.
  destruct (maybeTransitionFromOpen_frame b w) as (Hw & Hc & Hs & Hf & _).
  split; [apply execute_refused; exact Hrej | repeat split; assumption].
Qed.

(** ** Invariants *)


Lemma size_push : forall win (r : bool), size (win ++ [r]) = size win + 1.
Proof. intros win r. unfold size. rewrite length_app. cbn. lia. Qed.

Lemma size_shift : forall win (r : bool), size (tl (win ++ [r])) = size win.
Proof.
  intros [|x win] r; [reflexivity|].
  cbn [tl app]. rewrite size_push. unfold size. cbn [List.length]. lia.
Qed.

Lemma recordResult_bounded : forall b r,
    window_length b <= windowSize b ->
    window_length (_recordResult b r) <= windowSize b.
Proof.
  intros b r H. unfold window_length in *. rewrite recordResult_window.
  destruct (Z.gtb_spec (size (_window b ++ [r])) (windowSize b)) as [Hgt | Hle].
  - rewrite size_shift. exact H.
  - exact Hle.
Qed.

Lemma invariant_transition : forall b s w,
    0 <= windowSize b ->
    0 <= halfOpenMaxTrials b ->
    window_length b <= windowSize b ->
    invariant (_transition b s w).
Proof.
  intros b s w Hws Hmax Hwin. open_breaker b. unfold window_length in *. cbn in Hwin.
  destruct s; constructor; cbn; try lia; try exact Hwin;
    split; intros H; congruence.
Qed.

Lemma invariant_check : forall b w,
    0 <= windowSize b -> 0 <= halfOpenMaxTrials b ->
    invariant b -> invariant (_maybeTransitionFromOpen b w).
Proof.
  intros b w Hws Hmax Hinv.
  destruct (maybeTransitionFromOpen_cases b w) as [(_ & _ & ->) | (_ & ->)].
  - apply invariant_transition; try assumption. apply Hinv.
  - exact Hinv.
Qed.

Lemma invariant_onFailure : forall b err w,
    0 <= windowSize b -> 0 <= halfOpenMaxTrials b ->
    invariant b -> invariant (_onFailure b err w).
Proof.
  intros b err w Hws Hmax [H1 H2 H3 H4].
  set (b0 := set_consecutiveFailures (set_totalFailure b (_totalFailure b + 1))
               (_consecutiveFailures b + 1)).
  assert (H4' : window_length (_recordResult b0 false) <= windowSize b)
    by (apply (recordResult_bounded b0 false); exact H4).
  destruct (recordResult_frame b0 false) as (Hs & _ & Ho & Ht & Hsu & _).
  destruct (recordResult_same_config b0 false) as (_ & _ & Hw & Hf & Hc & _ & Hm).
  change (_onFailure b err w) with
    (let b := _recordResult b0 false in
     match _state b with
     | HALF_OPEN => _transition b OPEN w
     | CLOSED =>
         if _consecutiveFailures b >=? consecutiveFailureThreshold b
         then _transition b OPEN w
         else if (window_length b >=? windowSize b)
                 && num_ge (_getFailureRate b) (failureRateThreshold b)
              then _transition b OPEN w else b
     | OPEN => b
     end).
  cbv zeta.
  assert (Hinv1 : invariant (_recordResult b0 false)).
  { constructor; rewrite ?Hs, ?Ho, ?Ht, ?Hsu, ?Hm, ?Hw; try assumption. }
  assert (Htr : invariant (_transition (_recordResult b0 false) OPEN w)).
  { apply invariant_transition; rewrite ?Hw, ?Hm; assumption. }
  destruct (_state (_recordResult b0 false)); try assumption.
  destruct (_ >=? _); [assumption|].
  destruct (_ && _); assumption.
Qed.

Lemma invariant_onSuccess : forall b w,
    0 <= windowSize b -> 0 <= halfOpenMaxTrials b ->
    (_openedAt b <> None <-> _state b = OPEN) ->
    (_state b = HALF_OPEN -> _halfOpenSuccesses b + 1 <= _halfOpenTrials b) ->
    _halfOpenSuccesses b <= _halfOpenTrials b ->
    _halfOpenTrials b <= halfOpenMaxTrials b ->
    window_length b <= windowSize b ->
    invariant (_onSuccess b w).
Proof.
  intros b w Hws Hmax H1 H2 H2' H3 H4.
  set (b0 := set_consecutiveFailures (set_totalSuccess b (_totalSuccess b + 1)) 0).
  assert (H4' : window_length (_recordResult b0 true) <= windowSize b)
    by (apply (recordResult_bounded b0 true); exact H4).
  destruct (recordResult_frame b0 true) as (Hs & _ & Ho & Ht & Hsu & _).
  destruct (recordResult_same_config b0 true) as (_ & _ & Hw & _ & _ & _ & Hm).
  change (_onSuccess b w) with
    (let b := _recordResult b0 true in
     match _state b with
     | HALF_OPEN =>
         let b := set_halfOpenSuccesses b (_halfOpenSuccesses b + 1) in
         if _halfOpenSuccesses b >=? halfOpenMaxTrials b
         then _transition b CLOSED w else b
     | _ => b
     end).
  cbv zeta.
  assert (Hinv1 : invariant (_recordResult b0 true)).
  { constructor; rewrite ?Hs, ?Ho, ?Ht, ?Hsu, ?Hm, ?Hw; try assumption. }
  change (_state b0) with (_state b) in Hs.
  rewrite Hs. destruct (_state b) eqn:Hst; try assumption.
  destruct (_ >=? _).
  - apply invariant_transition; cbn [windowSize halfOpenMaxTrials set_halfOpenSuccesses assign];
      rewrite ?Hw, ?Hm; assumption.
  - specialize (H2 eq_refl).
    constructor;
      cbn [_openedAt _state _halfOpenSuccesses _halfOpenTrials halfOpenMaxTrials
           window_length _window windowSize set_halfOpenSuccesses assign];
      rewrite ?Hs, ?Ho, ?Ht, ?Hsu, ?Hm, ?Hw; assumption.
Qed.

Lemma invariant_execute : forall (A : Type) (fn : Operation A) b w,
    0 <= windowSize b -> 0 <= halfOpenMaxTrials b ->
    invariant b -> invariant (snd (fst (execute b fn w))).
Proof.
  intros A fn b w Hws Hmax Hinv.
  pose proof (invariant_check b w Hws Hmax Hinv) as Hinv1.
  destruct (maybeTransitionFromOpen_frame b w) as (_ & _ & _ & _ & Hcfg).
  destruct Hcfg as (_ & _ & Hw & _ & _ & _ & Hm).
  unfold execute, admission.
  set (b1 := _maybeTransitionFromOpen b w) in *.
  rewrite <- Hw in Hws. rewrite <- Hm in Hmax.
  destruct Hinv1 as [H1 H2 H3 H4].
  case_eq (_state b1); intros Hst.
  - (* CLOSED *)
    unfold settle. destruct (_withTimeout b1 fn (requestTimeout b1) w) as [[v|e] w'];
      cbn [fst snd].
    + apply invariant_onSuccess; try assumption. intros; congruence.
    + apply invariant_onFailure; try assumption. constructor; assumption.
  - (* OPEN *)
    cbn [fst snd]. constructor; assumption.
  - (* HALF_OPEN *)
    destruct (Z.geb_spec (_halfOpenTrials b1) (halfOpenMaxTrials b1)) as [Hfull | Hfree].
    + cbn [fst snd]. constructor; assumption.
    + unfold settle.
      destruct (_withTimeout _ fn _ w) as [[v|e] w']; cbn [fst snd].
      * apply invariant_onSuccess; cbn; try assumption; try lia.
      * apply invariant_onFailure; cbn; try assumption.
        constructor; cbn; try assumption; lia.
Qed.

Lemma invariant_reset : forall b w,
    0 <= windowSize b -> 0 <= halfOpenMaxTrials b -> invariant (reset b w).
Proof.
  intros b w Hws Hmax. open_breaker b.
  constructor; cbn; try lia; try (split; intros H; congruence).
  all: unfold window_length, size; cbn; lia.
Qed.

Lemma same_config_trans : forall a b c,
    same_config a b -> same_config b c -> same_config a c.
Proof. unfold same_config. intros a b c H1 H2. intuition congruence. Qed.

Lemma onSuccess_same_config : forall b w, same_config b (_onSuccess b w).
Proof.
  intros b w. open_breaker b.
  unfold _onSuccess, _recordResult, window_length.
  cbn -[size Z.geb Z.gtb].
  destruct (size (win ++ [true]) >? wsz); cbn -[size Z.geb Z.gtb];
    destruct st; cbn -[size Z.geb Z.gtb]; try (repeat split);
    destruct (hs + 1 >=? hmt); repeat split.
Qed.

Lemma onFailure_same_config : forall b err w, same_config b (_onFailure b err w).
Proof.
  intros b err w. open_breaker b.
  unfold _onFailure, _recordResult, _getFailureRate, window_length.
  cbn -[num_ge failure_rate size Z.geb Z.gtb].
  destruct (size (win ++ [false]) >? wsz); cbn -[num_ge failure_rate size Z.geb Z.gtb];
    destruct st; cbn -[num_ge failure_rate size Z.geb Z.gtb]; try (repeat split);
    destruct (cf + 1 >=? cft); try (repeat split);
    destruct (_ && _); repeat split.
Qed.

Lemma execute_same_config : forall (A : Type) (fn : Operation A) b w,
    same_config b (snd (fst (execute b fn w))).
Proof.
  intros A fn b w. unfold execute, admission.
  destruct (maybeTransitionFromOpen_frame b w) as (_ & _ & _ & _ & Hc).
  set (b1 := _maybeTransitionFromOpen b w) in *.
  assert (Hsettle : forall b2, same_config b b2 ->
             same_config b (snd (fst (settle b2 fn w)))).
  { intros b2 Hb2. unfold settle.
    destruct (_withTimeout b2 fn (requestTimeout b2) w) as [[v|e] w']; cbn [fst snd];
      apply (same_config_trans _ _ _ Hb2);
      [apply onSuccess_same_config | apply onFailure_same_config]. }
  destruct (_state b1).
  - apply Hsettle. exact Hc.
  - exact Hc.
  - destruct (_ >=? _); [exact Hc|]. apply Hsettle.
    apply (same_config_trans _ _ _ Hc). repeat split.
Qed.

Lemma reset_same_config : forall b w, same_config b (reset b w).
Proof. intros b w. open_breaker b. repeat split. Qed.

Lemma reachable_same_config : forall nm options b,
    reachable nm options b -> same_config (new_CircuitBreaker nm options) b.
Proof.
  intros nm options b H. induction H.
  - repeat split.
  - apply (same_config_trans _ _ _ IHreachable). apply execute_same_config.
  - apply (same_config_trans _ _ _ IHreachable).
    destruct (getMetrics_breaker nts b w) as [-> _].
    apply maybeTransitionFromOpen_frame.
  - apply (same_config_trans _ _ _ IHreachable). cbn [state snd].
    apply maybeTransitionFromOpen_frame.
  - apply (same_config_trans _ _ _ IHreachable). apply reset_same_config.
Qed.

(** The four invariants after calls made one after the other: each call of
    [execute] has recorded its outcome before the next call starts. *)
Lemma reachable_invariants :
  forall (nm : string) (options : Options) (b : CircuitBreaker),
    0 <= nullish (opt_windowSize options) 10 ->
    0 <= nullish (opt_halfOpenMaxTrials options) 3 ->
    reachable nm options b ->
    (_openedAt b <> None <-> _state b = OPEN) /\
    _halfOpenSuccesses b <= _halfOpenTrials b /\
    _halfOpenTrials b <= halfOpenMaxTrials b /\
    size (_window b) <= windowSize b.
Proof.
  intros nm options b Hws Hmax Hreach.
  assert (Hinv : invariant b).
  { induction Hreach.
    - constructor; cbn; try lia; try (split; intros H; congruence).
      all: unfold window_length, size; cbn; lia.
    - destruct (reachable_same_config _ _ _ Hreach) as (_ & _ & Hw & _ & _ & _ & Hm).
      cbn in Hw, Hm.
      apply invariant_execute; rewrite ?Hw, ?Hm; assumption.
    - destruct (reachable_same_config _ _ _ Hreach) as (_ & _ & Hw & _ & _ & _ & Hm).
      cbn in Hw, Hm.
      destruct (getMetrics_breaker nts b w) as [-> _].
      apply invariant_check; rewrite ?Hw, ?Hm; assumption.
    - destruct (reachable_same_config _ _ _ Hreach) as (_ & _ & Hw & _ & _ & _ & Hm).
      cbn in Hw, Hm. cbn [state snd].
      apply invariant_check; rewrite ?Hw, ?Hm; assumption.
    - destruct (reachable_same_config _ _ _ Hreach) as (_ & _ & Hw & _ & _ & _ & Hm).
      cbn in Hw, Hm.
      apply invariant_reset; rewrite ?Hw, ?Hm; assumption. }
  destruct Hinv as [H1 H2 H3 H4]. repeat split; try assumption; apply H1.
Qed.

(** *** Overlapping calls

    When calls overlap, [_openedAt] still goes with OPEN, the trials stay
    within [halfOpenMaxTrials] and the window within [windowSize], whatever
    the order of the turns. The order between successes and trials relates
    each outcome to the entry of its own call; it is the subject of
    [invariant], for calls that do not overlap, and [overlapping_probes]
    shows two probes that break it. *)

Lemma turn_invariant_transition : forall b s w,
    0 <= windowSize b -> 0 <= halfOpenMaxTrials b ->
    window_length b <= windowSize b ->
    turn_invariant (_transition b s w).
Proof.
  intros b s w Hws Hmax Hwin.
  destruct (invariant_transition b s w Hws Hmax Hwin) as [H1 _ H3 H4].
  constructor; assumption.
Qed.

Lemma turn_invariant_check : forall b w,
    0 <= windowSize b -> 0 <= halfOpenMaxTrials b ->
    turn_invariant b -> turn_invariant (_maybeTransitionFromOpen b w).
Proof.
  intros b w Hws Hmax Hinv.
  destruct (maybeTransitionFromOpen_cases b w) as [(_ & _ & ->) | (_ & ->)].
  - apply turn_invariant_transition; try assumption. apply Hinv.
  - exact Hinv.
Qed.

Lemma turn_invariant_entry : forall b w,
    0 <= windowSize b -> 0 <= halfOpenMaxTrials b ->
    turn_invariant b ->
    turn_invariant (match admission b w with Allowed b' => b' | Refused b' _ => b' end).
Proof.
  intros b w Hws Hmax Hinv.
  pose proof (turn_invariant_check b w Hws Hmax Hinv) as Hinv1.
  unfold admission. set (b1 := _maybeTransitionFromOpen b w) in *.
  destruct Hinv1 as [H1 H3 H4].
  case_eq (_state b1); intros Hst; try (constructor; assumption).
  destruct (Z.geb_spec (_halfOpenTrials b1) (halfOpenMaxTrials b1));
    constructor; cbn; try assumption. lia.
Qed.

Lemma turn_invariant_onSuccess : forall b w,
    0 <= windowSize b -> 0 <= halfOpenMaxTrials b ->
    turn_invariant b -> turn_invariant (_onSuccess b w).
Proof.
  intros b w Hws Hmax [H1 H3 H4].
  set (b0 := set_consecutiveFailures (set_totalSuccess b (_totalSuccess b + 1)) 0).
  assert (H4' : window_length (_recordResult b0 true) <= windowSize b)
    by (apply (recordResult_bounded b0 true); exact H4).
  destruct (recordResult_frame b0 true) as (Hs & _ & Ho & Ht & _).
  destruct (recordResult_same_config b0 true) as (_ & _ & Hw & _ & _ & _ & Hm).
  change (_onSuccess b w) with
    (let b := _recordResult b0 true in
     match _state b with
     | HALF_OPEN =>
         let b := set_halfOpenSuccesses b (_halfOpenSuccesses b + 1) in
         if _halfOpenSuccesses b >=? halfOpenMaxTrials b
         then _transition b CLOSED w else b
     | _ => b
     end).
  cbv zeta.
  assert (Hinv1 : turn_invariant (_recordResult b0 true)).
  { constructor; rewrite ?Hs, ?Ho, ?Ht, ?Hm, ?Hw; assumption. }
  change (_state b0) with (_state b) in Hs.
  rewrite Hs. destruct (_state b) eqn:Hst; try assumption.
  destruct (_ >=? _).
  - apply turn_invariant_transition;
      cbn [windowSize halfOpenMaxTrials set_halfOpenSuccesses assign];
      rewrite ?Hw, ?Hm; assumption.
  - constructor;
      cbn [_openedAt _state _halfOpenTrials halfOpenMaxTrials
           window_length _window windowSize set_halfOpenSuccesses assign];
      rewrite ?Hs, ?Ho, ?Ht, ?Hm, ?Hw; assumption.
Qed.

Lemma turn_invariant_onFailure : forall b err w,
    0 <= windowSize b -> 0 <= halfOpenMaxTrials b ->
    turn_invariant b -> turn_invariant (_onFailure b err w).
Proof.
  intros b err w Hws Hmax [H1 H3 H4].
  set (b0 := set_consecutiveFailures (set_totalFailure b (_totalFailure b + 1))
               (_consecutiveFailures b + 1)).
  assert (H4' : window_length (_recordResult b0 false) <= windowSize b)
    by (apply (recordResult_bounded b0 false); exact H4).
  destruct (recordResult_frame b0 false) as (Hs & _ & Ho & Ht & _).
  destruct (recordResult_same_config b0 false) as (_ & _ & Hw & _ & _ & _ & Hm).
  change (_onFailure b err w) with
    (let b := _recordResult b0 false in
     match _state b with
     | HALF_OPEN => _transition b OPEN w
     | CLOSED =>
         if _consecutiveFailures b >=? consecutiveFailureThreshold b
         then _transition b OPEN w
         else if (window_length b >=? windowSize b)
                 && num_ge (_getFailureRate b) (failureRateThreshold b)
              then _transition b OPEN w else b
     | OPEN => b
     end).
  cbv zeta.
  assert (Hinv1 : turn_invariant (_recordResult b0 false)).
  { constructor; rewrite ?Hs, ?Ho, ?Ht, ?Hm, ?Hw; assumption. }
  assert (Htr : turn_invariant (_transition (_recordResult b0 false) OPEN w)).
  { apply turn_invariant_transition; rewrite ?Hw, ?Hm; assumption. }
  destruct (_state (_recordResult b0 false)); try assumption.
  destruct (_ >=? _); [assumption|].
  destruct (_ && _); assumption.
Qed.

Lemma interleaved_same_config : forall nm options b,
    interleaved nm options b -> same_config (new_CircuitBreaker nm options) b.
Proof.
  intros nm options b H. induction H.
  - repeat split.
  - apply (same_config_trans _ _ _ IHinterleaved). unfold admission.
    destruct (maybeTransitionFromOpen_frame b w) as (_ & _ & _ & _ & Hc).
    destruct (_state (_maybeTransitionFromOpen b w)); try exact Hc.
    destruct (_ >=? _); [exact Hc|].
    apply (same_config_trans _ _ _ Hc). repeat split.
  - apply (same_config_trans _ _ _ IHinterleaved). apply onSuccess_same_config.
  - apply (same_config_trans _ _ _ IHinterleaved). apply onFailure_same_config.
  - apply (same_config_trans _ _ _ IHinterleaved).
    destruct (getMetrics_breaker nts b w) as [-> _].
    apply maybeTransitionFromOpen_frame.
  - apply (same_config_trans _ _ _ IHinterleaved). cbn [state snd].
    apply maybeTransitionFromOpen_frame.
  - apply (same_config_trans _ _ _ IHinterleaved). apply reset_same_config.
Qed.

Lemma interleaved_invariants :
  forall (nm : string) (options : Options) (b : CircuitBreaker),
    0 <= nullish (opt_windowSize options) 10 ->
    0 <= nullish (opt_halfOpenMaxTrials options) 3 ->
    interleaved nm options b ->
    turn_invariant b.
Proof.
  intros nm options b Hws Hmax Hreach.
  induction Hreach;
    try (destruct (interleaved_same_config _ _ _ Hreach) as (_ & _ & Hw & _ & _ & _ & Hm);
         cbn in Hw, Hm).
  - constructor; cbn; try lia; try (split; intros H; congruence).
    all: unfold window_length, size; cbn; lia.
  - apply turn_invariant_entry; rewrite ?Hw, ?Hm; assumption.
  - apply turn_invariant_onSuccess; rewrite ?Hw, ?Hm; assumption.
  - apply turn_invariant_onFailure; rewrite ?Hw, ?Hm; assumption.
  - destruct (getMetrics_breaker nts b w) as [-> _].
    apply turn_invariant_check; rewrite ?Hw, ?Hm; assumption.
  - cbn [state snd]. apply turn_invariant_check; rewrite ?Hw, ?Hm; assumption.
  - destruct (invariant_reset b w) as [H1 _ H3 H4]; rewrite ?Hw, ?Hm; try assumption.
    constructor; assumption.
Qed.

(** C5. After every call of [execute], [getMetrics], [reset] or the [state]
    getter on a breaker built with a non-negative [windowSize] and
    [halfOpenMaxTrials], [_openedAt] is set exactly when the state is OPEN,
    [_halfOpenTrials <= halfOpenMaxTrials], and the window holds at most
    [windowSize] outcomes, also when calls overlap, that is when other calls
    run between the entry of a call of [execute] and the recording of its
    outcome; [_halfOpenSuccesses <= _halfOpenTrials] holds as well when the
    calls are made one after the other. *)
Theorem invariants_hold :
  forall (nm : string) (options : Options) (b : CircuitBreaker),
    0 <= nullish (opt_windowSize options) 10 ->
    0 <= nullish (opt_halfOpenMaxTrials options) 3 ->
    (interleaved nm options b ->
     (_openedAt b <> None <-> _state b = OPEN) /\
     _halfOpenTrials b <= halfOpenMaxTrials b /\
     size (_window b) <= windowSize b) /\
    (reachable nm options b ->
     (_openedAt b <> None <-> _state b = OPEN) /\
     _halfOpenSuccesses b <= _halfOpenTrials b /\
     _halfOpenTrials b <= halfOpenMaxTrials b /\
     size (_window b) <= windowSize b).
Proof.
  intros nm options b Hws Hmax. split.
  - intros Hturns.
    destruct (interleaved_invariants nm options b Hws Hmax Hturns) as [H1 H2 H3].
    split; [exact H1|]. split; [exact H2 | exact H3].
  - intros Hreach. exact (reachable_invariants nm options b Hws Hmax Hreach).
Qed.

(** ** The metrics snapshot *)




(** ** Reset, and who writes the totals *)

(** C9. [reset] leaves the breaker CLOSED with both totals, the window, the
    count of consecutive failures and both half-open counters at zero and
    [_openedAt] cleared, whatever state it was in. Nothing else resets the
    totals: a transition, [getMetrics] and the [state] getter leave them as
    they are, a rejected [execute] too, and an [execute] that was let through adds one
    to [_totalSuccess] when the operation succeeds and one to
    [_totalFailure] when it fails. *)
Theorem reset_and_totals :
  (forall (b : CircuitBreaker) (w : World),
      let r := reset b w in
      _state r = CLOSED /\ _totalSuccess r = 0 /\ _totalFailure r = 0 /\
      _window r = [] /\ _consecutiveFailures r = 0 /\
      _halfOpenTrials r = 0 /\ _halfOpenSuccesses r = 0 /\ _openedAt r = None /\
      same_config b r)
  /\
  (forall (b : CircuitBreaker) (s : STATE) (w : World),
      _totalSuccess (_transition b s w) = _totalSuccess b /\
      _totalFailure (_transition b s w) = _totalFailure b)
  /\
  (forall (nts : number -> string) (b : CircuitBreaker) (w : World),
      _totalSuccess (snd (getMetrics nts b w)) = _totalSuccess b /\
      _totalFailure (snd (getMetrics nts b w)) = _totalFailure b)
  /\
  (forall (b : CircuitBreaker) (w : World),
      _totalSuccess (snd (state b w)) = _totalSuccess b /\
      _totalFailure (snd (state b w)) = _totalFailure b)
  /\
  (forall (A : Type) (b : CircuitBreaker) (fn : Operation A) (w : World),
      let b' := snd (fst (execute b fn w)) in
      match admission b w, fst (fst (execute b fn w)) with
      | Refused _ _, _ =>
          _totalSuccess b' = _totalSuccess b /\ _totalFailure b' = _totalFailure b
      | Allowed _, Fulfilled _ =>
          _totalSuccess b' = _totalSuccess b + 1 /\ _totalFailure b' = _totalFailure b
      | Allowed _, Rejected _ =>
          _totalSuccess b' = _totalSuccess b /\ _totalFailure b' = _totalFailure b + 1
      end).
Proof.
  split; [|split; [|split; [|split]]].
  - intros b w. open_breaker b. cbn. repeat split.
  - intros b s w. apply transition_totals.
  - intros nts b w. destruct (getMetrics_breaker nts b w) as [-> _].
    destruct (maybeTransitionFromOpen_frame b w) as (_ & _ & Hs & Hf & _). auto.
  - intros b w. cbn [state snd].
    destruct (maybeTransitionFromOpen_frame b w) as (_ & _ & Hs & Hf & _). auto.
  - intros A b fn w. unfold execute.
    assert (Hentry : match admission b w with
                   | Allowed b1 | Refused b1 _ =>
                       _totalSuccess b1 = _totalSuccess b /\
                       _totalFailure b1 = _totalFailure b
                   end).
    { unfold admission.
      destruct (maybeTransitionFromOpen_frame b w) as (_ & _ & Hs & Hf & _).
      destruct (_state (_maybeTransitionFromOpen b w)); [auto | auto |].
      destruct (_ >=? _); auto. }
    destruct (admission b w) as [b1 | b1 e]; cbn [snd fst]; [|exact Hentry].
    destruct Hentry as [<- <-]. unfold settle.
    destruct (_withTimeout b1 fn (requestTimeout b1) w) as [[v | e] w']; cbn [fst snd].
    + open_breaker b1. unfold _onSuccess, _recordResult, window_length.
      cbn -[size Z.geb Z.gtb].
      destruct (size (win ++ [true]) >? wsz); cbn -[size Z.geb Z.gtb];
        destruct st; cbn -[size Z.geb Z.gtb]; try (split; reflexivity);
        destruct (hs + 1 >=? hmt); split; reflexivity.
    + open_breaker b1. unfold _onFailure, _recordResult, _getFailureRate, window_length.
      cbn -[num_ge failure_rate size Z.geb Z.gtb].
      destruct (size (win ++ [false]) >? wsz); cbn -[num_ge failure_rate size Z.geb Z.gtb];
        destruct st; cbn -[num_ge failure_rate size Z.geb Z.gtb]; try (split; reflexivity);
        destruct (cf + 1 >=? cft); try (split; reflexivity);
        destruct (_ && _); split; reflexivity.
Qed.

(** * Properties of the recommendation pipeline *)

Lemma recommend_steps : forall env app user_id w l1 app1 w1 l2 app2 w2,
    step1 env app user_id w = (l1, app1, w1) ->
    step2 env app1 l1 w1 = (l2, app2, w2) ->
    recommend env app user_id w =
    match recommendations l2 with
    | None => (fst (step3 env l2 w2), app2, snd (step3 env l2 w2))
    | Some recs => (step4 l2 recs, app2, w2)
    end.
Proof.
  intros env app user_id w l1 app1 w1 l2 app2 w2 H1 H2.
  unfold recommend. rewrite H1, H2.
  destruct (recommendations l2); [reflexivity|].
  destruct (step3 env l2 w2); reflexivity.
Qed.

(** Step 1 leaves either no fallback or the user-profile one. *)
Lemma step1_fallbacks : forall env app user_id w l1 app1 w1,
    step1 env app user_id w = (l1, app1, w1) ->
    recommendations l1 = None /\
    (fallbacksTriggered l1 = [] \/
     (fallbacksTriggered l1 = ["user-profile-service"%string] /\
      userPreferences l1 =
      {| userId := JStr user_id; preferences := DEFAULT_PREFERENCES |})).
Proof.
  intros env app user_id w l1 app1 w1 H. unfold step1 in H.
  destruct (execute _ _ w) as [[[response | err] cb] w'].
  - destruct (get_prop response "userId"), (get_prop response "preferences");
      injection H as <- _ _; cbn; auto.
  - injection H as <- _ _; cbn; auto.
Qed.

(** When Step 2 yields no recommendations, and what it does to the rest. *)
Lemma step2_outcome : forall env app l w l2 app2 w2,
    step2 env app l w = (l2, app2, w2) ->
    userPreferences l2 = userPreferences l /\
    userProfileBreaker app2 = userProfileBreaker app /\
    match recommendations l2 with
    | Some recs =>
        fallbacksTriggered l2 = fallbacksTriggered l /\
        exists genres body movies,
          call_join env (preferences (userPreferences l)) "," = Some genres /\
          execute (contentBreaker app) (content_request env genres) w =
          (Fulfilled body, contentBreaker app2, w2) /\
          get_prop body "movies" = Some movies /\
          recs = js_or movies (JArr [])
    | None =>
        fallbacksTriggered l2 =
        (fallbacksTriggered l ++ ["content-service"%string])%list /\
        (call_join env (preferences (userPreferences l)) "," = None \/
         exists genres,
           call_join env (preferences (userPreferences l)) "," = Some genres /\
           match fst (fst (execute (contentBreaker app) (content_request env genres) w)) with
           | Fulfilled body => get_prop body "movies" = None
           | Rejected _ => True
           end)
    end.
Proof.
  intros env app l w l2 app2 w2 H. unfold step2 in H.
  destruct (call_join env (preferences (userPreferences l)) ",") as [genres|] eqn:Hj.
  - destruct (execute (contentBreaker app) (content_request env genres) w)
      as [[[body | err] cb] w'] eqn:He.
    + destruct (get_prop body "movies") as [movies|] eqn:Hm.
      * injection H as <- <- <-. cbn. repeat (split; [reflexivity|]).
        exists genres, body, movies. auto.
      * injection H as <- <- <-. cbn. repeat (split; [reflexivity|]).
        right. exists genres. split; [reflexivity|]. rewrite He. exact Hm.
    + injection H as <- <- <-. cbn. repeat (split; [reflexivity|]).
      right. exists genres. split; [reflexivity|]. rewrite He. exact I.
  - injection H as <- <- <-. cbn. repeat (split; [reflexivity|]).
    left. reflexivity.
Qed.

Lemma step2_absent_iff : forall env app l w l2 app2 w2,
    step2 env app l w = (l2, app2, w2) ->
    (recommendations l2 = None <->
     (call_join env (preferences (userPreferences l)) "," = None \/
      exists genres,
        call_join env (preferences (userPreferences l)) "," = Some genres /\
        match fst (fst (execute (contentBreaker app) (content_request env genres) w)) with
        | Fulfilled response => get_prop response "movies" = None
        | Rejected _ => True
        end)).
Proof.
  intros env app l w l2 app2 w2 H.
  destruct (step2_outcome _ _ _ _ _ _ _ H) as (_ & _ & Hout).
  destruct (recommendations l2) as [recs|].
  - split; [discriminate|].
    destruct Hout as (_ & genres & response & movies & Hj & He & Hm & _).
    intros [Hn | (g & Hg & Hr)]; [congruence|].
    rewrite Hj in Hg. injection Hg as <-. rewrite He in Hr. cbn in Hr. congruence.
  - split; [intros _; apply Hout | reflexivity].
Qed.

Lemma push_changes_log : forall (l : list string) (x : string), l <> (l ++ [x])%list.
Proof.
  intros l x H. apply (f_equal (@List.length string)) in H.
  rewrite length_app in H. cbn in H. lia.
Qed.

(** ** The trending fallback *)

(** C6. The trending service is requested, directly, exactly when Step 2
    left no recommendations: the content call was not made because the
    preferences are not an array, or it was rejected or failed, or no
    [movies] could be read from what it returned; what Step 1 did plays no
    part. When the trending call succeeds the response is 200 with the fixed
    message, the [trending] entry of the upstream body, and the triggered
    fallbacks joined by a comma and a space; when it fails the response is
    503 with the fixed error text and the same joined list. *)
Theorem trending_fallback :
  forall (env : Env) (app : App) (user_id : string) (w : World)
         (l1 : Locals) (app1 : App) (w1 : World)
         (l2 : Locals) (app2 : App) (w2 : World),
    step1 env app user_id w = (l1, app1, w1) ->
    step2 env app1 l1 w1 = (l2, app2, w2) ->
    let url := (TRENDING_URL env ++ "/trending")%string in
    exists (res : HttpResponse) (w3 : World),
      recommend env app user_id w = (res, app2, w3) /\
      (recommendations l2 = None <-> requests w3 = (requests w2 ++ [url])%list) /\
      (recommendations l2 <> None <-> w3 = w2) /\
      (recommendations l2 = None <->
       (call_join env (preferences (userPreferences l1)) "," = None \/
        exists genres,
          call_join env (preferences (userPreferences l1)) "," = Some genres /\
          match fst (fst (execute (contentBreaker app1) (content_request env genres) w1)) with
          | Fulfilled response => get_prop response "movies" = None
          | Rejected _ => True
          end)) /\
      (recommendations l2 = None ->
       fallback_triggered_for l2 = JStr (join_strings ", " (fallbacksTriggered l2)) /\
       (fallback_triggered_for l2 = JStr "content-service" \/
        fallback_triggered_for l2 = JStr "user-profile-service, content-service") /\
       match network env url 5000 w2 with
       | (Fulfilled trendingData, _) =>
           forall trending,
             get_prop trendingData "trending" = Some trending ->
             res = {| status := 200;
                      body := JObj [("message"%string,
                                     JStr "Our recommendation service is temporarily degraded. Here are some trending movies.");
                                    ("trending"%string, trending);
                                    ("fallback_triggered_for"%string,
                                     fallback_triggered_for l2)] |}
       | (Rejected _, _) =>
           res = {| status := 503;
                    body := JObj [("error"%string,
                                   JStr "All services are currently unavailable. Please try again shortly.");
                                  ("fallback_triggered_for"%string,
                                   fallback_triggered_for l2)] |}
       end).
Proof.
  intros env app user_id w l1 app1 w1 l2 app2 w2 H1 H2 url.
  pose proof (recommend_steps _ _ _ _ _ _ _ _ _ _ H1 H2) as Hrec.
  pose proof (step2_absent_iff _ _ _ _ _ _ _ H2) as Habs.
  destruct (step1_fallbacks _ _ _ _ _ _ _ H1) as (_ & Hfb1).
  destruct (step2_outcome _ _ _ _ _ _ _ H2) as (_ & _ & Hout).
  destruct (recommendations l2) as [recs|] eqn:Hr.
  - exists (step4 l2 recs), w2. split; [exact Hrec|].
    split; [split; [discriminate | intros Hc; destruct (push_changes_log _ _ Hc)]|].
    split; [split; [reflexivity | discriminate]|].
    split; [exact Habs | discriminate].
  - exists (fst (step3 env l2 w2)), (snd (step3 env l2 w2)). split; [exact Hrec|].
    assert (Hlog : requests (snd (step3 env l2 w2)) = (requests w2 ++ [url])%list).
    { unfold step3, axios_get. fold url.
      destruct (network env url 5000 w2) as [[d | e] t]; [|reflexivity].
      destruct (get_prop d "trending"); reflexivity. }
    split; [split; [intros _; exact Hlog | reflexivity]|].
    split.
    { split; [congruence|]. intros Hc. rewrite Hc in Hlog.
      destruct (push_changes_log _ _ Hlog). }
    split; [exact Habs|].
    intros _. split; [reflexivity|]. split.
    { destruct Hout as [Hfb2 _]. unfold fallback_triggered_for. rewrite Hfb2.
      destruct Hfb1 as [-> | [-> _]]; [left | right]; reflexivity. }
    unfold step3, axios_get. fold url.
    destruct (network env url 5000 w2) as [[d | e] t]; [|reflexivity].
    intros trending ->. reflexivity.
Qed.

(** ** The user-profile fallback *)

(** C7. Whatever makes the user-profile breaker call fail, a rejection by
    the open breaker included, Step 1 continues with the preferences
    Comedy and Family, the user id as received, and user-profile-service as
    the one triggered fallback. When Step 2 then yields recommendations, the
    response is 200 with [userPreferences] made of that user id and those
    preferences, the recommendations, and [fallback_triggered_for] present
    exactly when some fallback was triggered. *)
Theorem profile_fallback :
  forall (env : Env) (app : App) (user_id : string) (w : World),
    let fallback :=
      {| fallbacksTriggered := ["user-profile-service"%string];
         userPreferences :=
           {| userId := JStr user_id;
              preferences := JArr [JStr "Comedy"; JStr "Family"] |};
         recommendations := None |} in
    (forall (err : Error) (cb : CircuitBreaker) (w1 : World),
        execute (userProfileBreaker app) (profile_request env user_id) w
        = (Rejected err, cb, w1) ->
        step1 env app user_id w =
        (fallback, {| userProfileBreaker := cb; contentBreaker := contentBreaker app |}, w1))
    /\
    (let b1 := _maybeTransitionFromOpen (userProfileBreaker app) w in
     (_state b1 = OPEN \/
      (_state b1 = HALF_OPEN /\ _halfOpenTrials b1 >= halfOpenMaxTrials b1)) ->
     step1 env app user_id w =
     (fallback, {| userProfileBreaker := b1; contentBreaker := contentBreaker app |}, w))
    /\
    (forall (l1 : Locals) (app1 : App) (w1 : World)
            (l2 : Locals) (app2 : App) (w2 : World) (recs : JValue),
        step1 env app user_id w = (l1, app1, w1) ->
        step2 env app1 l1 w1 = (l2, app2, w2) ->
        recommendations l2 = Some recs ->
        exists fields,
          recommend env app user_id w = ({| status := 200; body := JObj fields |}, app2, w2) /\
          field "userPreferences" fields =
          JObj [("userId"%string, userId (userPreferences l1));
                ("preferences"%string, preferences (userPreferences l1))] /\
          field "recommendations" fields = recs /\
          fallbacksTriggered l2 = fallbacksTriggered l1 /\
          (has_field "fallback_triggered_for" fields = true <-> fallbacksTriggered l2 <> []) /\
          (fallbacksTriggered l2 <> [] ->
           field "fallback_triggered_for" fields =
           JStr (join_strings ", " (fallbacksTriggered l2))) /\
          (l1 = fallback ->
           fields = [("userPreferences"%string,
                      JObj [("userId"%string, JStr user_id);
                            ("preferences"%string, JArr [JStr "Comedy"; JStr "Family"])]);
                     ("recommendations"%string, recs);
                     ("fallback_triggered_for"%string, JStr "user-profile-service")])).
Proof.
  intros env app user_id w fallback.
  assert (Hfail : forall err cb w1,
             execute (userProfileBreaker app) (profile_request env user_id) w
             = (Rejected err, cb, w1) ->
             step1 env app user_id w =
             (fallback, {| userProfileBreaker := cb; contentBreaker := contentBreaker app |}, w1)).
  { intros err cb w1 He. unfold step1. rewrite He. reflexivity. }
  split; [exact Hfail|]. split.
  - intros b1 Hrej. eapply Hfail. apply execute_refused. exact Hrej.
  - intros l1 app1 w1 l2 app2 w2 recs H1 H2 Hr.
    pose proof (recommend_steps _ _ _ _ _ _ _ _ _ _ H1 H2) as Hrec.
    destruct (step2_outcome _ _ _ _ _ _ _ H2) as (Hup & _ & Hout).
    rewrite Hr in Hrec, Hout. destruct Hout as [Hfb _].
    unfold step4, res_json, json_of_preferences in Hrec. rewrite Hup, Hfb in Hrec.
    eexists. split; [exact Hrec|].
    unfold fallback_triggered_for. rewrite Hfb.
    destruct (fallbacksTriggered l1) as [|x rest] eqn:Hl.
    + cbn. repeat split; try reflexivity; try congruence.
      intros ->. discriminate.
    + cbn -[join_strings].
      split; [reflexivity|]. split; [reflexivity|]. split; [reflexivity|].
      split; [split; [discriminate | reflexivity]|].
      split; [reflexivity|].
      intros ->. cbn in Hl. injection Hl as <- <-. reflexivity.
Qed.

(** ** An answer without movies *)

Lemma field_missing : forall k fields,
    has_field k fields = false -> field k fields = JUndefined.
Proof.
  intros k fields. induction fields as [|[k' v] rest IH]; [reflexivity|].
  cbn. destruct (String.eqb k k'); [discriminate | exact IH].
Qed.

(** C10. When the content call succeeds with a body that has no [movies]
    field, or from which [movies] is read as a falsy value, the handler goes
    on as after a success with no movies: the response is 200 with the user
    preferences and an empty [recommendations] array, the world is the one
    the content call ended in (no request to the trending service), and
    content-service is not among the triggered fallbacks. *)
Theorem missing_movies_is_empty_list :
  forall (env : Env) (app : App) (user_id : string) (w : World)
         (l1 : Locals) (app1 : App) (w1 : World)
         (genres : string) (response : JValue)
         (cb : CircuitBreaker) (w2 : World),
    step1 env app user_id w = (l1, app1, w1) ->
    call_join env (preferences (userPreferences l1)) "," = Some genres ->
    execute (contentBreaker app1) (content_request env genres) w1
    = (Fulfilled response, cb, w2) ->
    ((exists fields, response = JObj fields /\ has_field "movies" fields = false) \/
     (exists movies, get_prop response "movies" = Some movies /\ truthy movies = false)) ->
    recommend env app user_id w =
    ({| status := 200;
        body := JObj ([("userPreferences"%string, json_of_preferences (userPreferences l1));
                       ("recommendations"%string, JArr [])]
                        ++ match fallbacksTriggered l1 with
                           | [] => []
                           | _ => [("fallback_triggered_for"%string,
                                    JStr (join_strings ", " (fallbacksTriggered l1)))]
                           end) |},
     {| userProfileBreaker := userProfileBreaker app1; contentBreaker := cb |},
     w2) /\
    ~ In "content-service"%string (fallbacksTriggered l1).
Proof.
  intros env app user_id w l1 app1 w1 genres response cb w2 H1 Hj He Hbody.
  assert (Hread : exists movies,
             get_prop response "movies" = Some movies /\ truthy movies = false).
  { destruct Hbody as [(fields & -> & Hno) | Hfalsy]; [|exact Hfalsy].
    exists JUndefined. cbn [get_prop]. rewrite (field_missing _ _ Hno). auto. }
  destruct Hread as (movies & Hm & Hf).
  assert (H2 : step2 env app1 l1 w1 =
               ({| fallbacksTriggered := fallbacksTriggered l1;
                   userPreferences := userPreferences l1;
                   recommendations := Some (JArr []) |},
                {| userProfileBreaker := userProfileBreaker app1; contentBreaker := cb |},
                w2)).
  { unfold step2. rewrite Hj, He, Hm. unfold js_or. rewrite Hf. reflexivity. }
  rewrite (recommend_steps _ _ _ _ _ _ _ _ _ _ H1 H2).
  cbn [recommendations]. unfold step4, res_json, fallback_triggered_for.
  cbn [fallbacksTriggered userPreferences].
  destruct (step1_fallbacks _ _ _ _ _ _ _ H1) as (_ & [Hfb | [Hfb _]]); rewrite Hfb.
  - split; [reflexivity | intros []].
  - split; [reflexivity|]. intros [Hc | []]. discriminate.
Qed.

(** * Worked instances *)

(** Equations between closed terms, by evaluation. *)
Ltac by_evaluation := vm_compute; first [reflexivity | discriminate].

(** The fifth failure in a row opens a default breaker; a failure that makes
    six failures in a full window of ten opens a breaker of app.js by the
    rate; one that makes four in ten does not. *)
Lemma closed_failure_trip_order_witness :
  (_state four_failures = CLOSED /\
   _withTimeout four_failures (@failing unit) (requestTimeout four_failures) (at_time 0)
   = (Rejected (OtherError "boom"), at_time 0) /\
   exists b',
     execute four_failures (@failing unit) (at_time 0)
     = (Rejected (OtherError "boom"), b', at_time 0) /\
     _state b' = OPEN) /\
  (_state alternating = CLOSED /\
   _consecutiveFailures alternating + 1 < consecutiveFailureThreshold alternating /\
   _window (_onFailure alternating (OtherError "boom") (at_time 0))
   = [false; true; false; true; false; true; false; true; false; false] /\
   _state (_onFailure alternating (OtherError "boom") (at_time 0)) = OPEN) /\
  (_state mostly_answering = CLOSED /\
   _window (_onFailure mostly_answering (OtherError "boom") (at_time 0))
   = [false; true; true; false; true; true; false; true; true; false] /\
   _state (_onFailure mostly_answering (OtherError "boom") (at_time 0)) = CLOSED).
Proof.
  split; [|split].
  - assert (Hst : _state four_failures = CLOSED) by by_evaluation.
    assert (Hfn : _withTimeout four_failures (@failing unit) (requestTimeout four_failures)
                    (at_time 0) = (Rejected (OtherError "boom"), at_time 0))
      by by_evaluation.
    split; [exact Hst|]. split; [exact Hfn|].
    destruct (closed_failure_trip_order four_failures (OtherError "boom") (at_time 0) Hst)
      as (He & Hcf & _ & Hge & _).
    exists (_onFailure four_failures (OtherError "boom") (at_time 0)).
    split; [exact (He unit failing (at_time 0) Hfn)|].
    apply Hge. rewrite Hcf. by_evaluation.
  - assert (Hst : _state alternating = CLOSED) by by_evaluation.
    assert (Hlt : _consecutiveFailures alternating + 1
                  < consecutiveFailureThreshold alternating) by by_evaluation.
    split; [exact Hst|]. split; [exact Hlt|].
    destruct (closed_failure_trip_order alternating (OtherError "boom") (at_time 0) Hst)
      as (_ & Hcf & Hwin & _ & Hrate & _).
    split; [rewrite Hwin; by_evaluation|].
    rewrite Hcf in Hrate. destruct (Hrate Hlt) as [Hiff _].
    apply Hiff. split; by_evaluation.
  - assert (Hst : _state mostly_answering = CLOSED) by by_evaluation.
    assert (Hlt : _consecutiveFailures mostly_answering + 1
                  < consecutiveFailureThreshold mostly_answering) by by_evaluation.
    split; [exact Hst|].
    destruct (closed_failure_trip_order mostly_answering (OtherError "boom") (at_time 0) Hst)
      as (_ & Hcf & Hwin & _ & Hrate & _).
    split; [rewrite Hwin; by_evaluation|].
    rewrite Hcf in Hrate. destruct (Hrate Hlt) as [Hiff Hclosed].
    apply Hclosed. intros Hopen. apply Hiff in Hopen. destruct Hopen as [_ Hr].
    revert Hr. by_evaluation.
Defined.

(** A breaker opened at 0 is HALF_OPEN at 30000 and still OPEN at 29999. *)
Lemma open_expiry_half_opens_witness :
  _state (opened_at 0) = OPEN /\
  _openedAt (opened_at 0) = Some 0 /\
  fst (state (opened_at 0) (at_time 30000)) = HALF_OPEN /\
  fst (state (opened_at 0) (at_time 29999)) = OPEN.
Proof.
  assert (Hst : _state (opened_at 0) = OPEN) by by_evaluation.
  assert (Hat : _openedAt (opened_at 0) = Some 0) by by_evaluation.
  split; [exact Hst|]. split; [exact Hat|]. split.
  - destruct (open_expiry_half_opens sample_number_string (opened_at 0) 0 (at_time 30000)
                Hst Hat) as [Hdue _].
    assert (H : Date_now (at_time 30000) - 0 >= openStateDuration (opened_at 0))
      by by_evaluation.
    destruct (Hdue H) as (_ & Hs & _). rewrite Hs. reflexivity.
  - destruct (open_expiry_half_opens sample_number_string (opened_at 0) 0 (at_time 29999)
                Hst Hat) as [_ Hearly].
    assert (H : Date_now (at_time 29999) - 0 < openStateDuration (opened_at 0))
      by by_evaluation.
    destruct (Hearly H) as (Hs & _). rewrite Hs. reflexivity.
Defined.


(** An open breaker rejects without running the operation. *)
Lemma rejection_leaves_bookkeeping_witness :
  _state (_maybeTransitionFromOpen (opened_at 0) (at_time 10)) = OPEN /\
  execute (opened_at 0) (answering tt) (at_time 10)
  = (Rejected (CircuitOpenError (name (opened_at 0))
                 (_state (_maybeTransitionFromOpen (opened_at 0) (at_time 10)))),
     _maybeTransitionFromOpen (opened_at 0) (at_time 10), at_time 10) /\
  _totalFailure (_maybeTransitionFromOpen (opened_at 0) (at_time 10))
  = _totalFailure (opened_at 0).
Proof.
  assert (Hst : _state (_maybeTransitionFromOpen (opened_at 0) (at_time 10)) = OPEN)
    by by_evaluation.
  split; [exact Hst|].
  destruct (rejection_leaves_bookkeeping unit (opened_at 0) (answering tt) (at_time 10)
              (or_introl Hst)) as (He & _ & _ & _ & Hf).
  split; [exact He | exact Hf].
Defined.

Lemma opened_at_reachable : forall t, reachable "svc" no_options (opened_at t).
Proof.
  intros t. unfold opened_at. cbn [repeat_execute].
  repeat apply reach_execute. apply reach_new.
Qed.

(** The invariants on a breaker that five failures opened. *)
Lemma invariants_hold_witness :
  0 <= nullish (opt_windowSize no_options) 10 /\
  0 <= nullish (opt_halfOpenMaxTrials no_options) 3 /\
  reachable "svc" no_options (opened_at 0) /\
  (_openedAt (opened_at 0) <> None <-> _state (opened_at 0) = OPEN) /\
  _halfOpenSuccesses (opened_at 0) <= _halfOpenTrials (opened_at 0) /\
  _halfOpenTrials (opened_at 0) <= halfOpenMaxTrials (opened_at 0) /\
  size (_window (opened_at 0)) <= windowSize (opened_at 0).
Proof.
  assert (H1 : 0 <= nullish (opt_windowSize no_options) 10) by by_evaluation.
  assert (H2 : 0 <= nullish (opt_halfOpenMaxTrials no_options) 3) by by_evaluation.
  split; [exact H1|]. split; [exact H2|]. split; [apply opened_at_reachable|].
  destruct (invariants_hold "svc" no_options (opened_at 0) H1 H2) as [_ Hseq].
  exact (Hseq (opened_at_reachable 0)).
Defined.


(** Resetting an open breaker. *)
Lemma reset_and_totals_witness :
  _state (reset (opened_at 0) (at_time 1)) = CLOSED /\
  _totalFailure (reset (opened_at 0) (at_time 1)) = 0 /\
  _totalFailure (opened_at 0) = 5.
Proof.
  destruct reset_and_totals as (Hreset & _).
  destruct (Hreset (opened_at 0) (at_time 1)) as (Hs & _ & Hf & _).
  split; [exact Hs|]. split; [exact Hf | by_evaluation].
Defined.

(** Profile and content down, trending up: the degraded answer, after three
    requests. *)
Lemma trending_fallback_witness :
  step1 env_trending_only initial_app "u1" (at_time 0)
  = (fst (fst (first_step env_trending_only)), snd (fst (first_step env_trending_only)),
     snd (first_step env_trending_only)) /\
  step2 env_trending_only (snd (fst (first_step env_trending_only)))
    (fst (fst (first_step env_trending_only))) (snd (first_step env_trending_only))
  = (fst (fst (second_step env_trending_only)), snd (fst (second_step env_trending_only)),
     snd (second_step env_trending_only)) /\
  (exists res w3,
    recommend env_trending_only initial_app "u1" (at_time 0)
    = (res, snd (fst (second_step env_trending_only)), w3) /\
    requests w3
    = (requests (snd (second_step env_trending_only))
         ++ ["http://trending-service:8083/trending"%string])%list /\
    res = {| status := 200;
             body := JObj [("message"%string,
                            JStr "Our recommendation service is temporarily degraded. Here are some trending movies.");
                           ("trending"%string, JArr [sample_movie]);
                           ("fallback_triggered_for"%string,
                            JStr "user-profile-service, content-service")] |}) /\
  (exists res w3,
    recommend env_down initial_app "u1" (at_time 0)
    = (res, snd (fst (second_step env_down)), w3) /\
    res = {| status := 503;
             body := JObj [("error"%string,
                            JStr "All services are currently unavailable. Please try again shortly.");
                           ("fallback_triggered_for"%string,
                            JStr "user-profile-service, content-service")] |}).
Proof.
  assert (H1 : step1 env_trending_only initial_app "u1" (at_time 0)
               = (fst (fst (first_step env_trending_only)),
                  snd (fst (first_step env_trending_only)),
                  snd (first_step env_trending_only))) by by_evaluation.
  assert (H2 : step2 env_trending_only (snd (fst (first_step env_trending_only)))
                 (fst (fst (first_step env_trending_only)))
                 (snd (first_step env_trending_only))
               = (fst (fst (second_step env_trending_only)),
                  snd (fst (second_step env_trending_only)),
                  snd (second_step env_trending_only))) by by_evaluation.
  split; [exact H1|]. split; [exact H2|]. split.
  - destruct (trending_fallback _ _ _ _ _ _ _ _ _ _ H1 H2)
      as (res & w3 & Hrec & Hcalled & _ & _ & Hres).
    assert (Hnone : recommendations (fst (fst (second_step env_trending_only))) = None)
      by by_evaluation.
    exists res, w3. split; [exact Hrec|].
    split; [apply Hcalled; exact Hnone|].
    destruct (Hres Hnone) as (_ & _ & Hbody).
    assert (Hnet : network env_trending_only
                     (TRENDING_URL env_trending_only ++ "/trending") 5000
                     (snd (second_step env_trending_only))
                   = (Fulfilled sample_trending, 15)) by by_evaluation.
    rewrite Hnet in Hbody. rewrite (Hbody (JArr [sample_movie]) eq_refl).
    by_evaluation.
  - assert (D1 : step1 env_down initial_app "u1" (at_time 0)
                 = (fst (fst (first_step env_down)), snd (fst (first_step env_down)),
                    snd (first_step env_down))) by by_evaluation.
    assert (D2 : step2 env_down (snd (fst (first_step env_down)))
                   (fst (fst (first_step env_down))) (snd (first_step env_down))
                 = (fst (fst (second_step env_down)), snd (fst (second_step env_down)),
                    snd (second_step env_down))) by by_evaluation.
    destruct (trending_fallback _ _ _ _ _ _ _ _ _ _ D1 D2)
      as (res & w3 & Hrec & _ & _ & _ & Hres).
    assert (Hnone : recommendations (fst (fst (second_step env_down))) = None)
      by by_evaluation.
    exists res, w3. split; [exact Hrec|].
    destruct (Hres Hnone) as (_ & _ & Hbody).
    assert (Hnet : network env_down (TRENDING_URL env_down ++ "/trending") 5000
                     (snd (second_step env_down))
                   = (Rejected (OtherError "connect ECONNREFUSED"), 15)) by by_evaluation.
    rewrite Hnet in Hbody. rewrite Hbody. by_evaluation.
Defined.

(** Profile down, content up: defaults, and the fallback named in the
    answer. *)
Lemma profile_fallback_witness :
  execute (userProfileBreaker initial_app) (profile_request env_without_profile "u1")
    (at_time 0)
  = (Rejected (OtherError "Request failed with status code 500"),
     snd (fst (execute (userProfileBreaker initial_app)
                 (profile_request env_without_profile "u1") (at_time 0))),
     snd (execute (userProfileBreaker initial_app)
            (profile_request env_without_profile "u1") (at_time 0))) /\
  fallbacksTriggered (fst (fst (step1 env_without_profile initial_app "u1" (at_time 0))))
  = ["user-profile-service"%string] /\
  body (fst (fst (recommend env_without_profile initial_app "u1" (at_time 0))))
  = JObj [("userPreferences"%string,
           JObj [("userId"%string, JStr "u1");
                 ("preferences"%string, JArr [JStr "Comedy"; JStr "Family"])]);
          ("recommendations"%string, JArr [sample_movie]);
          ("fallback_triggered_for"%string, JStr "user-profile-service")].
Proof.
  assert (He : execute (userProfileBreaker initial_app)
                 (profile_request env_without_profile "u1") (at_time 0)
               = (Rejected (OtherError "Request failed with status code 500"),
                  snd (fst (execute (userProfileBreaker initial_app)
                              (profile_request env_without_profile "u1") (at_time 0))),
                  snd (execute (userProfileBreaker initial_app)
                         (profile_request env_without_profile "u1") (at_time 0))))
    by by_evaluation.
  split; [exact He|].
  destruct (profile_fallback env_without_profile initial_app "u1" (at_time 0))
    as (Hfail & _ & Hnormal).
  pose proof (Hfail _ _ _ He) as H1.
  split; [rewrite H1; reflexivity|].
  assert (H2 : step2 env_without_profile (snd (fst (first_step env_without_profile)))
                 (fst (fst (first_step env_without_profile)))
                 (snd (first_step env_without_profile))
               = (fst (fst (second_step env_without_profile)),
                  snd (fst (second_step env_without_profile)),
                  snd (second_step env_without_profile))) by by_evaluation.
  assert (H1' : step1 env_without_profile initial_app "u1" (at_time 0)
                = (fst (fst (first_step env_without_profile)),
                   snd (fst (first_step env_without_profile)),
                   snd (first_step env_without_profile))) by by_evaluation.
  assert (Hr : recommendations (fst (fst (second_step env_without_profile)))
               = Some (JArr [sample_movie])) by by_evaluation.
  destruct (Hnormal _ _ _ _ _ _ _ H1' H2 Hr) as (fields & Hrec & _ & _ & _ & _ & _ & Hfields).
  rewrite Hrec. cbn [fst body]. f_equal. apply Hfields. by_evaluation.
Defined.

(** A content answer without a [movies] field gives an empty list. *)
Lemma missing_movies_is_empty_list_witness :
  step1 env_no_movies initial_app "u1" (at_time 0)
  = (fst (fst (first_step env_no_movies)), snd (fst (first_step env_no_movies)),
     snd (first_step env_no_movies)) /\
  call_join env_no_movies
    (preferences (userPreferences (fst (fst (first_step env_no_movies))))) ","
  = Some "Action,Sci-Fi"%string /\
  has_field "movies" [] = false /\
  fst (fst (recommend env_no_movies initial_app "u1" (at_time 0)))
  = {| status := 200;
       body := JObj [("userPreferences"%string,
                      JObj [("userId"%string, JStr "u1");
                            ("preferences"%string, JArr [JStr "Action"; JStr "Sci-Fi"])]);
                     ("recommendations"%string, JArr [])] |} /\
  requests (snd (recommend env_no_movies initial_app "u1" (at_time 0)))
  = ["http://user-profile-service:8081/users/u1"%string;
     "http://content-service:8082/movies?genres=Action%2CSci-Fi"%string].
Proof.
  assert (H1 : step1 env_no_movies initial_app "u1" (at_time 0)
               = (fst (fst (first_step env_no_movies)), snd (fst (first_step env_no_movies)),
                  snd (first_step env_no_movies))) by by_evaluation.
  assert (Hj : call_join env_no_movies
                 (preferences (userPreferences (fst (fst (first_step env_no_movies))))) ","
               = Some "Action,Sci-Fi"%string) by by_evaluation.
  assert (He : execute (contentBreaker (snd (fst (first_step env_no_movies))))
                 (content_request env_no_movies "Action,Sci-Fi")
                 (snd (first_step env_no_movies))
               = (Fulfilled (JObj []),
                  contentBreaker (snd (fst (second_step env_no_movies))),
                  snd (second_step env_no_movies))) by by_evaluation.
  split; [exact H1|]. split; [exact Hj|]. split; [reflexivity|].
  destruct (missing_movies_is_empty_list _ _ _ _ _ _ _ _ _ _ _ H1 Hj He
              (or_introl (ex_intro _ [] (conj eq_refl eq_refl))))
    as [Hrec _].
  rewrite Hrec. cbn [fst snd]. split; by_evaluation.
Defined.

(** * The binary64 results against exact arithmetic *)


Lemma failures_le_size : forall win, 0 <= failures win <= size win.
Proof.
  intros win. unfold failures, size. pose proof (filter_length_le negb win). lia.
Qed.



(** * The scenarios of the specification, by evaluation *)

(** P1: five failures in a row open a default breaker, four do not. *)
Example five_failures_open :
  _state (run_outcomes [false; false; false; false; false] (at_time 0)
            (new_CircuitBreaker "svc" no_options)) = OPEN /\
  _state (run_outcomes [false; false; false; false] (at_time 0)
            (new_CircuitBreaker "svc" no_options)) = CLOSED.
Proof. split; by_evaluation. Qed.

(** The rate test: five failures among ten calls, never two in a row, open
    the breaker at the tenth call. *)
Example half_of_a_full_window_opens :
  _state (run_outcomes [true; false; true; false; true; false; true; false; true; false]
            (at_time 0) (new_CircuitBreaker "svc" no_options)) = OPEN.
Proof. by_evaluation. Qed.

(** P2: five failures among nine calls, a rate above one half, leave the
    breaker CLOSED because the window is not full. *)
Example short_window_does_not_open :
  _state (run_outcomes [false; true; false; true; false; true; false; true; false]
            (at_time 0) (new_CircuitBreaker "svc" no_options)) = CLOSED.
Proof. by_evaluation. Qed.

(** The window keeps the ten most recent outcomes. *)
Example window_evicts_oldest :
  _window (run_outcomes [false; true; true; true; true; true; true; true; true; true; true]
             (at_time 0) (new_CircuitBreaker "svc" no_options))
  = [true; true; true; true; true; true; true; true; true; true].
Proof. by_evaluation. Qed.

(** Scenario 1: the happy path. *)
Example scenario_happy_path :
  fst (fst (recommend env_healthy initial_app "u1" (at_time 0)))
  = {| status := 200;
       body := JObj [("userPreferences"%string,
                      JObj [("userId"%string, JStr "u1");
                            ("preferences"%string, JArr [JStr "Action"; JStr "Sci-Fi"])]);
                     ("recommendations"%string, JArr [sample_movie])] |}.
Proof. by_evaluation. Qed.

(** Scenario 2: the user-profile breaker is open, the content service is
    healthy; no request goes to the user-profile service. *)
Example scenario_profile_breaker_open :
  let app := {| userProfileBreaker := userProfileBreaker (both_open 0);
                contentBreaker := contentBreaker initial_app |} in
  fst (fst (recommend env_healthy app "u1" (at_time 10)))
  = {| status := 200;
       body := JObj [("userPreferences"%string,
                      JObj [("userId"%string, JStr "u1");
                            ("preferences"%string, JArr [JStr "Comedy"; JStr "Family"])]);
                     ("recommendations"%string, JArr [sample_movie]);
                     ("fallback_triggered_for"%string, JStr "user-profile-service")] |} /\
  requests (snd (recommend env_healthy app "u1" (at_time 10)))
  = ["http://content-service:8082/movies?genres=Comedy%2CFamily"%string].
Proof. split; by_evaluation. Qed.

(** Scenario 3: both breakers open, trending healthy. *)
Example scenario_both_open :
  fst (fst (recommend env_healthy (both_open 0) "u1" (at_time 10)))
  = {| status := 200;
       body := JObj [("message"%string, JStr degraded_message);
                     ("trending"%string, JArr [sample_movie]);
                     ("fallback_triggered_for"%string,
                      JStr "user-profile-service, content-service")] |} /\
  requests (snd (recommend env_healthy (both_open 0) "u1" (at_time 10)))
  = ["http://trending-service:8083/trending"%string].
Proof. split; by_evaluation. Qed.

(** Scenario 4: all three down. *)
Example scenario_all_down :
  fst (fst (recommend env_down (both_open 0) "u1" (at_time 10)))
  = {| status := 503;
       body := JObj [("error"%string,
                      JStr "All services are currently unavailable. Please try again shortly.");
                     ("fallback_triggered_for"%string,
                      JStr "user-profile-service, content-service")] |}.
Proof. by_evaluation. Qed.

(** Scenario 5: at exactly 30 s three successful probes close the breaker. *)
Example scenario_half_open_recovery :
  _state (run_outcomes [true; true] (at_time 30000) (opened_at 0)) = HALF_OPEN /\
  _state (run_outcomes [true; true; true] (at_time 30000) (opened_at 0)) = CLOSED /\
  halfOpenTrials
    (fst (getMetrics sample_number_string
            (run_outcomes [true; true; true] (at_time 30000) (opened_at 0))
            (at_time 30000)))
  = "N/A"%string.
Proof. repeat split; by_evaluation. Qed.

(** Scenario 6: the first probe fails, the breaker reopens at 30 s and still
    rejects nine seconds later. *)
Example scenario_half_open_retrip :
  _state (run_outcomes [false] (at_time 30000) (opened_at 0)) = OPEN /\
  _openedAt (run_outcomes [false] (at_time 30000) (opened_at 0)) = Some 30000 /\
  fst (fst (execute (run_outcomes [false] (at_time 30000) (opened_at 0))
              (answering tt) (at_time 39000)))
  = Rejected (CircuitOpenError "svc" OPEN).
Proof. repeat split; by_evaluation. Qed.

(** A call that outlasts [requestTimeout] counts as a failure at the time the
    timer fires. *)
Example slow_call_times_out :
  let slow : Operation unit := fun w => (Fulfilled tt, {| clock := clock w + 3000;
                                                            requests := requests w |}) in
  let r := execute (new_CircuitBreaker "svc" no_options) slow (at_time 0) in
  fst (fst r)
  = Rejected (TimeoutError "CircuitBreaker[svc]: request timed out after 2000ms") /\
  _totalFailure (snd (fst r)) = 1 /\
  clock (snd r) = 2000.
Proof. repeat split; by_evaluation. Qed.

(** A body that is [null] has no field to read: the read throws inside the
    [try] of Step 2, which records the content fallback and goes on to the
    trending service, although the breaker has counted a success. *)
Example null_body_takes_the_catch_branch :
  requests (snd (recommend env_null_bodies initial_app "u1" (at_time 0)))
  = ["http://user-profile-service:8081/users/u1"%string;
     "http://content-service:8082/movies?genres=Action%2CSci-Fi"%string;
     "http://trending-service:8083/trending"%string] /\
  _totalSuccess (contentBreaker (snd (fst (recommend env_null_bodies initial_app "u1"
                                            (at_time 0))))) = 1 /\
  body (fst (fst (recommend env_null_bodies initial_app "u1" (at_time 0))))
  = JObj [("message"%string, JStr degraded_message);
          ("trending"%string, JArr [sample_movie]);
          ("fallback_triggered_for"%string, JStr "content-service")].
Proof. repeat split; by_evaluation. Qed.

(** * Further properties of the circuit breaker *)

(** ** The sliding window *)

Lemma most_recent_short : forall (A : Type) (n : nat) (l : list A),
    (List.length l <= n)%nat -> most_recent n l = l.
Proof.
  intros A n l H. unfold most_recent.
  replace (List.length l - n)%nat with 0%nat by lia. reflexivity.
Qed.

Lemma most_recent_length : forall (A : Type) (n : nat) (l : list A),
    List.length (most_recent n l) = Nat.min n (List.length l).
Proof. intros A n l. unfold most_recent. rewrite length_skipn. lia. Qed.

Lemma most_recent_app : forall (A : Type) (n : nat) (l more : list A),
    most_recent n (most_recent n l ++ more) = most_recent n (l ++ more).
Proof.
  intros A n l more. destruct (Nat.le_gt_cases (List.length l) n) as [H|H].
  - rewrite (most_recent_short _ n l H). reflexivity.
  - unfold most_recent. rewrite !length_app, length_skipn.
    replace (List.length l - (List.length l - n) + List.length more - n)%nat
      with (List.length more) by lia.
    replace (List.length l + List.length more - n)%nat
      with (List.length more + (List.length l - n))%nat by lia.
    rewrite <- skipn_skipn. f_equal.
    rewrite skipn_app.
    replace (List.length l - n - List.length l)%nat with 0%nat by lia. reflexivity.
Qed.

(** One recorded outcome: pushed at the end, and the oldest entry dropped
    when the window would grow past [windowSize]. *)
Lemma recordResult_most_recent : forall b r,
    0 <= windowSize b -> size (_window b) <= windowSize b ->
    _window (_recordResult b r) =
    most_recent (Z.to_nat (windowSize b)) (_window b ++ [r]).
Proof.
  intros b r Hws Hsize. rewrite recordResult_window. unfold size in *.
  rewrite length_app in *. cbn [List.length].
  destruct (Z.gtb_spec (Z.of_nat (List.length (_window b) + 1)) (windowSize b)) as [H|H].
  - unfold most_recent. rewrite length_app. cbn [List.length].
    replace (List.length (_window b) + 1 - Z.to_nat (windowSize b))%nat with 1%nat by lia.
    reflexivity.
  - rewrite most_recent_short; [reflexivity|].
    rewrite length_app. cbn [List.length]. lia.
Qed.

(** X1. The window is a first-in first-out buffer of the latest outcomes:
    after any run of recorded outcomes it holds exactly the last
    [windowSize] entries of what it held before followed by the run, oldest
    first, and all of them while they are fewer. *)
Theorem window_holds_latest_outcomes : forall outcomes b,
    0 <= windowSize b ->
    size (_window b) <= windowSize b ->
    _window (record_all outcomes b) =
    most_recent (Z.to_nat (windowSize b)) (_window b ++ outcomes) /\
    size (_window (record_all outcomes b)) =
    Z.min (windowSize b) (size (_window b) + size outcomes).
Proof.
  assert (Hgen : forall outcomes b,
    0 <= windowSize b -> size (_window b) <= windowSize b ->
    _window (record_all outcomes b) =
    most_recent (Z.to_nat (windowSize b)) (_window b ++ outcomes)).
  { induction outcomes as [|r outcomes IH]; intros b Hws Hsize.
    - cbn [record_all fold_left]. rewrite app_nil_r.
      rewrite most_recent_short by (unfold size in Hsize; lia). reflexivity.
    - assert (Hcfg : windowSize (_recordResult b r) = windowSize b).
      { destruct (recordResult_same_config b r) as (_ & _ & H & _). exact H. }
      assert (Hwin := recordResult_most_recent b r Hws Hsize).
      change (record_all (r :: outcomes) b) with (record_all outcomes (_recordResult b r)).
      rewrite IH.
      + rewrite Hcfg, Hwin, most_recent_app, <- app_assoc. reflexivity.
      + lia.
      + rewrite Hcfg, Hwin. unfold size. rewrite most_recent_length. lia. }
  intros outcomes b Hws Hsize. split; [apply Hgen; assumption|].
  rewrite Hgen by assumption. unfold size in *.
  rewrite most_recent_length, length_app. lia.
Qed.

(** Twelve outcomes recorded by a breaker with a window of ten. *)
Lemma window_holds_latest_outcomes_witness :
  0 <= windowSize app_breaker /\
  size (_window app_breaker) <= windowSize app_breaker /\
  _window (record_all (repeat false 3 ++ repeat true 9) app_breaker)
  = (false :: repeat true 9).
Proof.
  assert (H1 : 0 <= windowSize app_breaker) by by_evaluation.
  assert (H2 : size (_window app_breaker) <= windowSize app_breaker) by by_evaluation.
  split; [exact H1|]. split; [exact H2|].
  destruct (window_holds_latest_outcomes (repeat false 3 ++ repeat true 9) app_breaker
              H1 H2) as [Hw _].
  rewrite Hw. by_evaluation.
Defined.

(** ** Calls against the timer *)

(** What the entry of [execute] decides, by the state after the time-driven
    check. *)
Lemma admission_shape : forall b w,
    let c := _maybeTransitionFromOpen b w in
    match admission b w with
    | Allowed b1 =>
        (_state c = CLOSED /\ b1 = c) \/
        (_state c = HALF_OPEN /\ _halfOpenTrials c < halfOpenMaxTrials c /\
         b1 = set_halfOpenTrials c (_halfOpenTrials c + 1))
    | Refused b1 e =>
        b1 = c /\ e = CircuitOpenError (name c) (_state c) /\
        (_state c = OPEN \/
         (_state c = HALF_OPEN /\ _halfOpenTrials c >= halfOpenMaxTrials c))
    end.
Proof.
  intros b w c. unfold admission. fold c.
  destruct (_state c) eqn:Hs.
  - left. split; reflexivity.
  - split; [reflexivity|]. split; [reflexivity|]. left. reflexivity.
  - destruct (Z.geb_spec (_halfOpenTrials c) (halfOpenMaxTrials c)) as [H|H].
    + split; [reflexivity|]. split; [reflexivity|]. right. split; [reflexivity | lia].
    + right. split; [reflexivity|]. split; [lia | reflexivity].
Qed.

(** A call that is let in leaves the configuration, the window, the count
    of consecutive failures and the totals to the recording of its outcome. *)
Lemma admission_frame : forall b w b1,
    admission b w = Allowed b1 ->
    same_config b b1 /\
    _state b1 <> OPEN /\
    _window b1 = _window b /\
    _consecutiveFailures b1 = _consecutiveFailures b /\
    _totalSuccess b1 = _totalSuccess b /\
    _totalFailure b1 = _totalFailure b.
Proof.
  intros b w b1 H.
  assert (Hshape := admission_shape b w). cbv zeta in Hshape. rewrite H in Hshape.
  destruct (maybeTransitionFromOpen_frame b w) as (Hw & Hc & Hs & Hf & Hcfg).
  destruct Hshape as [[Hst ->] | (Hst & _ & ->)].
  - repeat split; try assumption; try apply Hcfg. congruence.
  - cbn. repeat split; try assumption; try apply Hcfg. congruence.
Qed.

(** What [_onFailure] always does to the counters. *)
Lemma onFailure_counters : forall b err w,
    _totalFailure (_onFailure b err w) = _totalFailure b + 1 /\
    _totalSuccess (_onFailure b err w) = _totalSuccess b /\
    _consecutiveFailures (_onFailure b err w) = _consecutiveFailures b + 1.
Proof.
  intros b err w. open_breaker b.
  unfold _onFailure, _recordResult, _getFailureRate, window_length.
  cbn -[num_ge failure_rate size Z.geb Z.gtb].
  destruct (size (win ++ [false]) >? wsz); cbn -[num_ge failure_rate size Z.geb Z.gtb];
    destruct st; cbn -[num_ge failure_rate size Z.geb Z.gtb];
    repeat match goal with
           | |- context [if ?c then _ else _] => destruct c
           end; cbn; repeat split; reflexivity.
Qed.

(** X2. The race of a call that [execute] lets in against the timer: an
    operation that settles sooner than the timer's delay hands its own
    outcome through, at the time it settled; one that takes longer is
    answered, when the timer fires, with a timeout error, whatever it
    settles as later, and the call is booked as a failure. For a
    [requestTimeout] of magnitude up to 2^53, which the template literal
    prints digit by digit, the message of the error ends in that number
    followed by [ms]. *)
Theorem late_answer_is_a_timeout :
  forall (A : Type) (b b1 : CircuitBreaker) (fn : Operation A) (w w1 : World)
         (r : Settled A),
    admission b w = Allowed b1 ->
    fn w = (r, w1) ->
    let delay := timer_delay (requestTimeout b) in
    (Date_now w1 - Date_now w < delay ->
     fst (fst (execute b fn w)) = r /\ snd (execute b fn w) = w1) /\
    (delay < Date_now w1 - Date_now w ->
     exists message b',
       execute b fn w =
       (Rejected (TimeoutError message), b',
        {| clock := Date_now w + delay; requests := requests w1 |}) /\
       (Z.abs (requestTimeout b) <= 2 ^ 53 ->
        message = ("CircuitBreaker[" ++ name b ++ "]: request timed out after "
                     ++ string_of_Z (requestTimeout b) ++ "ms")%string) /\
       _totalFailure b' = _totalFailure b + 1 /\
       _totalSuccess b' = _totalSuccess b /\
       _consecutiveFailures b' = _consecutiveFailures b + 1).
Proof.
  intros A b b1 fn w w1 r Hentry Hfn delay.
  destruct (admission_frame b w b1 Hentry) as ((Hn & Hrt & _) & _ & _ & Hcf & Hts & Htf).
  unfold execute. rewrite Hentry. unfold settle, _withTimeout. rewrite Hfn, Hrt.
  fold delay. split; intros Ht.
  - destruct (Z.ltb_spec (Date_now w1 - Date_now w) delay) as [_|Hge]; [|lia].
    destruct r; split; reflexivity.
  - destruct (Z.ltb_spec (Date_now w1 - Date_now w) delay) as [Hlt|_]; [lia|].
    destruct (onFailure_counters b1
                (TimeoutError (timeout_message b1 (requestTimeout b)))
                {| clock := Date_now w + delay; requests := requests w1 |})
      as (H1 & H2 & H3).
    eexists _, _. split; [reflexivity|].
    split; [intros _; unfold timeout_message; rewrite Hn; reflexivity|].
    rewrite H1, H2, H3, Hcf, Hts, Htf. repeat split.
Qed.

(** An answer that arrives after 2500 ms is beaten by the timer of 2000 ms. *)
Lemma late_answer_is_a_timeout_witness :
  admission app_breaker (at_time 0) = Allowed app_breaker /\
  taking 2500 (Fulfilled tt) (at_time 0) = (Fulfilled tt, at_time 2500) /\
  exists b',
    execute app_breaker (taking 2500 (Fulfilled tt)) (at_time 0) =
    (Rejected (TimeoutError "CircuitBreaker[svc]: request timed out after 2000ms"), b',
     at_time 2000) /\
    _totalFailure b' = 1.
Proof.
  assert (H1 : admission app_breaker (at_time 0) = Allowed app_breaker) by by_evaluation.
  assert (H2 : taking 2500 (Fulfilled tt) (at_time 0) = (Fulfilled tt, at_time 2500))
    by by_evaluation.
  split; [exact H1|]. split; [exact H2|].
  destruct (late_answer_is_a_timeout unit app_breaker app_breaker
              (taking 2500 (Fulfilled tt)) (at_time 0) (at_time 2500) (Fulfilled tt)
              H1 H2) as [_ Hlate].
  assert (Ht : timer_delay (requestTimeout app_breaker)
               < Date_now (at_time 2500) - Date_now (at_time 0)) by by_evaluation.
  assert (Hsafe : Z.abs (requestTimeout app_breaker) <= 2 ^ 53) by by_evaluation.
  destruct (Hlate Ht) as (message & b' & He & Hm & Hf & _).
  rewrite (Hm Hsafe) in He.
  exists b'. split; [exact He | exact Hf].
Defined.

(** X3. A [requestTimeout] below 1 or above 2^31 - 1 is a timer of one
    millisecond: with such a breaker every call that is let in and takes
    longer than a millisecond ends in a timeout error, one millisecond after
    it started; the message of the error is as for any other timeout, for a
    [requestTimeout] of magnitude up to 2^53. *)
Theorem request_timeout_out_of_range :
  forall (A : Type) (b b1 : CircuitBreaker) (fn : Operation A) (w w1 : World)
         (r : Settled A),
    requestTimeout b < 1 \/ 2147483647 < requestTimeout b ->
    admission b w = Allowed b1 ->
    fn w = (r, w1) ->
    1 < Date_now w1 - Date_now w ->
    exists message,
      fst (fst (execute b fn w)) = Rejected (TimeoutError message) /\
      (Z.abs (requestTimeout b) <= 2 ^ 53 ->
       message = ("CircuitBreaker[" ++ name b ++ "]: request timed out after "
                    ++ string_of_Z (requestTimeout b) ++ "ms")%string) /\
      Date_now (snd (execute b fn w)) = Date_now w + 1.
Proof.
  intros A b b1 fn w w1 r Hrange Hentry Hfn Hslow.
  destruct (admission_frame b w b1 Hentry) as ((Hn & Hrt & _) & _).
  assert (Hdelay : timer_delay (requestTimeout b) = 1).
  { unfold timer_delay.
    destruct (Z.ltb_spec (requestTimeout b) 1); [reflexivity|].
    destruct (Z.gtb_spec (requestTimeout b) 2147483647); [reflexivity | lia]. }
  unfold execute. rewrite Hentry. unfold settle, _withTimeout.
  rewrite Hfn, Hrt, Hdelay.
  destruct (Z.ltb_spec (Date_now w1 - Date_now w) 1) as [Hlt|_]; [lia|].
  eexists. split; [reflexivity|].
  split; [intros _; unfold timeout_message; rewrite Hn; reflexivity | reflexivity].
Qed.

(** A timeout of 3000000000 ms cuts a call of 5 ms short after 1 ms. *)
Lemma request_timeout_out_of_range_witness :
  (requestTimeout overlong_timeout < 1 \/ 2147483647 < requestTimeout overlong_timeout) /\
  admission overlong_timeout (at_time 0) = Allowed overlong_timeout /\
  taking 5 (Fulfilled tt) (at_time 0) = (Fulfilled tt, at_time 5) /\
  1 < Date_now (at_time 5) - Date_now (at_time 0) /\
  fst (fst (execute overlong_timeout (taking 5 (Fulfilled tt)) (at_time 0))) =
  Rejected (TimeoutError "CircuitBreaker[svc]: request timed out after 3000000000ms") /\
  Date_now (snd (execute overlong_timeout (taking 5 (Fulfilled tt)) (at_time 0))) = 1.
Proof.
  assert (H0 : requestTimeout overlong_timeout < 1 \/
               2147483647 < requestTimeout overlong_timeout) by (right; by_evaluation).
  assert (H1 : admission overlong_timeout (at_time 0) = Allowed overlong_timeout)
    by by_evaluation.
  assert (H2 : taking 5 (Fulfilled tt) (at_time 0) = (Fulfilled tt, at_time 5))
    by by_evaluation.
  assert (H3 : 1 < Date_now (at_time 5) - Date_now (at_time 0)) by by_evaluation.
  assert (Hsafe : Z.abs (requestTimeout overlong_timeout) <= 2 ^ 53) by by_evaluation.
  split; [exact H0|]. split; [exact H1|]. split; [exact H2|]. split; [exact H3|].
  destruct (request_timeout_out_of_range unit overlong_timeout overlong_timeout
              (taking 5 (Fulfilled tt)) (at_time 0) (at_time 5) (Fulfilled tt) H0 H1 H2 H3)
    as (message & He & Hm & Ht).
  rewrite (Hm Hsafe) in He. split; [exact He | exact Ht].
Defined.

(** ** Outcomes and states *)

(** What [_onSuccess] always does. *)
Lemma onSuccess_counters : forall b w,
    _totalSuccess (_onSuccess b w) = _totalSuccess b + 1 /\
    _totalFailure (_onSuccess b w) = _totalFailure b /\
    _consecutiveFailures (_onSuccess b w) = 0 /\
    (_state (_onSuccess b w) = _state b \/
     (_state b = HALF_OPEN /\ _state (_onSuccess b w) = CLOSED)).
Proof.
  intros b w. open_breaker b.
  unfold _onSuccess, _recordResult, window_length.
  cbn -[size Z.geb Z.gtb].
  destruct (size (win ++ [true]) >? wsz); cbn -[size Z.geb Z.gtb];
    destruct st; cbn -[size Z.geb Z.gtb];
    repeat match goal with
           | |- context [if ?c then _ else _] => destruct c
           end; cbn; repeat split; try reflexivity; auto.
Qed.

(** The state a recorded failure leaves. *)
Lemma onFailure_state : forall b err w,
    match _state b with
    | CLOSED => _state (_onFailure b err w) = CLOSED \/ _state (_onFailure b err w) = OPEN
    | _ => _state (_onFailure b err w) = OPEN
    end.
Proof.
  intros b err w. open_breaker b.
  unfold _onFailure, _recordResult, _getFailureRate, window_length.
  cbn -[num_ge failure_rate size Z.geb Z.gtb].
  destruct (size (win ++ [false]) >? wsz); cbn -[num_ge failure_rate size Z.geb Z.gtb];
    destruct st; cbn -[num_ge failure_rate size Z.geb Z.gtb];
    repeat match goal with
           | |- context [if ?c then _ else _] => destruct c
           end; cbn; auto.
Qed.

(** A call of [execute], in its two courses. *)
Lemma execute_courses :
  forall (A : Type) (b : CircuitBreaker) (fn : Operation A) (w : World),
    (exists b1 e, admission b w = Refused b1 e /\ execute b fn w = (Rejected e, b1, w)) \/
    (exists b1 r w',
        admission b w = Allowed b1 /\
        _withTimeout b1 fn (requestTimeout b1) w = (r, w') /\
        execute b fn w =
        (r, match r with
            | Fulfilled _ => _onSuccess b1 w'
            | Rejected err => _onFailure b1 err w'
            end, w')).
Proof.
  intros A b fn w. unfold execute.
  destruct (admission b w) as [b1 | b1 e].
  - right. unfold settle.
    destruct (_withTimeout b1 fn (requestTimeout b1) w) as [r w'] eqn:Hrace.
    exists b1, r, w'. split; [reflexivity|]. split; [exact Hrace|].
    destruct r; reflexivity.
  - left. exists b1, e. split; reflexivity.
Qed.

(** When the outcome of a call is recorded, whatever happened since the
    call was let in. *)
Lemma recording_and_state : forall b err w,
    _consecutiveFailures (_onSuccess b w) = 0 /\
    (_state (_onSuccess b w) = OPEN -> _state b = OPEN) /\
    (_state (_onFailure b err w) = CLOSED -> _state b = CLOSED).
Proof.
  intros b err w.
  destruct (onSuccess_counters b w) as (_ & _ & H0 & Hs).
  assert (Hf := onFailure_state b err w).
  split; [exact H0|]. split.
  - intros Ho. destruct Hs as [Hs | [_ Hs]]; congruence.
  - intros Hc. destruct (_state b); [reflexivity | congruence | congruence].
Qed.

(** X4. What the outcome of a call says about the state it leaves, for a
    call that has the breaker to itself: no other call is let in or
    recorded between its entry and the recording of its outcome, as when the
    calls are made one after the other. After a call that returned a result
    the breaker is not OPEN, its count of consecutive failures is zero, and
    a breaker that was CLOSED is still CLOSED; after a call that threw, for
    whatever reason, the breaker is CLOSED only if it was CLOSED before, and
    no success has been counted. When calls overlap, the same holds of the
    recording alone: a success recorded leaves no consecutive failure and
    leaves the breaker OPEN only if it was OPEN when the success arrived; a
    failure recorded leaves it CLOSED only if it was CLOSED when the failure
    arrived. *)
Theorem outcome_and_state :
  forall (A : Type) (b : CircuitBreaker) (fn : Operation A) (w : World),
    (forall (b' : CircuitBreaker) (w' : World) (r : Settled A),
        execute b fn w = (r, b', w') ->
        match r with
        | Fulfilled _ =>
            _state b' <> OPEN /\
            _consecutiveFailures b' = 0 /\
            (_state b = CLOSED -> _state b' = CLOSED) /\
            _totalSuccess b' = _totalSuccess b + 1 /\
            _totalFailure b' = _totalFailure b
        | Rejected _ =>
            (_state b' = CLOSED -> _state b = CLOSED) /\
            _totalSuccess b' = _totalSuccess b
        end) /\
    (forall (err : Error) (w1 : World),
        _consecutiveFailures (_onSuccess b w1) = 0 /\
        (_state (_onSuccess b w1) = OPEN -> _state b = OPEN) /\
        (_state (_onFailure b err w1) = CLOSED -> _state b = CLOSED)).
Proof.
  intros A b fn w. split; [|intros err w1; apply recording_and_state].
  intros b' w' r Hex.
  assert (Hshape := admission_shape b w). cbv zeta in Hshape.
  assert (Hopen : _state (_maybeTransitionFromOpen b w) = CLOSED -> _state b = CLOSED).
  { destruct (maybeTransitionFromOpen_cases b w) as [(_ & _ & Hb) | (_ & Hb)];
      rewrite Hb; [rewrite transition_state; discriminate | auto]. }
  assert (Hclosed : _state b = CLOSED -> _maybeTransitionFromOpen b w = b)
    by (intros H; apply maybeTransitionFromOpen_not_open; congruence).
  destruct (maybeTransitionFromOpen_frame b w) as (_ & _ & Hts & _).
  destruct (execute_courses A b fn w) as [(b1 & e & Hentry & He) | (b1 & r1 & w1 & Hentry & _ & He)];
    rewrite He in Hex; injection Hex as <- <- <-; rewrite Hentry in Hshape.
  - destruct Hshape as (-> & _ & Hst). split; [|exact Hts].
    intros Hc. destruct Hst as [Hst | [Hst _]]; congruence.
  - destruct (admission_frame b w b1 Hentry) as (_ & Hno & _ & _ & Hs & Hf).
    assert (Hb1 : _state b = CLOSED -> _state b1 = CLOSED).
    { intros Hc. rewrite (Hclosed Hc) in Hshape.
      destruct Hshape as [[_ ->] | (Hst & _)]; congruence. }
    assert (Hb1' : _state b1 = CLOSED -> _state b = CLOSED).
    { intros Hc. apply Hopen.
      destruct Hshape as [[Hst <-] | (Hst & _ & ->)]; [exact Hc|].
      cbn in Hc. congruence. }
    destruct r1 as [v | err].
    + destruct (onSuccess_counters b1 w1) as (H1 & H2 & H3 & H4).
      rewrite H1, H2, H3, Hs, Hf. repeat split.
      * destruct H4 as [H4 | [_ H4]]; congruence.
      * intros Hc. destruct H4 as [H4 | [H4 _]]; [rewrite H4; auto|].
        rewrite (Hb1 Hc) in H4. discriminate.
    + destruct (onFailure_counters b1 err w1) as (_ & H2 & _).
      rewrite H2, Hs. split; [|reflexivity].
      intros Hc. assert (Hst := onFailure_state b1 err w1).
      destruct (_state b1); [auto | congruence | congruence].
Qed.

(** A breaker that opened 30 s ago lets a probe in; the probe's answer leaves
    it HALF_OPEN, not OPEN. *)
Lemma outcome_and_state_witness :
  exists b',
    execute (opened_at 0) (answering tt) (at_time 30000) = (Fulfilled tt, b', at_time 30000) /\
    _state b' <> OPEN /\ _consecutiveFailures b' = 0.
Proof.
  eexists.
  assert (H : execute (opened_at 0) (answering tt) (at_time 30000)
              = (Fulfilled tt, snd (fst (execute (opened_at 0) (answering tt) (at_time 30000))),
                 at_time 30000)) by by_evaluation.
  split; [exact H|].
  destruct (outcome_and_state unit (opened_at 0) (answering tt) (at_time 30000)) as [Hcall _].
  destruct (Hcall _ _ _ H) as (H1 & H2 & _).
  split; [exact H1 | exact H2].
Defined.

(** ** Runs of calls *)

Lemma in_time_fulfils : forall (A : Type) (b : CircuitBreaker) (fn : Operation A) (w : World),
    in_time (requestTimeout b) (fn, w) = true ->
    exists v w', _withTimeout b fn (requestTimeout b) w = (Fulfilled v, w').
Proof.
  intros A b fn w H. unfold in_time in H. unfold _withTimeout.
  destruct (fn w) as [[v | err] w']; [|discriminate].
  rewrite H. exists v, w'. reflexivity.
Qed.

Lemma fails_rejects : forall (A : Type) (b : CircuitBreaker) (fn : Operation A) (w : World),
    fails (requestTimeout b) (fn, w) = true ->
    exists err w', _withTimeout b fn (requestTimeout b) w = (Rejected err, w').
Proof.
  intros A b fn w H. unfold fails in H. unfold _withTimeout.
  destruct (fn w) as [[v | err] w'].
  - destruct (Z.ltb_spec (timer_delay (requestTimeout b)) (Date_now w' - Date_now w));
      [|discriminate].
    destruct (Z.ltb_spec (Date_now w' - Date_now w) (timer_delay (requestTimeout b)));
      [lia|]. eexists _, _. reflexivity.
  - destruct (Date_now w' - Date_now w <? timer_delay (requestTimeout b));
      eexists _, _; reflexivity.
Qed.

(** A probe that answers in time: counted, and the breaker closed when the
    count of successes reaches [halfOpenMaxTrials]. *)
Lemma probe_success_step :
  forall (A : Type) (b : CircuitBreaker) (fn : Operation A) (w : World),
    _state b = HALF_OPEN ->
    _halfOpenTrials b < halfOpenMaxTrials b ->
    in_time (requestTimeout b) (fn, w) = true ->
    exists counted w',
      _state counted = HALF_OPEN /\
      _halfOpenTrials counted = _halfOpenTrials b + 1 /\
      _halfOpenSuccesses counted = _halfOpenSuccesses b + 1 /\
      snd (fst (execute b fn w)) =
      if _halfOpenSuccesses b + 1 >=? halfOpenMaxTrials b
      then _transition counted CLOSED w' else counted.
Proof.
  intros A b fn w Hst Htr Hin.
  assert (Hentry : admission b w = Allowed (set_halfOpenTrials b (_halfOpenTrials b + 1))).
  { unfold admission. rewrite maybeTransitionFromOpen_not_open by congruence.
    rewrite Hst. destruct (Z.geb_spec (_halfOpenTrials b) (halfOpenMaxTrials b)); [lia|].
    reflexivity. }
  set (b1 := set_halfOpenTrials b (_halfOpenTrials b + 1)) in *.
  destruct (in_time_fulfils A b1 fn w Hin) as (v & w' & Hrace).
  assert (Hb1 : _state b1 = HALF_OPEN) by exact Hst.
  destruct (onSuccess_half_open b1 w' Hb1) as (counted & Hc1 & Hc2 & Hc3 & Hc4).
  exists counted, w'. split; [exact Hc1|]. split; [exact Hc2|]. split; [exact Hc3|].
  unfold execute. rewrite Hentry. unfold settle. rewrite Hrace. cbn [fst snd].
  rewrite Hc4, Hc3. reflexivity.
Qed.

Lemma execute_all_same_config :
  forall (A : Type) (calls : list (Operation A * World)) (b : CircuitBreaker),
    same_config b (execute_all calls b).
Proof.
  intros A calls. induction calls as [|[fn w] rest IH]; intros b.
  - repeat split.
  - cbn [execute_all]. eapply same_config_trans; [apply execute_same_config | apply IH].
Qed.

Lemma probes_from : forall (A : Type) (calls : list (Operation A * World)) b k,
    _state b = HALF_OPEN ->
    _halfOpenTrials b = k -> _halfOpenSuccesses b = k ->
    forallb (in_time (requestTimeout b)) calls = true ->
    let n := Z.of_nat (List.length calls) in
    let b' := execute_all calls b in
    (k + n < halfOpenMaxTrials b ->
     _state b' = HALF_OPEN /\ _halfOpenSuccesses b' = k + n /\ _halfOpenTrials b' = k + n) /\
    (0 < n -> k + n = halfOpenMaxTrials b ->
     _state b' = CLOSED /\ _window b' = [] /\ _consecutiveFailures b' = 0 /\
     _openedAt b' = None).
Proof.
  intros A calls. induction calls as [|[fn w] rest IH]; intros b k Hst Htr Hsu Hall n b'.
  - subst n b'. cbn [List.length execute_all]. split.
    + intros _. rewrite Hsu, Htr. repeat split; [exact Hst | lia | lia].
    + intros H. cbn in H. lia.
  - cbn [forallb] in Hall. apply andb_true_iff in Hall. destruct Hall as [Hin Hall].
    assert (Hn : n = 1 + Z.of_nat (List.length rest)) by (subst n; cbn [List.length]; lia).
    assert (Hcases : k < halfOpenMaxTrials b -> 
              exists counted w',
                _state counted = HALF_OPEN /\
                _halfOpenTrials counted = k + 1 /\
                _halfOpenSuccesses counted = k + 1 /\
                snd (fst (execute b fn w)) =
                if k + 1 >=? halfOpenMaxTrials b
                then _transition counted CLOSED w' else counted).
    { intros Hk. rewrite <- Htr in Hk.
      destruct (probe_success_step A b fn w Hst Hk Hin) as (c & w' & H1 & H2 & H3 & H4).
      exists c, w'. rewrite <- Htr at 1. rewrite <- Hsu at 1. rewrite <- Hsu at 1.
      repeat split; assumption. }
    destruct (execute_same_config A fn b w) as (_ & Hrt & _ & _ & _ & _ & Hmax).
    subst b'. cbn [execute_all]. split.
    + intros Hlt.
      destruct Hcases as (c & w' & H1 & H2 & H3 & H4); [lia|].
      destruct (Z.geb_spec (k + 1) (halfOpenMaxTrials b)); [lia|].
      rewrite H4 in *.
      destruct (IH c (k + 1) H1 H2 H3) as [IH1 _]; [rewrite Hrt; exact Hall|].
      cbv zeta in IH1. rewrite Hmax in IH1.
      destruct IH1 as (I1 & I2 & I3); [lia|].
      rewrite I1, I2, I3. repeat split; lia.
    + intros _ Heq.
      destruct Hcases as (c & w' & H1 & H2 & H3 & H4); [lia|].
      destruct (Z.geb_spec (k + 1) (halfOpenMaxTrials b)) as [Hge|Hlt].
      * assert (Hrest : rest = [])
          by (destruct rest; [reflexivity | cbn [List.length] in Hn; lia]).
        subst rest. cbn [execute_all]. rewrite H4. repeat split.
      * rewrite H4 in *.
        destruct (IH c (k + 1) H1 H2 H3) as [_ IH2]; [rewrite Hrt; exact Hall|].
        cbv zeta in IH2. rewrite Hmax in IH2. apply IH2; lia.
Qed.

(** X5. Recovery: the calls made to a breaker that has just gone HALF_OPEN,
    one after the other and each answering before the timer, leave it
    HALF_OPEN with one success counted per call while they are fewer than
    [halfOpenMaxTrials]; the call that makes them [halfOpenMaxTrials] closes
    the breaker, with an empty window and no consecutive failure. *)
Theorem probes_close_the_breaker :
  forall (A : Type) (calls : list (Operation A * World)) (b : CircuitBreaker),
    _state b = HALF_OPEN ->
    _halfOpenTrials b = 0 ->
    _halfOpenSuccesses b = 0 ->
    forallb (in_time (requestTimeout b)) calls = true ->
    let n := Z.of_nat (List.length calls) in
    let b' := execute_all calls b in
    (n < halfOpenMaxTrials b ->
     _state b' = HALF_OPEN /\ _halfOpenSuccesses b' = n /\ _halfOpenTrials b' = n) /\
    (0 < n -> n = halfOpenMaxTrials b ->
     _state b' = CLOSED /\ _window b' = [] /\ _consecutiveFailures b' = 0 /\
     _openedAt b' = None).
Proof.
  intros A calls b Hst Htr Hsu Hall.
  exact (probes_from A calls b 0 Hst Htr Hsu Hall).
Qed.

(** Three answers in a row close a default breaker that went half-open. *)
Lemma probes_close_the_breaker_witness :
  _state (half_opened_at 30000) = HALF_OPEN /\
  _halfOpenTrials (half_opened_at 30000) = 0 /\
  _halfOpenSuccesses (half_opened_at 30000) = 0 /\
  forallb (in_time (requestTimeout (half_opened_at 30000)))
    (repeat (answering tt, at_time 30000) 3) = true /\
  _state (execute_all (repeat (answering tt, at_time 30000) 3) (half_opened_at 30000))
  = CLOSED.
Proof.
  assert (H1 : _state (half_opened_at 30000) = HALF_OPEN) by by_evaluation.
  assert (H2 : _halfOpenTrials (half_opened_at 30000) = 0) by by_evaluation.
  assert (H3 : _halfOpenSuccesses (half_opened_at 30000) = 0) by by_evaluation.
  assert (H4 : forallb (in_time (requestTimeout (half_opened_at 30000)))
                 (repeat (answering tt, at_time 30000) 3) = true) by by_evaluation.
  split; [exact H1|]. split; [exact H2|]. split; [exact H3|]. split; [exact H4|].
  destruct (probes_close_the_breaker unit (repeat (answering tt, at_time 30000) 3)
              (half_opened_at 30000) H1 H2 H3 H4) as [_ Hclose].
  assert (Hn : 0 < Z.of_nat (List.length (repeat (answering tt, at_time 30000) 3)))
    by by_evaluation.
  assert (Hm : Z.of_nat (List.length (repeat (answering tt, at_time 30000) 3))
               = halfOpenMaxTrials (half_opened_at 30000)) by by_evaluation.
  destruct (Hclose Hn Hm) as [Hs _]. exact Hs.
Defined.

(** A failing call made to a CLOSED breaker. *)
Lemma closed_failure_step :
  forall (A : Type) (b : CircuitBreaker) (fn : Operation A) (w : World),
    _state b = CLOSED ->
    fails (requestTimeout b) (fn, w) = true ->
    let b' := snd (fst (execute b fn w)) in
    _consecutiveFailures b' = _consecutiveFailures b + 1 /\
    (_state b' = CLOSED \/ _state b' = OPEN) /\
    (_consecutiveFailures b + 1 >= consecutiveFailureThreshold b -> _state b' = OPEN).
Proof.
  intros A b fn w Hst Hf b'. subst b'.
  destruct (fails_rejects A b fn w Hf) as (err & w' & Hrace).
  unfold execute. rewrite (admission_closed b w Hst). unfold settle. rewrite Hrace.
  cbn [fst snd].
  destruct (onFailure_counters b err w') as (_ & _ & Hcf).
  assert (Hs := onFailure_state b err w'). rewrite Hst in Hs.
  split; [exact Hcf|]. split; [exact Hs|].
  intros Hge. rewrite (onFailure_closed b err w' Hst).
  destruct (Z.geb_spec (_consecutiveFailures b + 1) (consecutiveFailureThreshold b));
    [apply transition_state | lia].
Qed.

(** A failing call made to an OPEN breaker: rejected, or a failed probe. *)
Lemma open_failure_step :
  forall (A : Type) (b : CircuitBreaker) (fn : Operation A) (w : World),
    _state b = OPEN ->
    0 < halfOpenMaxTrials b ->
    fails (requestTimeout b) (fn, w) = true ->
    _state (snd (fst (execute b fn w))) = OPEN.
Proof.
  intros A b fn w Hst Hmax Hf.
  assert (Hshape := admission_shape b w). cbv zeta in Hshape.
  destruct (maybeTransitionFromOpen_frame b w) as (_ & _ & _ & _ & (_ & Hrt & _ & _ & _ & _ & Hm)).
  destruct (execute_courses A b fn w)
    as [(b1 & e & Hentry & He) | (b1 & r & w' & Hentry & Hrace & He)];
    rewrite He; cbn [fst snd]; rewrite Hentry in Hshape.
  - destruct Hshape as (-> & _ & [Ho | [Hh Hfull]]); [exact Ho|].
    destruct (maybeTransitionFromOpen_cases b w) as [(_ & _ & Hb) | (_ & Hb)];
      rewrite Hb in *.
    + cbn in Hfull. lia.
    + congruence.
  - destruct (admission_frame b w b1 Hentry) as ((_ & Hrt1 & _) & Hno & _).
    rewrite Hrt1 in Hrace.
    destruct (fails_rejects A b1 fn w) as (err & w2 & Hrace2); [rewrite Hrt1; exact Hf|].
    rewrite Hrt1 in Hrace2. rewrite Hrace in Hrace2. injection Hrace2 as -> ->.
    assert (Hs := onFailure_state b1 err w2).
    destruct Hshape as [[Hc ->] | (Hh & _ & ->)].
    + destruct (maybeTransitionFromOpen_cases b w) as [(_ & _ & Hb) | (_ & Hb)];
        rewrite Hb in *; [rewrite transition_state in Hc; discriminate | congruence].
    + cbn [_state set_halfOpenTrials assign] in Hs. 
      change (_state (set_halfOpenTrials (_maybeTransitionFromOpen b w)
                        (_halfOpenTrials (_maybeTransitionFromOpen b w) + 1)))
        with (_state (_maybeTransitionFromOpen b w)) in Hs.
      rewrite Hh in Hs. exact Hs.
Qed.

Lemma failures_keep_open :
  forall (A : Type) (calls : list (Operation A * World)) (b : CircuitBreaker),
    _state b = OPEN ->
    0 < halfOpenMaxTrials b ->
    forallb (fails (requestTimeout b)) calls = true ->
    _state (execute_all calls b) = OPEN.
Proof.
  intros A calls. induction calls as [|[fn w] rest IH]; intros b Hst Hmax Hall.
  - exact Hst.
  - cbn [forallb] in Hall. apply andb_true_iff in Hall. destruct Hall as [Hf Hall].
    destruct (execute_same_config A fn b w) as (_ & Hrt & _ & _ & _ & _ & Hm).
    cbn [execute_all]. apply IH.
    + apply open_failure_step; assumption.
    + rewrite Hm. exact Hmax.
    + rewrite Hrt. exact Hall.
Qed.

(** X6. Tripping: a run of calls made to a CLOSED breaker one after the
    other, each of them throwing or overrunning the timer, leaves the
    breaker OPEN as soon as the run is long enough to bring the consecutive
    failures to [consecutiveFailureThreshold], whatever the window holds and
    however many further failing calls follow (probes included). *)
Theorem failures_open_the_breaker :
  forall (A : Type) (calls : list (Operation A * World)) (b : CircuitBreaker),
    _state b = CLOSED ->
    0 < halfOpenMaxTrials b ->
    forallb (fails (requestTimeout b)) calls = true ->
    0 < Z.of_nat (List.length calls) ->
    consecutiveFailureThreshold b - _consecutiveFailures b <= Z.of_nat (List.length calls) ->
    _state (execute_all calls b) = OPEN.
Proof.
  intros A calls. induction calls as [|[fn w] rest IH]; intros b Hst Hmax Hall Hpos Hlen.
  - cbn in Hpos. lia.
  - cbn [forallb] in Hall. apply andb_true_iff in Hall. destruct Hall as [Hf Hall].
    destruct (execute_same_config A fn b w) as (_ & Hrt & _ & _ & Hcft & _ & Hm).
    destruct (closed_failure_step A b fn w Hst Hf) as (Hcf & Hs & Htrip).
    cbn [execute_all].
    destruct (Z_lt_ge_dec (_consecutiveFailures b + 1) (consecutiveFailureThreshold b))
      as [Hlt | Hge].
    + destruct Hs as [Hc | Ho].
      * apply IH; try assumption.
        -- rewrite Hm. exact Hmax.
        -- rewrite Hrt. exact Hall.
        -- cbn [List.length] in Hlen. lia.
        -- rewrite Hcft, Hcf. cbn [List.length] in Hlen. lia.
      * apply failures_keep_open; [exact Ho | rewrite Hm; exact Hmax | rewrite Hrt; exact Hall].
    + apply failures_keep_open; [auto | rewrite Hm; exact Hmax | rewrite Hrt; exact Hall].
Qed.

(** Seven failing calls, the last two after the breaker has opened. *)
Lemma failures_open_the_breaker_witness :
  _state app_breaker = CLOSED /\
  0 < halfOpenMaxTrials app_breaker /\
  forallb (fails (requestTimeout app_breaker))
    (repeat (@failing unit, at_time 0) 5 ++ [(taking 2500 (Fulfilled tt), at_time 40000);
                                           (failing, at_time 40001)]) = true /\
  _state (execute_all
            (repeat (@failing unit, at_time 0) 5 ++ [(taking 2500 (Fulfilled tt), at_time 40000);
                                                   (failing, at_time 40001)])
            app_breaker) = OPEN.
Proof.
  assert (H1 : _state app_breaker = CLOSED) by by_evaluation.
  assert (H2 : 0 < halfOpenMaxTrials app_breaker) by by_evaluation.
  assert (H3 : forallb (fails (requestTimeout app_breaker))
                 (repeat (@failing unit, at_time 0) 5
                    ++ [(taking 2500 (Fulfilled tt), at_time 40000);
                        (failing, at_time 40001)]) = true) by by_evaluation.
  split; [exact H1|]. split; [exact H2|]. split; [exact H3|].
  apply (failures_open_the_breaker unit _ app_breaker H1 H2 H3); by_evaluation.
Defined.

(** ** Counters that agree with each other *)

Lemma failures_push : forall win (r : bool),
    failures (win ++ [r]) = failures win + (if r then 0 else 1).
Proof.
  intros win r. unfold failures, size. rewrite filter_app, length_app.
  destruct r; cbn [filter negb List.length]; lia.
Qed.

Lemma counts_shift : forall win : list bool,
    failures (tl win) <= failures win /\
    size (tl win) - failures (tl win) <= size win - failures win.
Proof.
  intros [|[] win]; unfold failures, size; cbn [tl filter negb List.length]; lia.
Qed.

(** The window after one more outcome, by what it counts. *)
Lemma recorded_counts : forall win (r : bool) wsz,
    let win' := if size (win ++ [r]) >? wsz then tl (win ++ [r]) else (win ++ [r])%list in
    failures win' <= failures win + (if r then 0 else 1) /\
    size win' - failures win' <= size win - failures win + (if r then 1 else 0).
Proof.
  intros win r wsz win'. subst win'.
  assert (Hp := failures_push win r). assert (Hs := size_push win r).
  destruct (counts_shift (win ++ [r])) as [H1 H2].
  destruct (size (win ++ [r]) >? wsz); destruct r; lia.
Qed.

Lemma consistent_transition : forall b s w,
    0 < consecutiveFailureThreshold b -> 0 < halfOpenMaxTrials b ->
    consistent b -> consistent (_transition b s w).
Proof.
  intros b s w Hc Hm [H1 H2 H3 H4 H5 H6 H7]. open_breaker b.
  assert (Hf := failures_le_size win).
  destruct s; constructor; cbn; intros; try congruence; try lia; auto.
  all: unfold failures, size; cbn; lia.
Qed.

Lemma consistent_check : forall b w,
    0 < consecutiveFailureThreshold b -> 0 < halfOpenMaxTrials b ->
    consistent b -> consistent (_maybeTransitionFromOpen b w).
Proof.
  intros b w Hc Hm H.
  destruct (maybeTransitionFromOpen_cases b w) as [(_ & _ & ->) | (_ & ->)];
    [apply consistent_transition; assumption | exact H].
Qed.

Lemma consistent_entry : forall b w,
    0 < consecutiveFailureThreshold b -> 0 < halfOpenMaxTrials b ->
    consistent b ->
    consistent (match admission b w with Allowed b' => b' | Refused b' _ => b' end).
Proof.
  intros b w Hc Hm H.
  assert (Hshape := admission_shape b w). cbv zeta in Hshape.
  assert (Hchk := consistent_check b w Hc Hm H).
  destruct (admission b w) as [b1 | b1 e].
  - destruct Hshape as [[_ ->] | (Hst & _ & ->)]; [exact Hchk|].
    destruct Hchk as [H1 H2 H3 H4 H5 H6 H7].
    destruct (H6 Hst) as (Hs & Ht).
    constructor; cbn; try assumption.
    + intros Hn. contradiction.
    + intros _. split; [exact Hs | lia].
  - destruct Hshape as (-> & _). exact Hchk.
Qed.

Lemma consistent_onSuccess : forall b w,
    0 < consecutiveFailureThreshold b -> 0 < halfOpenMaxTrials b ->
    consistent b -> consistent (_onSuccess b w).
Proof.
  intros b w Hc Hm [H1 H2 H3 H4 H5 H6 H7]. open_breaker b.
  destruct (recorded_counts win true wsz) as [Hf Hs]. cbv zeta in Hf, Hs.
  unfold _onSuccess, _recordResult, window_length.
  cbn -[size failures Z.geb Z.gtb].
  destruct (size (win ++ [true]) >? wsz); cbn -[size failures Z.geb Z.gtb];
    destruct st; cbn -[size failures Z.geb Z.gtb];
    try destruct (Z.geb_spec (hs + 1) hmt);
    constructor; cbn -[size failures]; intros; try congruence; try lia;
    try (apply H5; congruence);
    try (specialize (H6 eq_refl); lia);
    try (unfold failures, size; cbn; lia).
Qed.

Lemma consistent_onFailure : forall b err w,
    0 < consecutiveFailureThreshold b -> 0 < halfOpenMaxTrials b ->
    consistent b -> consistent (_onFailure b err w).
Proof.
  intros b err w Hc Hm [H1 H2 H3 H4 H5 H6 H7]. open_breaker b.
  destruct (recorded_counts win false wsz) as [Hf Hs]. cbv zeta in Hf, Hs.
  unfold _onFailure, _recordResult, _getFailureRate, window_length.
  cbn -[size failures failure_rate num_ge Z.geb Z.gtb].
  destruct (size (win ++ [false]) >? wsz);
    cbn -[size failures failure_rate num_ge Z.geb Z.gtb];
    destruct st; cbn -[size failures failure_rate num_ge Z.geb Z.gtb];
    try destruct (Z.geb_spec (cf + 1) cft);
    try match goal with |- context [if ?c then _ else _] => destruct c end;
    constructor; cbn -[size failures]; intros; try congruence; try lia;
    try (apply H5; congruence);
    try (specialize (H6 eq_refl); lia).
Qed.

Lemma consistent_reset : forall b w,
    0 < consecutiveFailureThreshold b -> 0 < halfOpenMaxTrials b ->
    consistent (reset b w).
Proof.
  intros b w Hc Hm. open_breaker b.
  constructor; cbn; intros; try congruence; try lia; auto.
  all: unfold failures, size; cbn; lia.
Qed.

(** The invariant holds however the calls overlap. *)
Lemma interleaved_consistent : forall nm options b,
    0 < nullish (opt_consecutiveFailureThreshold options) 5 ->
    0 < nullish (opt_halfOpenMaxTrials options) 3 ->
    interleaved nm options b -> consistent b.
Proof.
  intros nm options b Hc Hm Hturns. induction Hturns;
    try (destruct (interleaved_same_config _ _ _ Hturns) as (_ & _ & _ & _ & Hc' & _ & Hm');
         cbn in Hc', Hm').
  - constructor; cbn; intros; try congruence; try lia; auto.
    all: unfold failures, size; cbn; lia.
  - apply consistent_entry; rewrite ?Hc', ?Hm'; assumption.
  - apply consistent_onSuccess; rewrite ?Hc', ?Hm'; assumption.
  - apply consistent_onFailure; rewrite ?Hc', ?Hm'; assumption.
  - destruct (getMetrics_breaker nts b w) as [-> _].
    apply consistent_check; rewrite ?Hc', ?Hm'; assumption.
  - cbn [state snd]. apply consistent_check; rewrite ?Hc', ?Hm'; assumption.
  - apply consistent_reset; rewrite ?Hc', ?Hm'; assumption.
Qed.

(** Calls made one after the other are a special case of turns. *)
Lemma reachable_interleaved : forall nm options b,
    reachable nm options b -> interleaved nm options b.
Proof.
  intros nm options b H. induction H.
  - apply turn_new.
  - assert (Hentry := turn_entry nm options w b IHreachable).
    destruct (execute_courses A b fn w)
      as [(b1 & e & Ha & He) | (b1 & r & w' & Ha & _ & He)];
      rewrite He; cbn [fst snd]; rewrite Ha in Hentry.
    + exact Hentry.
    + destruct r; [apply turn_success | apply turn_failure]; exact Hentry.
  - apply turn_getMetrics. exact IHreachable.
  - apply turn_state. exact IHreachable.
  - apply turn_reset. exact IHreachable.
Qed.

(** X7. With positive thresholds [consecutiveFailureThreshold] and
    [halfOpenMaxTrials], the counters of a breaker agree with each other
    after any sequence of calls of its public methods, one after the other
    or overlapping: no counter is negative; the consecutive failures, the
    failures in the window and the successes in the window are each covered
    by the totals; the probe counters are zero outside HALF_OPEN; a CLOSED
    breaker is below its threshold of consecutive failures and a HALF_OPEN
    one below its number of successes that closes it. *)
Theorem counters_stay_consistent :
  forall (nm : string) (options : Options) (b : CircuitBreaker),
    0 < nullish (opt_consecutiveFailureThreshold options) 5 ->
    0 < nullish (opt_halfOpenMaxTrials options) 3 ->
    reachable nm options b \/ interleaved nm options b ->
    (0 <= _totalSuccess b /\ 0 <= _totalFailure b) /\
    0 <= _consecutiveFailures b <= _totalFailure b /\
    failures (_window b) <= _totalFailure b /\
    size (_window b) - failures (_window b) <= _totalSuccess b /\
    (_state b <> HALF_OPEN -> _halfOpenTrials b = 0 /\ _halfOpenSuccesses b = 0) /\
    (_state b = HALF_OPEN ->
     0 <= _halfOpenSuccesses b < halfOpenMaxTrials b /\ 0 <= _halfOpenTrials b) /\
    (_state b = CLOSED -> _consecutiveFailures b < consecutiveFailureThreshold b).
Proof.
  intros nm options b Hc Hm Hb.
  assert (Hturns : interleaved nm options b)
    by (destruct Hb as [Hb | Hb]; [apply reachable_interleaved|]; exact Hb).
  destruct (interleaved_consistent nm options b Hc Hm Hturns) as [H1 H2 H3 H4 H5 H6 H7].
  repeat split; try apply H1; try apply H2; try assumption;
    try (apply H5; assumption); try (apply H6; assumption).
Qed.

(** A default breaker after five failures. *)
Lemma counters_stay_consistent_witness :
  0 < nullish (opt_consecutiveFailureThreshold no_options) 5 /\
  0 < nullish (opt_halfOpenMaxTrials no_options) 3 /\
  failures (_window (opened_at 0)) <= _totalFailure (opened_at 0).
Proof.
  assert (H1 : 0 < nullish (opt_consecutiveFailureThreshold no_options) 5) by by_evaluation.
  assert (H2 : 0 < nullish (opt_halfOpenMaxTrials no_options) 3) by by_evaluation.
  split; [exact H1|]. split; [exact H2|].
  destruct (counters_stay_consistent "svc" no_options (opened_at 0) H1 H2
              (or_introl (opened_at_reachable 0))) as (_ & _ & H & _).
  exact H.
Defined.

(** ** Reset and observation *)

(** X8. [reset] gives back the breaker as it was constructed: after any
    sequence of calls, one after the other or overlapping, the breaker that
    [reset] leaves is field by field the one [new CircuitBreaker(name,
    options)] made, at whatever time it is called. *)
Theorem reset_restores_the_new_breaker :
  forall (nm : string) (options : Options) (b : CircuitBreaker) (w : World),
    reachable nm options b \/ interleaved nm options b ->
    reset b w = new_CircuitBreaker nm options.
Proof.
  intros label options b w Hb.
  assert (Hturns : interleaved label options b)
    by (destruct Hb as [Hb | Hb]; [apply reachable_interleaved|]; exact Hb).
  destruct (interleaved_same_config label options b Hturns)
    as (H1 & H2 & H3 & H4 & H5 & H6 & H7).
  open_breaker b. cbn in H1, H2, H3, H4, H5, H6, H7. subst.
  reflexivity.
Qed.

Lemma reset_restores_the_new_breaker_witness :
  reset (opened_at 0) (at_time 7) = new_CircuitBreaker "svc" no_options.
Proof.
  exact (reset_restores_the_new_breaker "svc" no_options (opened_at 0) (at_time 7)
           (or_introl (opened_at_reachable 0))).
Defined.

(** The move to HALF_OPEN does not record the time. *)
Lemma half_open_any_time : forall b w w',
    _transition b HALF_OPEN w = _transition b HALF_OPEN w'.
Proof. reflexivity. Qed.

(** The time-driven check made at an earlier time is absorbed by a later one. *)
Lemma check_absorbed : forall b w0 w,
    Date_now w0 <= Date_now w ->
    _maybeTransitionFromOpen (_maybeTransitionFromOpen b w0) w =
    _maybeTransitionFromOpen b w.
Proof.
  intros b w0 w Hle.
  destruct (maybeTransitionFromOpen_cases b w0) as [(Hs & (t & Ht & Hdue) & Hb) | (_ & Hb)];
    rewrite Hb; [|reflexivity].
  rewrite maybeTransitionFromOpen_not_open by (rewrite transition_state; discriminate).
  unfold _maybeTransitionFromOpen. rewrite Hs, Ht. cbv zeta.
  destruct (Z.geb_spec (Date_now w - t) (openStateDuration b)); [reflexivity | lia].
Qed.

(** X9. Looking at a breaker does not change what it does next: a call of
    [execute], and a metrics snapshot, made after [getMetrics] or the
    [state] getter was called at the same or an earlier time, return what
    they would have returned without it and leave the same breaker. *)
Theorem observation_does_not_interfere :
  forall (A : Type) (nts nts' : number -> string) (b : CircuitBreaker)
         (fn : Operation A) (w0 w : World),
    Date_now w0 <= Date_now w ->
    execute (snd (getMetrics nts b w0)) fn w = execute b fn w /\
    execute (snd (state b w0)) fn w = execute b fn w /\
    getMetrics nts' (snd (getMetrics nts b w0)) w = getMetrics nts' b w /\
    getMetrics nts' (snd (state b w0)) w = getMetrics nts' b w /\
    state (snd (getMetrics nts b w0)) w = state b w.
Proof.
  intros A nts nts' b fn w0 w Hle.
  assert (Hchk := check_absorbed b w0 w Hle).
  assert (Hex : execute (_maybeTransitionFromOpen b w0) fn w = execute b fn w).
  { unfold execute, admission. rewrite Hchk. reflexivity. }
  assert (Hm : getMetrics nts' (_maybeTransitionFromOpen b w0) w = getMetrics nts' b w).
  { unfold getMetrics. rewrite Hchk. reflexivity. }
  destruct (getMetrics_breaker nts b w0) as [-> _]. cbn [state snd].
  repeat split; try assumption.
  unfold state. rewrite Hchk. reflexivity.
Qed.

(** A breaker that opened at 0 is looked at after 30 s and called a second
    later. *)
Lemma observation_does_not_interfere_witness :
  Date_now (at_time 30000) <= Date_now (at_time 31000) /\
  execute (snd (getMetrics sample_number_string (opened_at 0) (at_time 30000)))
    (answering tt) (at_time 31000)
  = execute (opened_at 0) (answering tt) (at_time 31000).
Proof.
  assert (H : Date_now (at_time 30000) <= Date_now (at_time 31000)) by by_evaluation.
  split; [exact H|].
  destruct (observation_does_not_interfere unit sample_number_string sample_number_string
              (opened_at 0) (answering tt) (at_time 30000) (at_time 31000) H)
    as [He _].
  exact He.
Defined.

(** ** The arithmetic of the rate and of the percentages *)





(** * Further properties of the recommendation service *)

(** ** The requests a recommendation costs *)

(** A GET through a breaker is sent exactly when the breaker lets the call
    in; a timeout does not unsend it. *)
Lemma execute_get_requests : forall b env url timeout w,
    match admission b w with
    | Allowed _ =>
        requests (snd (execute b (axios_get env url timeout) w)) = (requests w ++ [url])%list
    | Refused b1 e => execute b (axios_get env url timeout) w = (Rejected e, b1, w)
    end.
Proof.
  intros b env url timeout w. unfold execute.
  destruct (admission b w) as [b1 | b1 e]; [|reflexivity].
  unfold settle, _withTimeout, axios_get.
  destruct (network env url timeout w) as [r t]. cbn [Date_now clock requests].
  destruct (_ <? _); destruct r; reflexivity.
Qed.

Lemma timer_delay_positive : forall ms, 0 < timer_delay ms.
Proof.
  intros ms. unfold timer_delay.
  destruct (Z.ltb_spec ms 1); cbn [orb]; [lia|].
  destruct (ms >? 2147483647); lia.
Qed.

(** The same for the content request, which is not sent either when the
    genres cannot be encoded. *)
Lemma execute_content_requests : forall b env genres w,
    let w' := snd (execute b (content_request env genres) w) in
    match admission b w, encodeURIComponent env genres with
    | Allowed _, Some q =>
        requests w' = (requests w ++ [CONTENT_URL env ++ "/movies?genres=" ++ q]%string)%list
    | _, _ => w' = w
    end.
Proof.
  intros b env genres w w'. subst w'.
  destruct (encodeURIComponent env genres) as [q|] eqn:Hq.
  - assert (Hfn : content_request env genres
                  = axios_get env (CONTENT_URL env ++ "/movies?genres=" ++ q)%string 3000).
    { unfold content_request. rewrite Hq. reflexivity. }
    rewrite Hfn.
    assert (H := execute_get_requests b env
                   (CONTENT_URL env ++ "/movies?genres=" ++ q)%string 3000 w).
    destruct (admission b w); [exact H | rewrite H; reflexivity].
  - unfold execute. destruct (admission b w) as [b1 | b1 e]; [|reflexivity].
    unfold settle, _withTimeout, content_request. rewrite Hq.
    assert (Hd := timer_delay_positive (requestTimeout b1)).
    destruct (Z.ltb_spec (Date_now w - Date_now w) (timer_delay (requestTimeout b1)));
      [reflexivity | lia].
Qed.

Lemma step1_requests : forall env app user_id w,
    requests (snd (step1 env app user_id w)) =
    (requests w ++
       match admission (userProfileBreaker app) w with
       | Allowed _ => [(USER_PROFILE_URL env ++ "/users/" ++ user_id)%string]
       | Refused _ _ => []
       end)%list.
Proof.
  intros env app user_id w.
  assert (H := execute_get_requests (userProfileBreaker app) env
                 (USER_PROFILE_URL env ++ "/users/" ++ user_id)%string 3000 w).
  unfold step1, profile_request.
  destruct (admission (userProfileBreaker app) w) as [b1 | b1 e].
  - destruct (execute _ _ w) as [[[response | err] cb] w']; cbn [snd] in *.
    + destruct (get_prop response "userId"), (get_prop response "preferences"); exact H.
    + exact H.
  - rewrite H. cbn [snd]. rewrite app_nil_r. reflexivity.
Qed.

Lemma step2_requests : forall env app l w,
    requests (snd (step2 env app l w)) = requests w \/
    exists q, requests (snd (step2 env app l w)) =
              (requests w ++ [CONTENT_URL env ++ "/movies?genres=" ++ q]%string)%list.
Proof.
  intros env app l w. unfold step2.
  destruct (call_join env (preferences (userPreferences l)) ",") as [genres|];
    [|left; reflexivity].
  assert (H := execute_content_requests (contentBreaker app) env genres w).
  cbv zeta in H.
  destruct (execute (contentBreaker app) (content_request env genres) w)
    as [[r cb] w'] eqn:He. cbn [snd] in H.
  assert (Hw : requests w' = requests w \/
               exists q, requests w' =
                         (requests w ++ [CONTENT_URL env ++ "/movies?genres=" ++ q]%string)%list).
  { destruct (admission (contentBreaker app) w);
      [destruct (encodeURIComponent env genres) as [q|]|];
      try (left; rewrite H; reflexivity).
    right. exists q. exact H. }
  destruct r as [response | err]; [destruct (get_prop response "movies")|]; exact Hw.
Qed.

Lemma step3_outcome : forall env l w,
    requests (snd (step3 env l w)) = (requests w ++ [TRENDING_URL env ++ "/trending"]%string)%list /\
    (status (fst (step3 env l w)) = 200 \/ status (fst (step3 env l w)) = 503) /\
    get_prop (body (fst (step3 env l w))) "fallback_triggered_for"
    = Some (fallback_triggered_for l).
Proof.
  intros env l w. unfold step3, axios_get.
  destruct (network env (TRENDING_URL env ++ "/trending") 5000 w) as [[d | e] t].
  - destruct (get_prop d "trending"); cbn; auto.
  - cbn; auto.
Qed.

(** X12. What one recommendation asks of the upstream services: at most
    three requests, in the order user-profile, content, trending and each
    at most once; the user-profile request is sent exactly when its breaker
    lets the call in; the answer has status 200 or 503, and 503 only after
    the trending service was asked. *)
Theorem recommendation_requests :
  forall (env : Env) (app : App) (user_id : string) (w : World),
    let res := fst (fst (recommend env app user_id w)) in
    let w' := snd (recommend env app user_id w) in
    exists ps cs ts : list string,
      requests w' = (requests w ++ ps ++ cs ++ ts)%list /\
      ps = match admission (userProfileBreaker app) w with
           | Allowed _ => [(USER_PROFILE_URL env ++ "/users/" ++ user_id)%string]
           | Refused _ _ => []
           end /\
      (cs = [] \/ exists q, cs = [(CONTENT_URL env ++ "/movies?genres=" ++ q)%string]) /\
      (ts = [] \/ ts = [(TRENDING_URL env ++ "/trending")%string]) /\
      (status res = 200 \/ (status res = 503 /\ ts <> [])).
Proof.
  intros env app user_id w res w'. subst res w'.
  destruct (step1 env app user_id w) as [[l1 app1] w1] eqn:H1.
  destruct (step2 env app1 l1 w1) as [[l2 app2] w2] eqn:H2.
  rewrite (recommend_steps _ _ _ _ _ _ _ _ _ _ H1 H2).
  assert (Hp := step1_requests env app user_id w). rewrite H1 in Hp. cbn [snd] in Hp.
  assert (Hc := step2_requests env app1 l1 w1). rewrite H2 in Hc. cbn [snd] in Hc.
  destruct (step3_outcome env l2 w2) as (Ht & Hs & _).
  set (ps := match admission (userProfileBreaker app) w with
             | Allowed _ => [(USER_PROFILE_URL env ++ "/users/" ++ user_id)%string]
             | Refused _ _ => []
             end) in *.
  assert (Hcs : exists cs,
             requests w2 = (requests w ++ ps ++ cs)%list /\
             (cs = [] \/ exists q, cs = [(CONTENT_URL env ++ "/movies?genres=" ++ q)%string])).
  { destruct Hc as [Hc | [q Hc]].
    - exists []. rewrite Hc, Hp, app_nil_r. split; [reflexivity | left; reflexivity].
    - eexists. rewrite Hc, Hp, <- app_assoc. split; [reflexivity|]. right. exists q. reflexivity. }
  destruct Hcs as (cs & Hlog & Hcs).
  destruct (recommendations l2) as [recs|]; cbn [fst snd].
  - exists ps, cs, []. rewrite app_nil_r.
    split; [exact Hlog|]. split; [reflexivity|]. split; [exact Hcs|].
    split; [left; reflexivity|]. left. reflexivity.
  - exists ps, cs, [(TRENDING_URL env ++ "/trending")%string].
    split; [rewrite Ht, Hlog, <- !app_assoc; reflexivity|].
    split; [reflexivity|]. split; [exact Hcs|].
    split; [right; reflexivity|].
    destruct Hs as [Hs | Hs]; [left; exact Hs | right; split; [exact Hs | discriminate]].
Qed.

(** A call that returned a result has been counted as one success. *)
Lemma execute_fulfilled_counts :
  forall (A : Type) (b b' : CircuitBreaker) (fn : Operation A) (w w' : World) (v : A),
    execute b fn w = (Fulfilled v, b', w') ->
    _totalSuccess b' = _totalSuccess b + 1.
Proof.
  intros A b b' fn w w' v He.
  destruct (execute_courses A b fn w)
    as [(b1 & e & _ & Hr) | (b1 & r & w1 & Hentry & _ & Hr)];
    rewrite Hr in He; [discriminate|].
  destruct (admission_frame b w b1 Hentry) as (_ & _ & _ & _ & Hs & _).
  destruct r as [v1 | err]; [|discriminate].
  injection He as _ <- _.
  destruct (onSuccess_counters b1 w1) as (H1 & _). rewrite H1, Hs. reflexivity.
Qed.

(** ** Failing fast, seen from the route *)

(** X13. With both breakers rejecting, a recommendation costs one request,
    the one to the trending service: nothing is sent to the user-profile
    and content services, the counters of the two breakers are not
    touched, and the answer names both services in
    [fallback_triggered_for]. *)
Theorem open_breakers_cost_one_request :
  forall (env : Env) (app : App) (user_id : string) (w : World)
         (b1 b2 : CircuitBreaker) (e1 e2 : Error),
    admission (userProfileBreaker app) w = Refused b1 e1 ->
    admission (contentBreaker app) w = Refused b2 e2 ->
    let res := fst (fst (recommend env app user_id w)) in
    let app' := snd (fst (recommend env app user_id w)) in
    let w' := snd (recommend env app user_id w) in
    requests w' = (requests w ++ [TRENDING_URL env ++ "/trending"]%string)%list /\
    app' = {| userProfileBreaker := _maybeTransitionFromOpen (userProfileBreaker app) w;
              contentBreaker := _maybeTransitionFromOpen (contentBreaker app) w |} /\
    get_prop (body res) "fallback_triggered_for"
    = Some (JStr "user-profile-service, content-service") /\
    (status res = 200 \/ status res = 503).
Proof.
  intros env app user_id w b1 b2 e1 e2 Hp Hc res app' w'. subst res app' w'.
  assert (Hs1 := admission_shape (userProfileBreaker app) w). cbv zeta in Hs1.
  rewrite Hp in Hs1. destruct Hs1 as (Hb1 & _).
  assert (Hs2 := admission_shape (contentBreaker app) w). cbv zeta in Hs2.
  rewrite Hc in Hs2. destruct Hs2 as (Hb2 & _).
  set (l1 := {| fallbacksTriggered := ["user-profile-service"%string];
                userPreferences := {| userId := JStr user_id;
                                      preferences := DEFAULT_PREFERENCES |};
                recommendations := None |}).
  set (app1 := {| userProfileBreaker := b1; contentBreaker := contentBreaker app |}).
  assert (H1 : step1 env app user_id w = (l1, app1, w)).
  { unfold step1, execute. rewrite Hp. reflexivity. }
  set (l2 := {| fallbacksTriggered := ["user-profile-service"; "content-service"]%string;
                userPreferences := userPreferences l1;
                recommendations := None |}).
  set (app2 := {| userProfileBreaker := b1; contentBreaker := b2 |}).
  assert (H2 : step2 env app1 l1 w = (l2, app2, w)).
  { unfold step2, execute. cbn [l1 userPreferences preferences DEFAULT_PREFERENCES call_join
                                  app1 contentBreaker].
    rewrite Hc. reflexivity. }
  rewrite (recommend_steps _ _ _ _ _ _ _ _ _ _ H1 H2). cbn [l2 recommendations fst snd].
  fold l2. destruct (step3_outcome env l2 w) as (Ht & Hs & Hf).
  split; [exact Ht|]. split; [unfold app2; rewrite Hb1, Hb2; reflexivity|].
  split; [rewrite Hf; reflexivity | exact Hs].
Qed.

(** Ten milliseconds after both breakers opened. *)
Lemma open_breakers_cost_one_request_witness :
  admission (userProfileBreaker (both_open 0)) (at_time 10)
  = Refused (userProfileBreaker (both_open 0)) (CircuitOpenError "user-profile-service" OPEN) /\
  admission (contentBreaker (both_open 0)) (at_time 10)
  = Refused (contentBreaker (both_open 0)) (CircuitOpenError "content-service" OPEN) /\
  requests (snd (recommend env_trending_only (both_open 0) "u1" (at_time 10)))
  = ["http://trending-service:8083/trending"%string].
Proof.
  assert (H1 : admission (userProfileBreaker (both_open 0)) (at_time 10)
               = Refused (userProfileBreaker (both_open 0))
                   (CircuitOpenError "user-profile-service" OPEN)) by by_evaluation.
  assert (H2 : admission (contentBreaker (both_open 0)) (at_time 10)
               = Refused (contentBreaker (both_open 0))
                   (CircuitOpenError "content-service" OPEN)) by by_evaluation.
  split; [exact H1|]. split; [exact H2|].
  destruct (open_breakers_cost_one_request env_trending_only (both_open 0) "u1" (at_time 10)
              _ _ _ _ H1 H2) as (Hlog & _).
  rewrite Hlog. reflexivity.
Defined.

(** ** A profile without a list of preferences *)

(** X14. When the user-profile service answers with a body whose
    [preferences] is not an array, the recommendation is the trending
    fallback with [fallback_triggered_for] naming the content service: the
    content service is not asked and its breaker is left as it was, and the
    call counts as a success of the user-profile breaker. *)
Theorem profile_without_a_list :
  forall (env : Env) (app : App) (user_id : string) (w w1 : World)
         (response uid prefs : JValue) (cb : CircuitBreaker),
    execute (userProfileBreaker app) (profile_request env user_id) w
    = (Fulfilled response, cb, w1) ->
    get_prop response "userId" = Some uid ->
    get_prop response "preferences" = Some prefs ->
    (forall items, prefs <> JArr items) ->
    let res := fst (fst (recommend env app user_id w)) in
    let app' := snd (fst (recommend env app user_id w)) in
    let w' := snd (recommend env app user_id w) in
    requests w' = (requests w1 ++ [TRENDING_URL env ++ "/trending"]%string)%list /\
    contentBreaker app' = contentBreaker app /\
    userProfileBreaker app' = cb /\
    _totalSuccess cb = _totalSuccess (userProfileBreaker app) + 1 /\
    get_prop (body res) "fallback_triggered_for" = Some (JStr "content-service").
Proof.
  intros env app user_id w w1 response uid prefs cb He Hu Hp Hnot res app' w'.
  subst res app' w'.
  set (l1 := {| fallbacksTriggered := [];
                userPreferences := {| userId := uid; preferences := prefs |};
                recommendations := None |}).
  set (app1 := {| userProfileBreaker := cb; contentBreaker := contentBreaker app |}).
  assert (H1 : step1 env app user_id w = (l1, app1, w1)).
  { unfold step1. rewrite He, Hu, Hp. reflexivity. }
  assert (Hjoin : call_join env prefs "," = None).
  { destruct prefs; try reflexivity. destruct (Hnot items eq_refl). }
  set (l2 := {| fallbacksTriggered := ["content-service"%string];
                userPreferences := userPreferences l1;
                recommendations := None |}).
  assert (H2 : step2 env app1 l1 w1 = (l2, app1, w1)).
  { unfold step2. cbn [l1 userPreferences preferences]. rewrite Hjoin. reflexivity. }
  rewrite (recommend_steps _ _ _ _ _ _ _ _ _ _ H1 H2). cbn [l2 recommendations fst snd].
  fold l2. destruct (step3_outcome env l2 w1) as (Ht & _ & Hf).
  split; [exact Ht|]. split; [reflexivity|]. split; [reflexivity|].
  split; [|rewrite Hf; reflexivity].
  exact (execute_fulfilled_counts JValue _ _ _ _ _ _ He).
Qed.

(** The profile of the user called constructor has no preferences: the
    answer is the trending fallback, blamed on the content service. *)
Lemma profile_without_a_list_witness :
  exists cb w1,
    execute (userProfileBreaker initial_app) (profile_request env_with_profiles "constructor")
      (at_time 0)
    = (Fulfilled (JObj [("userId"%string, JStr "constructor");
                        ("preferences"%string, JUndefined)]), cb, w1) /\
    contentBreaker (snd (fst (recommend env_with_profiles initial_app "constructor" (at_time 0))))
    = contentBreaker initial_app /\
    get_prop (body (fst (fst (recommend env_with_profiles initial_app "constructor"
                                (at_time 0)))))
      "fallback_triggered_for" = Some (JStr "content-service").
Proof.
  eexists _, _.
  assert (He : execute (userProfileBreaker initial_app)
                 (profile_request env_with_profiles "constructor") (at_time 0)
               = (Fulfilled (JObj [("userId"%string, JStr "constructor");
                                   ("preferences"%string, JUndefined)]),
                  snd (fst (execute (userProfileBreaker initial_app)
                              (profile_request env_with_profiles "constructor") (at_time 0))),
                  snd (execute (userProfileBreaker initial_app)
                         (profile_request env_with_profiles "constructor") (at_time 0))))
    by by_evaluation.
  split; [exact He|].
  assert (Hu : get_prop (JObj [("userId"%string, JStr "constructor");
                               ("preferences"%string, JUndefined)]) "userId"
               = Some (JStr "constructor")) by reflexivity.
  assert (Hp : get_prop (JObj [("userId"%string, JStr "constructor");
                               ("preferences"%string, JUndefined)]) "preferences"
               = Some JUndefined) by reflexivity.
  assert (Hn : forall items, JUndefined <> JArr items) by discriminate.
  destruct (profile_without_a_list env_with_profiles initial_app "constructor" (at_time 0)
              _ _ _ _ _ He Hu Hp Hn) as (_ & Hc & _ & _ & Hf).
  split; [exact Hc | exact Hf].
Defined.

(** ** The simulation control *)

Lemma lookup_own : forall (A : Type) (own : list (string * A)) (key : string) (a : A),
    lookup own key = Own a -> In (key, a) own.
Proof.
  intros A own key a H. unfold lookup in H.
  destruct (find (fun kv => String.eqb key (fst kv)) own) as [[k v]|] eqn:Hf.
  - apply find_some in Hf. destruct Hf as [Hin Hk]. cbn in Hk.
    apply String.eqb_eq in Hk. subst k. injection H as <-. exact Hin.
  - destruct (existsb (String.eqb key) object_prototype_names); discriminate.
Qed.

Lemma lookup_inherited : forall (A : Type) (own : list (string * A)) (key : string),
    lookup own key = Inherited <->
    (In key object_prototype_names /\ ~ In key (map fst own)).
Proof.
  intros A own key. unfold lookup.
  destruct (find (fun kv => String.eqb key (fst kv)) own) as [[k v]|] eqn:Hf.
  - apply find_some in Hf. destruct Hf as [Hin Hk]. cbn in Hk.
    apply String.eqb_eq in Hk. subst k.
    split; [discriminate|]. intros [_ Hn]. destruct Hn.
    apply in_map_iff. exists (key, v). auto.
  - assert (Hn : ~ In key (map fst own)).
    { intros Hin. apply in_map_iff in Hin. destruct Hin as ([k v] & Hk & Hin).
      cbn in Hk. subst k.
      apply (find_none _ _ Hf) in Hin. cbn in Hin. rewrite String.eqb_refl in Hin.
      discriminate. }
    destruct (existsb (String.eqb key) object_prototype_names) eqn:He.
    + split; [|reflexivity]. intros _. split; [|exact Hn].
      apply existsb_exists in He. destruct He as (x & Hx & Heq).
      apply String.eqb_eq in Heq. subst x. exact Hx.
    + split; [discriminate|]. intros [Hin _].
      assert (Ht : existsb (String.eqb key) object_prototype_names = true)
        by (apply existsb_exists; exists key; split; [exact Hin | apply String.eqb_refl]).
      congruence.
Qed.

(** X15. The simulation control checks before it posts. A request is
    answered with 400, and nothing is sent, when the service has no target
    or the behaviour is not one of normal, slow and fail; otherwise exactly
    one request is sent, the POST of [{ mode: behavior }] to the target's
    [/set-behavior] with a timeout of 5000 ms, and the answer is 200 when
    that succeeds and 502 with the error's message when it fails. *)
Theorem simulate_checks_before_posting :
  forall (out : Outbound) (env : Env) (service behavior : string) (w : World),
    let res := fst (simulate out env service behavior w) in
    let w' := snd (simulate out env service behavior w) in
    let valid := In behavior ["normal"; "slow"; "fail"]%string in
    match targetUrl out env service with
    | None => status res = 400 /\ w' = w
    | Some url =>
        (~ valid -> status res = 400 /\ w' = w) /\
        (valid ->
         requests w' = (requests w ++ [url ++ "/set-behavior"]%string)%list /\
         match post out (url ++ "/set-behavior")%string
                 (JObj [("mode"%string, JStr behavior)]) 5000 w with
         | (inr _, t) =>
             status res = 200 /\ Date_now w' = t /\
             get_prop (body res) "behavior" = Some (JStr behavior)
         | (inl message, t) =>
             status res = 502 /\ Date_now w' = t /\
             get_prop (body res) "details" = Some (JStr message)
         end)
    end.
Proof.
  intros out env service behavior w res w' valid. subst res w' valid.
  unfold simulate.
  destruct (targetUrl out env service) as [url|]; [|split; reflexivity].
  destruct (existsb (String.eqb behavior) ["normal"; "slow"; "fail"]%string) eqn:Hb.
  - cbn [negb]. split.
    + intros Hn. destruct Hn.
      apply existsb_exists in Hb. destruct Hb as (x & Hx & Heq).
      apply String.eqb_eq in Heq. subst x. exact Hx.
    + intros _. unfold axios_post.
      destruct (post out (url ++ "/set-behavior")%string
                  (JObj [("mode"%string, JStr behavior)]) 5000 w) as [[message | data] t];
        cbn; auto.
  - cbn [negb]. split; [intros _; split; reflexivity|].
    intros Hin.
    assert (Ht : existsb (String.eqb behavior) ["normal"; "slow"; "fail"]%string = true)
      by (apply existsb_exists; exists behavior; split; [exact Hin | apply String.eqb_refl]).
    congruence.
Qed.

(** X16. Which service names the simulation control accepts: the two names
    of [serviceMap], and with them the twelve member names that the object
    literal inherits from [Object.prototype], for which the target is the
    source text of the member and not a URL; every other name is answered
    with 400 and the list of the two. *)
Theorem simulate_service_names :
  forall (out : Outbound) (env : Env) (service : string),
    USER_PROFILE_URL env <> ""%string ->
    CONTENT_URL env <> ""%string ->
    (service = "user-profile"%string -> targetUrl out env service = Some (USER_PROFILE_URL env)) /\
    (service = "content"%string -> targetUrl out env service = Some (CONTENT_URL env)) /\
    (In service object_prototype_names ->
     targetUrl out env service = Some (member_text out service)) /\
    (service <> "user-profile"%string -> service <> "content"%string ->
     ~ In service object_prototype_names ->
     forall behavior w,
       simulate out env service behavior w =
       (res_status_json 400
          (JObj [("error"%string,
                  JStr ("Unknown service: " ++ service
                          ++ ". Must be one of: user-profile, content")%string)]), w)).
Proof.
  intros out env service Hu Hc.
  assert (Hue : String.eqb (USER_PROFILE_URL env) "" = false)
    by (apply String.eqb_neq; exact Hu).
  assert (Hce : String.eqb (CONTENT_URL env) "" = false)
    by (apply String.eqb_neq; exact Hc).
  split; [|split; [|split]].
  - intros ->. unfold targetUrl, lookup. cbn. rewrite Hue. reflexivity.
  - intros ->. unfold targetUrl, lookup. cbn. rewrite Hce. reflexivity.
  - intros Hin. unfold targetUrl.
    assert (Hl : lookup (serviceMap env) service = Inherited).
    { apply lookup_inherited. split; [exact Hin|].
      cbn. intros [H | [H | []]]; subst service; cbn in Hin;
        repeat (destruct Hin as [Hin | Hin]; [discriminate|]); exact Hin. }
    rewrite Hl. reflexivity.
  - intros H1 H2 H3 behavior w.
    assert (Hl : lookup (serviceMap env) service = Missing).
    { unfold lookup, serviceMap. cbn [find fst].
      apply String.eqb_neq in H1, H2. rewrite H1, H2.
      destruct (existsb (String.eqb service) object_prototype_names) eqn:He; [|reflexivity].
      destruct H3. apply existsb_exists in He. destruct He as (x & Hx & Heq).
      apply String.eqb_eq in Heq. subst x. exact Hx. }
    unfold simulate, targetUrl. rewrite Hl. reflexivity.
Qed.

(** A service that does not exist, and one that is a member of
    [Object.prototype]. *)
Lemma simulate_service_names_witness :
  USER_PROFILE_URL env_healthy <> ""%string /\
  CONTENT_URL env_healthy <> ""%string /\
  targetUrl sample_outbound env_healthy "constructor"
  = Some "function Object() { [native code] }"%string /\
  simulate sample_outbound env_healthy "billing" "slow" (at_time 0) =
  (res_status_json 400
     (JObj [("error"%string,
             JStr "Unknown service: billing. Must be one of: user-profile, content")]),
   at_time 0).
Proof.
  assert (H1 : USER_PROFILE_URL env_healthy <> ""%string) by discriminate.
  assert (H2 : CONTENT_URL env_healthy <> ""%string) by discriminate.
  split; [exact H1|]. split; [exact H2|].
  destruct (simulate_service_names sample_outbound env_healthy "constructor" H1 H2)
    as (_ & _ & Hm & _).
  destruct (simulate_service_names sample_outbound env_healthy "billing" H1 H2)
    as (_ & _ & _ & Hno).
  split.
  - rewrite Hm; [reflexivity|]. cbn. auto.
  - apply Hno; try discriminate.
    cbn. intros H. repeat (destruct H as [H | H]; [discriminate|]). exact H.
Defined.

(** ** The breakers of the application *)

(** Every route drives the two breakers through their public methods only. *)
Lemma served_breakers : forall app,
    served app ->
    reachable "user-profile-service" app_options (userProfileBreaker app) /\
    reachable "content-service" app_options (contentBreaker app).
Proof.
  intros app H. induction H as [|out env req w app Hs [IH1 IH2]].
  - split; apply reach_new.
  - destruct req as [user_id | service behavior | |]; cbn [serve].
    + destruct (step1 env app user_id w) as [[l1 app1] w1] eqn:H1.
      destruct (step2 env app1 l1 w1) as [[l2 app2] w2] eqn:H2.
      rewrite (recommend_steps _ _ _ _ _ _ _ _ _ _ H1 H2).
      assert (Ha1 : reachable "user-profile-service" app_options (userProfileBreaker app1) /\
                    contentBreaker app1 = contentBreaker app).
      { unfold step1 in H1.
        assert (Hr := reach_execute _ _ JValue (profile_request env user_id) w _ IH1).
        destruct (execute (userProfileBreaker app) (profile_request env user_id) w)
          as [[[response | err] cb] w'].
        - destruct (get_prop response "userId"), (get_prop response "preferences");
            injection H1 as _ <- _; split; try exact Hr; reflexivity.
        - injection H1 as _ <- _. split; [exact Hr | reflexivity]. }
      destruct Ha1 as [Hp1 Hc1].
      assert (Ha2 : userProfileBreaker app2 = userProfileBreaker app1 /\
                    reachable "content-service" app_options (contentBreaker app2)).
      { unfold step2 in H2.
        destruct (call_join env (preferences (userPreferences l1)) ",") as [genres|].
        - assert (Hr := reach_execute _ _ JValue (content_request env genres) w1 _ IH2).
          rewrite <- Hc1 in Hr.
          destruct (execute (contentBreaker app1) (content_request env genres) w1)
            as [[[response | err] cb] w'].
          + destruct (get_prop response "movies");
              injection H2 as _ <- _; split; try exact Hr; reflexivity.
          + injection H2 as _ <- _. split; [reflexivity | exact Hr].
        - injection H2 as _ <- _. split; [reflexivity|]. rewrite Hc1. exact IH2. }
      destruct Ha2 as [Hp2 Hc2].
      destruct (recommendations l2); cbn [fst snd]; rewrite Hp2; split; assumption.
    + destruct (simulate out env service behavior w). cbn [fst snd]. split; assumption.
    + unfold metrics_route.
      assert (Hr1 := reach_getMetrics _ _ (Number_toString env) w _ IH1).
      assert (Hr2 := reach_getMetrics _ _ (Number_toString env) w _ IH2).
      destruct (getMetrics (Number_toString env) (userProfileBreaker app) w) as [m1 cb1].
      destruct (getMetrics (Number_toString env) (contentBreaker app) w) as [m2 cb2].
      cbn [fst snd userProfileBreaker contentBreaker] in *. split; assumption.
    + unfold admin_reset. cbn [fst snd userProfileBreaker contentBreaker].
      split; apply reach_reset; assumption.
Qed.

Lemma reset_of_same_config : forall label options b w,
    same_config (new_CircuitBreaker label options) b ->
    reset b w = new_CircuitBreaker label options.
Proof.
  intros label options b w (H1 & H2 & H3 & H4 & H5 & H6 & H7).
  open_breaker b. cbn in H1, H2, H3, H4, H5, H6, H7. subst. reflexivity.
Qed.

(** X17. Whatever requests the application has served, each to its end,
    [POST /admin/reset-circuit-breakers] puts both breakers back exactly as
    they were when the module was loaded, and answers 200 with its fixed
    message. *)
Theorem admin_reset_restores_the_start :
  forall (app : App) (w : World),
    served app ->
    admin_reset app w =
    (res_json (JObj [("message"%string, JStr "All circuit breakers reset to CLOSED")]),
     initial_app).
Proof.
  intros app w Hs. destruct (served_breakers app Hs) as [H1 H2].
  unfold admin_reset, initial_app.
  rewrite (reset_of_same_config _ _ _ w (reachable_same_config _ _ _ H1)).
  rewrite (reset_of_same_config _ _ _ w (reachable_same_config _ _ _ H2)).
  reflexivity.
Qed.

(** After a recommendation that found every upstream down. *)
Lemma admin_reset_restores_the_start_witness :
  snd (admin_reset
         (snd (fst (serve sample_outbound env_down initial_app (GetRecommendations "u1")
                      (at_time 0))))
         (at_time 9))
  = initial_app.
Proof.
  rewrite (admin_reset_restores_the_start
             (snd (fst (serve sample_outbound env_down initial_app (GetRecommendations "u1")
                          (at_time 0))))
             (at_time 9)
             (served_next sample_outbound env_down (GetRecommendations "u1") (at_time 0)
                initial_app served_start)).
  reflexivity.
Defined.

(** * Properties of the upstream services *)

(** ** user-profile-service *)

(** X18. [GET /users/:userId] outside the fail mode answers 200 with the
    id it was asked for and, for every id but the twelve member names of
    [Object.prototype], the preferences of the default user, Action and
    Sci-Fi; for those twelve the read [USERS[userId]] finds the inherited
    member and [preferences] is [undefined]. In the slow mode the answer
    comes 3000 ms later; in the fail mode it is the 500 of the simulated
    failure, at once. *)
Theorem users_get_the_default_preferences :
  forall (behavior user_id : string) (w : World),
    let res := fst (users_route behavior user_id w) in
    let w' := snd (users_route behavior user_id w) in
    (behavior = "fail"%string -> res = simulated_failure /\ w' = w) /\
    (behavior <> "fail"%string ->
     status res = 200 /\
     get_prop (body res) "userId" = Some (JStr user_id) /\
     (In user_id object_prototype_names ->
      get_prop (body res) "preferences" = Some JUndefined) /\
     (~ In user_id object_prototype_names ->
      get_prop (body res) "preferences" = Some (JArr [JStr "Action"; JStr "Sci-Fi"])) /\
     requests w' = requests w /\
     Date_now w' = Date_now w + (if String.eqb behavior "slow" then 3000 else 0)).
Proof.
  intros behavior user_id w res w'. subst res w'. unfold users_route. split.
  - intros ->. split; reflexivity.
  - intros Hb. apply String.eqb_neq in Hb. rewrite Hb.
    cbn [fst snd status body res_json get_prop field String.eqb].
    split; [reflexivity|]. split; [reflexivity|].
    split; [|split; [|split]].
    + intros Hin.
      assert (Hl : lookup USERS user_id = Inherited).
      { apply lookup_inherited. split; [exact Hin|].
        cbn. intros [H | []]. subst user_id. cbn in Hin.
        repeat (destruct Hin as [Hin | Hin]; [discriminate|]). exact Hin. }
      rewrite Hl. reflexivity.
    + intros Hn.
      destruct (lookup USERS user_id) as [user | |] eqn:Hl.
      * apply lookup_own in Hl. cbn in Hl. destruct Hl as [Hl | []].
        injection Hl as _ <-. reflexivity.
      * apply lookup_inherited in Hl. destruct Hl as [Hin _]. contradiction.
      * reflexivity.
    + destruct (String.eqb behavior "slow"); reflexivity.
    + destruct (String.eqb behavior "slow"); unfold later, Date_now; cbn [snd clock]; lia.
Qed.

(** ** content-service *)

Lemma seen_spec : forall (seen : list Z) (x : Z),
    existsb (Z.eqb x) seen = true <-> In x seen.
Proof.
  intros seen x. rewrite existsb_exists. split.
  - intros (y & Hy & Heq). apply Z.eqb_eq in Heq. subst y. exact Hy.
  - intros H. exists x. split; [exact H | apply Z.eqb_refl].
Qed.

(** The filter with a set [seen] of ids already met. *)
Lemma unique_from_spec : forall movies seen,
    let u := unique_from seen movies in
    NoDup (map movieId u) /\
    (forall m, In m u -> In m movies /\ ~ In (movieId m) seen) /\
    (forall m, In m movies -> ~ In (movieId m) seen -> In (movieId m) (map movieId u)) /\
    (forall m, In m u ->
     find (fun x => movieId x =? movieId m) movies = Some m).
Proof.
  induction movies as [|m rest IH]; intros seen u; subst u.
  - cbn. repeat split; try constructor; intros; contradiction.
  - cbn [unique_from].
    destruct (existsb (Z.eqb (movieId m)) seen) eqn:Hs.
    + apply seen_spec in Hs.
      destruct (IH seen) as (H1 & H2 & H3 & H4). cbv zeta in *.
      split; [exact H1|]. split; [|split].
      * intros x Hx. destruct (H2 x Hx) as [Ha Hb]. split; [right; exact Ha | exact Hb].
      * intros x [-> | Hx] Hn; [contradiction | apply H3; assumption].
      * intros x Hx. cbn [find].
        destruct (Z.eqb_spec (movieId m) (movieId x)) as [Heq | Hne].
        -- destruct (H2 x Hx) as [_ Hb]. rewrite <- Heq in Hb. contradiction.
        -- apply H4. exact Hx.
    + assert (Hns : ~ In (movieId m) seen).
      { intros Hin. apply seen_spec in Hin. congruence. }
      destruct (IH (movieId m :: seen)) as (H1 & H2 & H3 & H4). cbv zeta in *.
      cbn [map]. split; [|split; [|split]].
      * constructor; [|exact H1].
        intros Hin. apply in_map_iff in Hin. destruct Hin as (x & Hid & Hx).
        destruct (H2 x Hx) as [_ Hb]. apply Hb. left. symmetry. exact Hid.
      * intros x [<- | Hx]; [split; [left; reflexivity | exact Hns]|].
        destruct (H2 x Hx) as [Ha Hb]. split; [right; exact Ha|].
        intros Hin. apply Hb. right. exact Hin.
      * intros x [-> | Hx] Hn; [left; reflexivity|].
        destruct (Z.eq_dec (movieId m) (movieId x)) as [Heq | Hne];
          [left; exact Heq|].
        right. apply H3; [exact Hx|]. intros [H | H]; [congruence | contradiction].
      * intros x [<- | Hx]; cbn [find].
        -- rewrite Z.eqb_refl. reflexivity.
        -- destruct (Z.eqb_spec (movieId m) (movieId x)) as [Heq | Hne].
           ++ destruct (H2 x Hx) as [_ Hb]. destruct Hb. left. exact Heq.
           ++ apply H4. exact Hx.
Qed.

Lemma unique_from_nil : forall movies : list Movie,
    NoDup (map movieId (unique_from [] movies)) /\
    (forall m, In m (unique_from [] movies) -> In m movies) /\
    (forall m, In m movies -> In (movieId m) (map movieId (unique_from [] movies))).
Proof.
  intros movies.
  destruct (unique_from_spec movies []) as (H1 & H2 & H3 & _). cbv zeta in *.
  split; [exact H1|]. split; [intros m Hm; apply (H2 m Hm)|].
  intros m Hm. apply H3; [exact Hm | intros []].
Qed.

(** X19. The filter that makes the movies unique: no id is left twice,
    nothing is added, every id that was there is still there, and of the
    movies with the same id it is the first one of the list that stays; a
    list without a repeated id is left as it is. *)
Theorem unique_keeps_first_occurrences :
  forall movies : list Movie,
    let u := unique_from [] movies in
    NoDup (map movieId u) /\
    (forall m, In m u -> In m movies) /\
    (forall m, In m movies -> In (movieId m) (map movieId u)) /\
    (forall m, In m u -> find (fun x => movieId x =? movieId m) movies = Some m) /\
    (NoDup (map movieId movies) -> u = movies).
Proof.
  intros movies u. subst u.
  destruct (unique_from_spec movies []) as (H1 & H2 & H3 & H4). cbv zeta in *.
  split; [exact H1|]. split; [intros m Hm; apply (H2 m Hm)|].
  split; [intros m Hm; apply H3; [exact Hm | intros []]|].
  split; [exact H4|].
  assert (Hgen : forall l seen,
             NoDup (map movieId l) ->
             (forall m, In m l -> ~ In (movieId m) seen) ->
             unique_from seen l = l).
  { induction l as [|m rest IH]; intros seen Hnd Hfresh; [reflexivity|].
    cbn [unique_from].
    destruct (existsb (Z.eqb (movieId m)) seen) eqn:Hs.
    - apply seen_spec in Hs. destruct (Hfresh m (or_introl eq_refl) Hs).
    - cbn [map] in Hnd. inversion Hnd as [|x xs Hx Hxs]; subst.
      f_equal. apply IH; [exact Hxs|].
      intros x Hin [Heq | Hin']; [|apply (Hfresh x (or_intror Hin) Hin')].
      apply Hx. rewrite Heq. apply in_map. exact Hin. }
  intros Hnd. apply Hgen; [exact Hnd | intros m _ []].
Qed.

(** Every list of the catalogue has a movie, and files it under its genre. *)
Lemma catalogue_lists : forall g l,
    In (g, l) MOVIES_BY_GENRE ->
    l <> [] /\ (forall m, In m l -> genre m = g /\ In m catalogue) /\
    ~ In g object_prototype_names.
Proof.
  intros g l H. cbn in H.
  repeat (destruct H as [H | H];
          [injection H as <- <-;
           split; [discriminate|]; split;
           [intros m Hm; cbn in Hm;
            repeat (destruct Hm as [Hm | Hm]; [subst m; split; [reflexivity | cbn; tauto]|]);
            destruct Hm
           |cbn; intros Hin;
            repeat (destruct Hin as [Hin | Hin]; [discriminate|]); exact Hin]|]).
  destruct H.
Qed.

(** What the loop over the genres collects. *)
Lemma collect_spec : forall genres movies,
    match collect genres movies with
    | None => exists g, In g genres /\ In g object_prototype_names
    | Some all =>
        (forall g, In g genres -> ~ In g object_prototype_names) /\
        exists found,
          all = (movies ++ found)%list /\
          (forall m, In m found -> In (genre m) genres /\ In m catalogue) /\
          (forall g l, In g genres -> lookup MOVIES_BY_GENRE g = Own l ->
                       forall m, In m l -> In m found) /\
          (found = [] -> forall g, In g genres -> lookup MOVIES_BY_GENRE g = Missing)
    end.
Proof.
  induction genres as [|g rest IH]; intros movies.
  - cbn. split; [intros g []|]. exists []. rewrite app_nil_r.
    repeat split; intros; contradiction.
  - cbn [collect]. destruct (lookup MOVIES_BY_GENRE g) as [l | |] eqn:Hl.
    + assert (Hin := lookup_own _ _ _ _ Hl).
      destruct (catalogue_lists g l Hin) as (Hne & Hg & Hnp).
      specialize (IH (movies ++ l)%list).
      destruct (collect rest (movies ++ l)) as [all|].
      * destruct IH as (Hno & found & -> & Hf1 & Hf2 & Hf3).
        split; [intros x [<- | Hx]; [exact Hnp | apply Hno; exact Hx]|].
        exists (l ++ found)%list. rewrite app_assoc. split; [reflexivity|].
        split; [|split].
        -- intros m Hm. apply in_app_or in Hm. destruct Hm as [Hm | Hm].
           ++ destruct (Hg m Hm) as [-> Hc]. split; [left; reflexivity | exact Hc].
           ++ destruct (Hf1 m Hm) as [Ha Hb]. split; [right; exact Ha | exact Hb].
        -- intros x lx [<- | Hx] Hlx m Hm.
           ++ rewrite Hl in Hlx. injection Hlx as <-. apply in_or_app. left. exact Hm.
           ++ apply in_or_app. right. apply (Hf2 x lx Hx Hlx m Hm).
        -- intros Hnil. apply app_eq_nil in Hnil. destruct Hnil as [Hnil _]. contradiction.
      * destruct IH as (x & Hx & Hp). exists x. split; [right; exact Hx | exact Hp].
    + exists g. split; [left; reflexivity|]. apply lookup_inherited in Hl. apply Hl.
    + assert (Hnp : ~ In g object_prototype_names).
      { intros Hin. unfold lookup in Hl.
        destruct (find _ MOVIES_BY_GENRE); [discriminate|].
        assert (Ht : existsb (String.eqb g) object_prototype_names = true)
          by (apply existsb_exists; exists g; split; [exact Hin | apply String.eqb_refl]).
        rewrite Ht in Hl. discriminate. }
      specialize (IH movies).
      destruct (collect rest movies) as [all|].
      * destruct IH as (Hno & found & -> & Hf1 & Hf2 & Hf3).
        split; [intros x [<- | Hx]; [exact Hnp | apply Hno; exact Hx]|].
        exists found. split; [reflexivity|]. split; [|split].
        -- intros m Hm. destruct (Hf1 m Hm) as [Ha Hb]. split; [right; exact Ha | exact Hb].
        -- intros x lx [<- | Hx] Hlx m Hm; [congruence | apply (Hf2 x lx Hx Hlx m Hm)].
        -- intros Hnil x [<- | Hx]; [exact Hl | apply Hf3; assumption].
      * destruct IH as (x & Hx & Hp). exists x. split; [right; exact Hx | exact Hp].
Qed.

(** X20. Outside the fail mode, an answer of [GET /movies] is a 200 with
    a list of movies that is never empty and has no id twice: the movies of
    the catalogue filed under the genres asked for, every one of them, or,
    when none of the genres is in the catalogue, the two default movies. *)
Theorem movies_are_never_empty :
  forall (behavior : string) (q : QueryValue) (w w' : World) (res : HttpResponse),
    behavior <> "fail"%string ->
    movies_route behavior q w = (Some res, w') ->
    exists genres movies,
      parse_genres q = Some genres /\
      res = res_json (JObj [("movies"%string, JArr (map json_of_movie movies))]) /\
      movies <> [] /\
      NoDup (map movieId movies) /\
      ((forall m, In m movies -> In (genre m) genres /\ In m catalogue) \/
       (movies = DEFAULT_MOVIES /\
        forall g, In g genres -> lookup MOVIES_BY_GENRE g = Missing)) /\
      (forall g l, In g genres -> lookup MOVIES_BY_GENRE g = Own l ->
                   forall m, In m l -> In (movieId m) (map movieId movies)).
Proof.
  intros behavior q w w' res Hb H. apply String.eqb_neq in Hb.
  unfold movies_route in H.
  destruct (parse_genres q) as [genres|]; [|discriminate].
  rewrite Hb in H. unfold selected_movies in H.
  assert (Hc := collect_spec genres []).
  destruct (collect genres []) as [all|]; [|discriminate].
  destruct Hc as (_ & found & Hall & Hf1 & Hf2 & Hf3). cbn [app] in Hall. subst all.
  injection H as <- _.
  destruct (unique_from_nil found) as (U1 & U2 & U3).
  exists genres.
  destruct found as [|m0 rest] eqn:Hfound.
  - exists DEFAULT_MOVIES. cbn [List.length Nat.eqb].
    split; [reflexivity|]. split; [reflexivity|]. split; [discriminate|].
    split; [repeat constructor; cbn; intuition discriminate|].
    split; [right; split; [reflexivity | apply Hf3; reflexivity]|].
    intros g l Hg Hl m Hm. destruct (Hf2 g l Hg Hl m Hm).
  - rewrite <- Hfound in *. 
    assert (Hlen : Nat.eqb (List.length found) 0 = false) by (rewrite Hfound; reflexivity).
    rewrite Hlen. exists (unique_from [] found).
    split; [reflexivity|]. split; [reflexivity|]. split.
    { intros Hnil. assert (Hin : In (movieId m0) (map movieId (unique_from [] found)))
        by (apply U3; rewrite Hfound; left; reflexivity).
      rewrite Hnil in Hin. destruct Hin. }
    split; [exact U1|]. split.
    + left. intros m Hm. apply Hf1. apply U2. exact Hm.
    + intros g l Hg Hl m Hm. apply U3. apply (Hf2 g l Hg Hl m Hm).
Qed.

(** Action asked for twice, and a genre the catalogue does not have. *)
Lemma movies_are_never_empty_witness :
  "normal"%string <> "fail"%string /\
  exists res,
    movies_route "normal" (QText "Action,Drama,Action") (at_time 0) = (Some res, at_time 0) /\
    exists movies,
      res = res_json (JObj [("movies"%string, JArr (map json_of_movie movies))]) /\
      NoDup (map movieId movies).
Proof.
  assert (Hb : "normal"%string <> "fail"%string) by discriminate.
  split; [exact Hb|].
  eexists.
  assert (H : movies_route "normal" (QText "Action,Drama,Action") (at_time 0)
              = (Some (res_json
                         (JObj [("movies"%string,
                                 JArr (map json_of_movie
                                         [mkMovie 102 "The Dark Knight" "Action";
                                          mkMovie 103 "Mad Max: Fury Road" "Action";
                                          mkMovie 104 "John Wick" "Action"]))])),
                 at_time 0)) by by_evaluation.
  split; [exact H|].
  destruct (movies_are_never_empty "normal" _ _ _ _ Hb H)
    as (genres & movies & _ & Hres & _ & Hnd & _).
  exists movies. split; [exact Hres | exact Hnd].
Defined.

(** X21. When [GET /movies] throws instead of answering: for a [genres]
    parameter that the query parser turned into an array or an object,
    whatever the mode, and, outside the fail mode, for a list of genres that
    holds a member name of [Object.prototype]; in every other case it
    answers, in the fail mode with the 500 of the simulated failure. *)
Theorem movies_route_throws :
  forall (behavior : string) (q : QueryValue) (w : World),
    (fst (movies_route behavior q w) = None <->
     (q = QStructured \/
      (behavior <> "fail"%string /\
       exists genres g,
         parse_genres q = Some genres /\ In g genres /\ In g object_prototype_names))) /\
    (behavior = "fail"%string -> q <> QStructured ->
     movies_route behavior q w = (Some simulated_failure, w)).
Proof.
  intros behavior q w. unfold movies_route. split.
  - destruct (parse_genres q) as [genres|] eqn:Hp.
    + assert (Hq : q <> QStructured) by (intros ->; discriminate).
      destruct (String.eqb_spec behavior "fail") as [Hb | Hb].
      * cbn [fst]. split; [discriminate|].
        intros [H | [H _]]; contradiction.
      * unfold selected_movies. assert (Hc := collect_spec genres []).
        destruct (collect genres []) as [all|]; cbn [fst].
        -- destruct Hc as (Hno & _). split; [discriminate|].
           intros [H | (_ & gs & g & Hgs & Hg & Hpn)]; [contradiction|].
           injection Hgs as <-. destruct (Hno g Hg Hpn).
        -- destruct Hc as (g & Hg & Hpn). split; [|reflexivity].
           intros _. right. split; [exact Hb|]. exists genres, g. auto.
    + cbn [fst]. split; [|reflexivity]. intros _. left.
      destruct q as [|s|]; cbn in Hp; [discriminate | | reflexivity].
      destruct (String.eqb s ""); discriminate.
  - intros -> Hq. destruct q as [|s|]; cbn; [reflexivity | | contradiction].
    destruct (String.eqb s ""); reflexivity.
Qed.

(** ** The genres between the two services *)

Lemma split_on_comma_free : forall s,
    comma_free s = true -> split_on "," s = [s].
Proof.
  induction s as [|c s IH]; intros H; [reflexivity|].
  unfold comma_free in H. cbn [list_ascii_of_string forallb] in H.
  apply andb_true_iff in H. destruct H as [Hc Hs].
  cbn [split_on]. apply negb_true_iff in Hc. rewrite Hc.
  rewrite (IH Hs). reflexivity.
Qed.

Lemma split_on_append : forall s rest,
    comma_free s = true ->
    split_on "," (s ++ "," ++ rest) = s :: split_on "," rest.
Proof.
  induction s as [|c s IH]; intros rest H.
  - reflexivity.
  - unfold comma_free in H. cbn [list_ascii_of_string forallb] in H.
    apply andb_true_iff in H. destruct H as [Hc Hs].
    apply negb_true_iff in Hc.
    change ((String c s ++ "," ++ rest)%string) with (String c (s ++ "," ++ rest)%string).
    cbn [split_on]. rewrite Hc. rewrite (IH rest Hs). reflexivity.
Qed.

Lemma split_join : forall l,
    l <> [] -> forallb comma_free l = true ->
    split_on "," (join_strings "," l) = l.
Proof.
  induction l as [|x rest IH]; intros Hne Hall; [congruence|].
  cbn [forallb] in Hall. apply andb_true_iff in Hall. destruct Hall as [Hx Hrest].
  destruct rest as [|y rest'].
  - cbn [join_strings]. apply split_on_comma_free. exact Hx.
  - change (join_strings "," (x :: y :: rest'))
      with (x ++ "," ++ join_strings "," (y :: rest'))%string.
    rewrite split_on_append by exact Hx. f_equal.
    apply IH; [discriminate | exact Hrest].
Qed.

(** X22. The genres survive the way from one service to the other: what
    [split(',')] of the content service makes of the string that
    [join(',')] of the recommendation service made of a list of comma-free
    strings is that list again, in the same order; the one exception is the
    list of the single empty string, which arrives as no genre at all. *)
Theorem genres_round_trip :
  forall l : list string,
    forallb comma_free l = true ->
    parse_genres (QText (join_strings "," l)) =
    Some (if list_eq_dec string_dec l [""%string] then [] else l).
Proof.
  intros l Hall. unfold parse_genres.
  destruct l as [|x rest].
  - destruct (list_eq_dec string_dec [] [""%string]); [discriminate | reflexivity].
  - destruct (String.eqb_spec (join_strings "," (x :: rest)) "") as [He | Hn].
    + assert (Hl : x :: rest = [""%string]).
      { destruct rest as [|y rest']; [cbn in He; subst x; reflexivity|].
        change (join_strings "," (x :: y :: rest'))
          with (x ++ "," ++ join_strings "," (y :: rest'))%string in He.
        destruct x; discriminate. }
      destruct (list_eq_dec string_dec (x :: rest) [""%string]); [reflexivity | contradiction].
    + destruct (list_eq_dec string_dec (x :: rest) [""%string]) as [Hl | Hl].
      * rewrite Hl in Hn. cbn in Hn. congruence.
      * rewrite split_join; [reflexivity | discriminate | exact Hall].
Qed.

(** The preferences of the default user. *)
Lemma genres_round_trip_witness :
  forallb comma_free ["Action"; "Sci-Fi"]%string = true /\
  parse_genres (QText "Action,Sci-Fi") = Some ["Action"; "Sci-Fi"]%string.
Proof.
  assert (H : forallb comma_free ["Action"; "Sci-Fi"]%string = true) by by_evaluation.
  split; [exact H|].
  exact (genres_round_trip ["Action"; "Sci-Fi"]%string H).
Defined.

(** ** The simulated behaviour *)

Lemma accepted_mode_spec : forall mode m,
    accepted_mode mode = Some m <->
    (mode = JStr m /\ In m ["normal"; "slow"; "fail"]%string).
Proof.
  intros mode m. unfold accepted_mode. split.
  - destruct mode; try discriminate.
    destruct (existsb (String.eqb s) ["normal"; "slow"; "fail"]%string) eqn:He; [|discriminate].
    intros H. injection H as <-. split; [reflexivity|].
    apply existsb_exists in He. destruct He as (x & Hx & Heq).
    apply String.eqb_eq in Heq. subst x. exact Hx.
  - intros [-> Hin].
    assert (He : existsb (String.eqb m) ["normal"; "slow"; "fail"]%string = true)
      by (apply existsb_exists; exists m; split; [exact Hin | apply String.eqb_refl]).
    rewrite He. reflexivity.
Qed.

Lemma set_behavior_keeps_a_mode : forall service behavior data,
    In behavior ["normal"; "slow"; "fail"]%string ->
    In match set_behavior service behavior data with
       | Some (_, behavior') => behavior'
       | None => behavior
       end ["normal"; "slow"; "fail"]%string.
Proof.
  intros service behavior data Hin. unfold set_behavior.
  destruct (get_prop data "mode") as [mode|]; [|exact Hin].
  destruct (accepted_mode mode) as [m|] eqn:Hm; [|exact Hin].
  apply accepted_mode_spec in Hm. apply Hm.
Qed.

(** X23. The variable [behavior] of an upstream service, which starts as
    normal, is one of normal, slow and fail after any sequence of requests
    to [POST /set-behavior], whatever their bodies; so the three modes are
    the only ones the routes of the service ever see. *)
Theorem behavior_is_always_a_mode :
  forall (service : string) (posts : list JValue),
    In (behavior_after service posts "normal") ["normal"; "slow"; "fail"]%string.
Proof.
  intros service posts.
  assert (Hgen : forall behavior,
             In behavior ["normal"; "slow"; "fail"]%string ->
             In (behavior_after service posts behavior) ["normal"; "slow"; "fail"]%string).
  { induction posts as [|data rest IH]; intros behavior Hin; [exact Hin|].
    cbn [behavior_after]. apply IH. apply set_behavior_keeps_a_mode. exact Hin. }
  apply Hgen. left. reflexivity.
Qed.

(** X24. The two lists of modes agree: whenever the simulation control
    does not answer 400, and so has posted [{ mode: behavior }], the
    [POST /set-behavior] of an upstream service accepts that body, answers
    200 and sets its variable to that behaviour, whatever it was before. *)
Theorem set_behavior_accepts_what_simulate_posts :
  forall (out : Outbound) (env : Env) (service behavior : string) (w : World)
         (upstream current : string),
    status (fst (simulate out env service behavior w)) <> 400 ->
    set_behavior upstream current (JObj [("mode"%string, JStr behavior)]) =
    Some (res_json (JObj [("service"%string, JStr upstream);
                          ("behavior"%string, JStr behavior)]), behavior).
Proof.
  intros out env service behavior w upstream current Hs.
  unfold simulate in Hs.
  destruct (targetUrl out env service) as [url|]; [|destruct Hs; reflexivity].
  destruct (existsb (String.eqb behavior) ["normal"; "slow"; "fail"]%string) eqn:Hb;
    [|destruct Hs; reflexivity].
  unfold set_behavior. cbn [get_prop field String.eqb Ascii.eqb Bool.eqb].
  unfold accepted_mode. rewrite Hb. reflexivity.
Qed.

(** The content service is told to be slow. *)
Lemma set_behavior_accepts_what_simulate_posts_witness :
  status (fst (simulate sample_outbound env_healthy "content" "slow" (at_time 0))) <> 400 /\
  set_behavior "content-service" "normal" (JObj [("mode"%string, JStr "slow")]) =
  Some (res_json (JObj [("service"%string, JStr "content-service");
                        ("behavior"%string, JStr "slow")]), "slow"%string).
Proof.
  assert (H : status (fst (simulate sample_outbound env_healthy "content" "slow" (at_time 0)))
              <> 400) by by_evaluation.
  split; [exact H|].
  exact (set_behavior_accepts_what_simulate_posts sample_outbound env_healthy "content" "slow"
           (at_time 0) "content-service" "normal" H).
Defined.

(** * The services together *)

Lemma users_route_answer : forall behavior user_id w,
    behavior <> "fail"%string ->
    ~ In user_id object_prototype_names ->
    fst (users_route behavior user_id w) =
    res_json (JObj [("userId"%string, JStr user_id);
                    ("preferences"%string, JArr [JStr "Action"; JStr "Sci-Fi"])]).
Proof.
  intros behavior user_id w Hb Hn. unfold users_route.
  apply String.eqb_neq in Hb. rewrite Hb. cbn [fst].
  destruct (lookup USERS user_id) as [user | |] eqn:Hl.
  - apply lookup_own in Hl. cbn in Hl. destruct Hl as [Hl | []].
    injection Hl as _ <-. reflexivity.
  - apply lookup_inherited in Hl. destruct Hl as [Hin _]. contradiction.
  - reflexivity.
Qed.

(** A GET that a breaker of the application lets in and that is answered
    within the two seconds of the timer. *)
Lemma execute_get_in_time : forall b b1 env url timeout w data t,
    requestTimeout b = 2000 ->
    admission b w = Allowed b1 ->
    network env url timeout w = (Fulfilled data, t) ->
    t - Date_now w < 2000 ->
    execute b (axios_get env url timeout) w =
    (Fulfilled data,
     _onSuccess b1 {| clock := t; requests := (requests w ++ [url])%list |},
     {| clock := t; requests := (requests w ++ [url])%list |}).
Proof.
  intros b b1 env url timeout w data t Hrt Hentry Hnet Ht.
  destruct (admission_frame b w b1 Hentry) as ((_ & Hrt1 & _) & _).
  unfold execute. rewrite Hentry. unfold settle, _withTimeout, axios_get.
  rewrite Hnet, Hrt1, Hrt. cbn [Date_now clock].
  change (timer_delay 2000) with 2000.
  destruct (Z.ltb_spec (t - Date_now w) 2000) as [_ | Hge]; [reflexivity | lia].
Qed.

(** X25. The three services at work. For a user id that is not a member
    name of [Object.prototype], with both breakers letting the call in and
    the user-profile and content services, in their normal mode, answering
    within the two seconds of the timer, the recommendation is a 200 with
    the preferences Action and Sci-Fi, the six movies of these two genres in
    the order of the catalogue, and no [fallback_triggered_for]; it costs
    the two requests, and the trending service is not asked. *)
Theorem healthy_services_recommend_by_genre :
  forall (env : Env) (app : App) (user_id q : string) (w : World)
         (b1 b2 : CircuitBreaker) (t1 t2 : Z) (movies : HttpResponse),
    served app ->
    ~ In user_id object_prototype_names ->
    let url1 := (USER_PROFILE_URL env ++ "/users/" ++ user_id)%string in
    let url2 := (CONTENT_URL env ++ "/movies?genres=" ++ q)%string in
    let w1 := {| clock := t1; requests := (requests w ++ [url1])%list |} in
    admission (userProfileBreaker app) w = Allowed b1 ->
    network env url1 3000 w = (Fulfilled (body (fst (users_route "normal" user_id w))), t1) ->
    t1 - Date_now w < 2000 ->
    encodeURIComponent env "Action,Sci-Fi" = Some q ->
    admission (contentBreaker app) w1 = Allowed b2 ->
    fst (movies_route "normal" (QText "Action,Sci-Fi") w1) = Some movies ->
    network env url2 3000 w1 = (Fulfilled (body movies), t2) ->
    t2 - t1 < 2000 ->
    let res := fst (fst (recommend env app user_id w)) in
    status res = 200 /\
    body res =
    JObj [("userPreferences"%string,
           JObj [("userId"%string, JStr user_id);
                 ("preferences"%string, JArr [JStr "Action"; JStr "Sci-Fi"])]);
          ("recommendations"%string,
           JArr (map json_of_movie
                   [mkMovie 102 "The Dark Knight" "Action";
                    mkMovie 103 "Mad Max: Fury Road" "Action";
                    mkMovie 104 "John Wick" "Action";
                    mkMovie 101 "Inception" "Sci-Fi";
                    mkMovie 105 "Interstellar" "Sci-Fi";
                    mkMovie 106 "The Matrix" "Sci-Fi"]))] /\
    requests (snd (recommend env app user_id w)) = (requests w ++ [url1; url2])%list.
Proof.
  intros env app user_id q w b1 b2 t1 t2 movies Hs Hid url1 url2 w1
         Ha1 Hn1 Ht1 Hq Ha2 Hm Hn2 Ht2 res. subst res.
  destruct (served_breakers app Hs) as [Hr1 Hr2].
  destruct (reachable_same_config _ _ _ Hr1) as (_ & Hrt1 & _).
  destruct (reachable_same_config _ _ _ Hr2) as (_ & Hrt2 & _).
  cbn in Hrt1, Hrt2.
  rewrite users_route_answer in Hn1 by (try discriminate; exact Hid).
  cbn [body res_json] in Hn1.
  assert (Hmovies : fst (movies_route "normal" (QText "Action,Sci-Fi") w1)
                    = Some (res_json
                              (JObj [("movies"%string,
                                      JArr (map json_of_movie
                                              [mkMovie 102 "The Dark Knight" "Action";
                                               mkMovie 103 "Mad Max: Fury Road" "Action";
                                               mkMovie 104 "John Wick" "Action";
                                               mkMovie 101 "Inception" "Sci-Fi";
                                               mkMovie 105 "Interstellar" "Sci-Fi";
                                               mkMovie 106 "The Matrix" "Sci-Fi"]))])))
    by reflexivity.
  rewrite Hmovies in Hm. injection Hm as <-. cbn [body res_json] in Hn2.
  assert (He1 := execute_get_in_time _ _ env url1 3000 w _ t1 Hrt1 Ha1 Hn1 Ht1).
  fold w1 in He1.
  assert (Ht2' : t2 - Date_now w1 < 2000) by exact Ht2.
  assert (He2 := execute_get_in_time _ _ env url2 3000 w1 _ t2 Hrt2 Ha2 Hn2 Ht2').
  unfold recommend, step1, profile_request. fold url1. rewrite He1.
  cbn [get_prop field String.eqb Ascii.eqb Bool.eqb].
  unfold step2. cbn [userPreferences preferences call_join map join_element ToString
                       join_strings contentBreaker].
  change ("Action" ++ "," ++ "Sci-Fi")%string with "Action,Sci-Fi"%string.
  assert (Hfn : content_request env "Action,Sci-Fi" = axios_get env url2 3000).
  { unfold content_request. rewrite Hq. reflexivity. }
  rewrite Hfn, He2.
  cbn [get_prop field String.eqb Ascii.eqb Bool.eqb recommendations js_or truthy
         fst snd requests].
  split; [reflexivity|]. split; [reflexivity|].
  unfold w1. cbn [requests]. rewrite <- app_assoc. reflexivity.
Qed.

(** User u7 on fresh breakers. *)
Lemma healthy_services_recommend_by_genre_witness :
  status (fst (fst (recommend env_of_services initial_app "u7" (at_time 0)))) = 200 /\
  requests (snd (recommend env_of_services initial_app "u7" (at_time 0)))
  = ["http://user-profile-service:8081/users/u7";
     "http://content-service:8082/movies?genres=Action%2CSci-Fi"]%string.
Proof.
  assert (Hid : ~ In "u7"%string object_prototype_names).
  { cbn. intros H. repeat (destruct H as [H | H]; [discriminate|]). exact H. }
  assert (Ha1 : admission (userProfileBreaker initial_app) (at_time 0)
                = Allowed (userProfileBreaker initial_app)) by by_evaluation.
  assert (Hn1 : network env_of_services
                  (USER_PROFILE_URL env_of_services ++ "/users/" ++ "u7")%string 3000
                  (at_time 0)
                = (Fulfilled (body (fst (users_route "normal" "u7" (at_time 0)))), 5))
    by by_evaluation.
  assert (Ht1 : 5 - Date_now (at_time 0) < 2000) by by_evaluation.
  assert (Hq : encodeURIComponent env_of_services "Action,Sci-Fi"
               = Some "Action%2CSci-Fi"%string) by by_evaluation.
  assert (Ha2 : admission (contentBreaker initial_app)
                  {| clock := 5;
                     requests :=
                       (requests (at_time 0)
                          ++ [(USER_PROFILE_URL env_of_services ++ "/users/" ++ "u7")%string])%list |}
                = Allowed (contentBreaker initial_app)) by by_evaluation.
  assert (Hm : fst (movies_route "normal" (QText "Action,Sci-Fi")
                      {| clock := 5;
                         requests :=
                           (requests (at_time 0)
                              ++ [(USER_PROFILE_URL env_of_services ++ "/users/" ++ "u7")%string])%list |})
               = Some (res_json
                         (JObj [("movies"%string,
                                 JArr (map json_of_movie
                                         (unique_from []
                                            (mkMovie 102 "The Dark Knight" "Action"
                                             :: mkMovie 103 "Mad Max: Fury Road" "Action"
                                             :: mkMovie 104 "John Wick" "Action"
                                             :: mkMovie 101 "Inception" "Sci-Fi"
                                             :: mkMovie 105 "Interstellar" "Sci-Fi"
                                             :: mkMovie 106 "The Matrix" "Sci-Fi" :: nil))))])))
    by by_evaluation.
  assert (Hn2 : network env_of_services
                  (CONTENT_URL env_of_services ++ "/movies?genres=" ++ "Action%2CSci-Fi")%string
                  3000
                  {| clock := 5;
                     requests :=
                       (requests (at_time 0)
                          ++ [(USER_PROFILE_URL env_of_services ++ "/users/" ++ "u7")%string])%list |}
                = (Fulfilled
                     (body (res_json
                              (JObj [("movies"%string,
                                      JArr (map json_of_movie
                                              (unique_from []
                                                 (mkMovie 102 "The Dark Knight" "Action"
                                                  :: mkMovie 103 "Mad Max: Fury Road" "Action"
                                                  :: mkMovie 104 "John Wick" "Action"
                                                  :: mkMovie 101 "Inception" "Sci-Fi"
                                                  :: mkMovie 105 "Interstellar" "Sci-Fi"
                                                  :: mkMovie 106 "The Matrix" "Sci-Fi"
                                                  :: nil))))]))), 10))
    by by_evaluation.
  assert (Ht2 : 10 - 5 < 2000) by by_evaluation.
  destruct (healthy_services_recommend_by_genre env_of_services initial_app "u7"
              "Action%2CSci-Fi" (at_time 0) _ _ 5 10 _
              served_start Hid Ha1 Hn1 Ht1 Hq Ha2 Hm Hn2 Ht2) as (Hst & _ & Hlog).
  split; [exact Hst|]. rewrite Hlog. reflexivity.
Defined.


(** * Probes that overlap *)

(** The turns of [overlapping_probes] are turns of the breaker. *)
Lemma overlapping_probes_interleaved : interleaved "svc" quick_reopen overlapping_probes.
Proof.
  unfold overlapping_probes. cbv zeta.
  apply turn_success. apply turn_state. apply turn_failure.
  unfold entry. apply turn_entry. apply turn_entry.
  apply reachable_interleaved. cbn [repeat_execute].
  repeat apply reach_execute. apply reach_new.
Qed.

(** The successes of a half-open breaker can run ahead of its trials: the
    second of two overlapping probes answers after the first has failed and
    the breaker has reopened and gone HALF_OPEN again. *)
Lemma invariants_hold_counterexample :
  0 <= nullish (opt_windowSize quick_reopen) 10 /\
  0 <= nullish (opt_halfOpenMaxTrials quick_reopen) 3 /\
  interleaved "svc" quick_reopen overlapping_probes /\
  _state overlapping_probes = HALF_OPEN /\
  _halfOpenSuccesses overlapping_probes = 1 /\
  _halfOpenTrials overlapping_probes = 0 /\
  ~ (_halfOpenSuccesses overlapping_probes <= _halfOpenTrials overlapping_probes).
Proof.
  split; [by_evaluation|]. split; [by_evaluation|].
  split; [exact overlapping_probes_interleaved|].
  assert (Hs : _halfOpenSuccesses overlapping_probes = 1) by by_evaluation.
  assert (Ht : _halfOpenTrials overlapping_probes = 0) by by_evaluation.
  split; [by_evaluation|]. split; [exact Hs|]. split; [exact Ht|].
  rewrite Hs, Ht. lia.
Qed.
